(** * Idea Factory: pipeline orchestration and routing

    A shallow embedding of the server of the idea-factory repository:
    - [server/services/evaluation.ts]: [routeIdea], [ROUTING_THRESHOLDS],
      [evaluateIdea], [saveEvaluation], [getEvaluation];
    - [server/services/enrichment.ts]: [enrichIdea], [saveEnrichment],
      [getEnrichment];
    - [server/db.ts]: the tables [ideas], [idea_enrichment], [idea_evaluation]
      with their primary and foreign keys;
    - [server/index.ts]: the request handlers and their detached tasks.

    JavaScript [async] functions are embedded as programs of a small free
    monad ([async]) whose nodes are the suspension points ([await]), the
    synchronous primitives and the un-awaited calls of an [async] arrow
    function.  An interpreter runs them against the record store, a pool of
    tasks in flight and a trace of what the server did; the identifiers,
    the clocks and the answers of the two text generators come from outside
    ([world]).  A request handler is run to its end in one go ([handle]); a
    detached task stays in the pool and is resumed one suspension point at a
    time ([resume]) or run to its end ([complete]).  The routes [/health]
    and [GET /api/ideas] write nothing and start no task; they are left
    out. *)

From Stdlib Require Import String Ascii List Bool Arith ZArith QArith Lia.
Import ListNotations.

Close Scope Q_scope.
Close Scope Z_scope.
Local Open Scope list_scope.
Local Open Scope string_scope.
Local Open Scope nat_scope.

(* ================================================================== *)
(** ** Numbers and routing (server/services/evaluation.ts)             *)
(* ================================================================== *)

(** A JavaScript [number] that carries a score.  The finite values of a
    double are rationals and [>=] on them is the order of [Q]; the scores
    come out of [JSON.parse], which yields no [NaN]. *)
Definition number : Type := Q.

(** [a >= b] on numbers. *)
Definition geq (a b : number) : bool := Qle_bool b a.

Module ROUTING_THRESHOLDS.
Definition BUILD_NOW : number := 80%Q.
Definition BUILD_LATER : number := 60%Q.
Definition RESEARCH : number := 40%Q.
Definition ARCHIVE : number := 0%Q.
End ROUTING_THRESHOLDS.

(** The return type of [routeIdea], a union of four string literals. *)
Inductive RouteDecision : Type :=
| GENERATE_BLUEPRINT
| DEFER_WITH_BLUEPRINT
| NEEDS_VALIDATION
| ARCHIVE_WITH_LEARNING.

Definition RouteDecision_to_string (r : RouteDecision) : string :=
  match r with
  | GENERATE_BLUEPRINT => "GENERATE_BLUEPRINT"
  | DEFER_WITH_BLUEPRINT => "DEFER_WITH_BLUEPRINT"
  | NEEDS_VALIDATION => "NEEDS_VALIDATION"
  | ARCHIVE_WITH_LEARNING => "ARCHIVE_WITH_LEARNING"
  end.

Definition routeIdea (evaluationScore : number) (recommendation : string)
  : RouteDecision :=
  if geq evaluationScore ROUTING_THRESHOLDS.BUILD_NOW
     && String.eqb recommendation "build-now"
  then GENERATE_BLUEPRINT
  else if geq evaluationScore ROUTING_THRESHOLDS.BUILD_LATER
  then DEFER_WITH_BLUEPRINT
  else if geq evaluationScore ROUTING_THRESHOLDS.RESEARCH
  then NEEDS_VALIDATION
  else ARCHIVE_WITH_LEARNING.

(* ================================================================== *)
(** ** Thrown errors and JSON text                                     *)
(* ================================================================== *)

(** The outcome of a [try] block or of a settled promise: a value, or the
    message of the [Error] that was thrown. *)
Inductive result (A : Type) : Type :=
| Ok (a : A)
| Err (message : string).
Arguments Ok {A} a.
Arguments Err {A} message.

(** [JSON.stringify] and [JSON.parse] at one type of documents. *)
Class JSON (A : Type) : Type := {
  JSON_stringify : A -> string;
  JSON_parse : string -> result A
}.

(** [JSON.stringify] and [JSON.parse] on [string[]] documents, on strings
    of one-byte characters.  [parse] reads the arrays of strings
    [stringify] writes, in any layout, and the escapes of the characters
    below 256.  A text with an escape of a code unit from 0100 up, and a
    JSON value that is not an array of strings (which the code, casting
    unchecked, would hand on as a [string[]]), have no image at this type
    and are refused here; the server parses at this type what
    [saveEvaluation] wrote with [stringify], and ['[]']. *)
Module JSONStrings.

Definition dquote : ascii := "034"%char.
Definition backslash : ascii := "092"%char.

Definition hex_digit (n : nat) : ascii :=
  match n with
  | 0 => "0" | 1 => "1" | 2 => "2" | 3 => "3" | 4 => "4" | 5 => "5"
  | 6 => "6" | 7 => "7" | 8 => "8" | 9 => "9" | 10 => "a" | 11 => "b"
  | 12 => "c" | 13 => "d" | 14 => "e" | _ => "f"
  end%char.

Definition hex_value (c : ascii) : option nat :=
  let n := nat_of_ascii c in
  if (48 <=? n) && (n <=? 57) then Some (n - 48)
  else if (97 <=? n) && (n <=? 102) then Some (n - 87)
  else if (65 <=? n) && (n <=? 70) then Some (n - 55)
  else None.

(** QuoteJSONString: the escape of one character. *)
Definition escape (c : ascii) : string :=
  let n := nat_of_ascii c in
  if n =? 8 then String backslash "b"
  else if n =? 9 then String backslash "t"
  else if n =? 10 then String backslash "n"
  else if n =? 12 then String backslash "f"
  else if n =? 13 then String backslash "r"
  else if n =? 34 then String backslash (String dquote "")
  else if n =? 92 then String backslash (String backslash "")
  else if n <? 32 then
    String backslash
      (String "u" (String "0" (String "0"
         (String (hex_digit (n / 16)) (String (hex_digit (n mod 16)) "")))))
  else String c "".

Fixpoint quote_body (s : string) : string :=
  match s with
  | EmptyString => ""
  | String c r => escape c ++ quote_body r
  end.

Definition quote (s : string) : string :=
  String dquote (quote_body s ++ String dquote "").

Fixpoint join (l : list string) : string :=
  match l with
  | [] => ""
  | [x] => x
  | x :: r => x ++ "," ++ join r
  end.

Definition stringify (l : list string) : string :=
  "[" ++ join (map quote l) ++ "]".

Definition is_ws (c : ascii) : bool :=
  let n := nat_of_ascii c in
  (n =? 32) || (n =? 9) || (n =? 10) || (n =? 13).

Fixpoint skip_ws (s : string) : string :=
  match s with
  | String c r => if is_ws c then skip_ws r else s
  | EmptyString => s
  end.

Definition unescape (e : ascii) : option ascii :=
  let n := nat_of_ascii e in
  if n =? 34 then Some dquote
  else if n =? 92 then Some backslash
  else if n =? 47 then Some "/"%char
  else if n =? 98 then Some "008"%char
  else if n =? 102 then Some "012"%char
  else if n =? 110 then Some "010"%char
  else if n =? 114 then Some "013"%char
  else if n =? 116 then Some "009"%char
  else None.

Definition unicode (h1 h2 h3 h4 : ascii) : option ascii :=
  match hex_value h1, hex_value h2, hex_value h3, hex_value h4 with
  | Some a, Some b, Some c, Some d =>
      let n := ((a * 16 + b) * 16 + c) * 16 + d in
      if n <? 256 then Some (ascii_of_nat n) else None
  | _, _, _, _ => None
  end.

(** The characters of a string literal after its opening quote, up to the
    closing quote; the decoded string and the rest of the input. *)
Fixpoint parse_string_body (s : string) : option (string * string) :=
  match s with
  | EmptyString => None
  | String c r =>
      if Ascii.eqb c dquote then Some ("", r)
      else if Ascii.eqb c backslash then
        match r with
        | String e r2 =>
            if Ascii.eqb e "u" then
              match r2 with
              | String h1 (String h2 (String h3 (String h4 r3))) =>
                  match unicode h1 h2 h3 h4, parse_string_body r3 with
                  | Some d, Some (body, rest) => Some (String d body, rest)
                  | _, _ => None
                  end
              | _ => None
              end
            else
              match unescape e, parse_string_body r2 with
              | Some d, Some (body, rest) => Some (String d body, rest)
              | _, _ => None
              end
        | EmptyString => None
        end
      else if nat_of_ascii c <? 32 then None
      else
        match parse_string_body r with
        | Some (body, rest) => Some (String c body, rest)
        | None => None
        end
  end.

(** The elements of a non-empty array, after [[] or [,]. *)
Fixpoint parse_elements (fuel : nat) (s : string)
  : option (list string * string) :=
  match fuel with
  | O => None
  | S fuel' =>
      match skip_ws s with
      | String q r =>
          if Ascii.eqb q dquote then
            match parse_string_body r with
            | Some (x, r2) =>
                match skip_ws r2 with
                | String d r3 =>
                    if Ascii.eqb d "," then
                      match parse_elements fuel' r3 with
                      | Some (xs, rest) => Some (x :: xs, rest)
                      | None => None
                      end
                    else if Ascii.eqb d "]" then Some ([x], r3)
                    else None
                | EmptyString => None
                end
            | None => None
            end
          else None
      | EmptyString => None
      end
  end.

Definition parse_array (s : string) : option (list string * string) :=
  match skip_ws s with
  | String b r =>
      if Ascii.eqb b "[" then
        match skip_ws r with
        | String c r2 =>
            if Ascii.eqb c "]" then Some ([], r2)
            else parse_elements (String.length r) r
        | EmptyString => None
        end
      else None
  | EmptyString => None
  end.

Definition parse (s : string) : result (list string) :=
  match parse_array s with
  | Some (l, rest) =>
      match skip_ws rest with
      | EmptyString => Ok l
      | String _ _ => Err "SyntaxError: Unexpected non-whitespace character after JSON"
      end
  | None => Err "SyntaxError: Unexpected token in JSON"
  end.

End JSONStrings.

#[export] Instance JSON_strings : JSON (list string) := {
  JSON_stringify := JSONStrings.stringify;
  JSON_parse := JSONStrings.parse
}.

(* ================================================================== *)
(** ** Stage outputs                                                   *)
(* ================================================================== *)

(** The string-literal unions of the interfaces ([category], [stackFit],
    [capabilitiesFit], [recommendation]) are plain strings at run time: the
    executors cast the parsed JSON without checking it, and [routeIdea]
    takes its recommendation as a [string]. *)

Record MarketValidation : Type := {
  searchVolume : option string;
  competitors : list string;
  marketGap : string
}.

Record TechnicalFeasibility : Type := {
  stackFit : string;
  dependencies : list string;
  riskFactors : list string
}.

Record ResourceEstimate : Type := {
  estimatedHours : number;
  skillsRequired : list string;
  costEstimate : option number
}.

Record EnrichmentOutput : Type := {
  category : string;
  complexityScore : number;
  marketValidation : MarketValidation;
  technicalFeasibility : TechnicalFeasibility;
  resourceEstimate : ResourceEstimate
}.

Record EvaluationOutput : Type := {
  jtbdAnalysis : string;
  disruptionScore : number;
  capabilitiesFit : string;
  recommendation : string;
  caseStudyMatches : list string;
  evaluationScore : number;
  rationale : string
}.

(* ================================================================== *)
(** ** The record store (server/db.ts)                                 *)
(* ================================================================== *)

(** Table [ideas], [id TEXT PRIMARY KEY]. *)
Module ideas.
Record row : Type := {
  id : string;
  source : string;
  raw_text : string;
  created_at : string;
  context : option string;
  project_hint : option string;
  status : string;
  updated_at : string
}.
End ideas.

(** Table [idea_enrichment], [idea_id TEXT PRIMARY KEY],
    [FOREIGN KEY (idea_id) REFERENCES ideas(id)]. *)
Module idea_enrichment.
Record row : Type := {
  idea_id : string;
  category : string;
  complexity_score : number;
  market_validation : string;
  technical_feasibility : string;
  resource_estimate : string;
  enriched_at : string;
  enriched_by : string
}.
End idea_enrichment.

(** Table [idea_evaluation], [idea_id TEXT PRIMARY KEY],
    [FOREIGN KEY (idea_id) REFERENCES ideas(id)]. *)
Module idea_evaluation.
Record row : Type := {
  idea_id : string;
  jtbd_analysis : string;
  disruption_score : number;
  capabilities_fit : string;
  strategic_recommendation : string;
  case_study_matches : string;
  evaluation_score : number;
  evaluated_at : string
}.
End idea_evaluation.

(** A table is the list of its rows, in insertion order. *)
Record Database : Type := {
  tbl_ideas : list ideas.row;
  tbl_idea_enrichment : list idea_enrichment.row;
  tbl_idea_evaluation : list idea_evaluation.row
}.

(** The statements the server passes to [db.run]. *)
Inductive statement : Type :=
| INSERT_INTO_ideas
    (id source raw_text : string) (context project_hint : option string)
| UPDATE_ideas_SET_status (status updated_at id : string)
| INSERT_OR_REPLACE_INTO_idea_enrichment (r : idea_enrichment.row)
| INSERT_OR_REPLACE_INTO_idea_evaluation (r : idea_evaluation.row).

(** [db.get('SELECT * FROM ideas WHERE id = ?', [id])] *)
Definition SELECT_idea (id : string) (d : Database) : option ideas.row :=
  find (fun r => String.eqb (ideas.id r) id) (tbl_ideas d).

(** [db.get('SELECT * FROM idea_enrichment WHERE idea_id = ?', [ideaId])] *)
Definition SELECT_enrichment (ideaId : string) (d : Database)
  : option idea_enrichment.row :=
  find (fun r => String.eqb (idea_enrichment.idea_id r) ideaId)
       (tbl_idea_enrichment d).

(** [db.get('SELECT * FROM idea_evaluation WHERE idea_id = ?', [ideaId])] *)
Definition SELECT_evaluation (ideaId : string) (d : Database)
  : option idea_evaluation.row :=
  find (fun r => String.eqb (idea_evaluation.idea_id r) ideaId)
       (tbl_idea_evaluation d).

Definition idea_exists (id : string) (d : Database) : bool :=
  existsb (fun r => String.eqb (ideas.id r) id) (tbl_ideas d).

(** [UPDATE ideas SET status = ?, updated_at = ? WHERE id = ?] on one row. *)
Definition set_status (status updated_at id : string) (r : ideas.row)
  : ideas.row :=
  if String.eqb (ideas.id r) id then
    {| ideas.id := ideas.id r;
       ideas.source := ideas.source r;
       ideas.raw_text := ideas.raw_text r;
       ideas.created_at := ideas.created_at r;
       ideas.context := ideas.context r;
       ideas.project_hint := ideas.project_hint r;
       ideas.status := status;
       ideas.updated_at := updated_at |}
  else r.

(** [INSERT OR REPLACE]: the rows in conflict on the primary key are
    deleted, then the new row is inserted. *)
Definition replace_enrichment (r : idea_enrichment.row)
    (t : list idea_enrichment.row) : list idea_enrichment.row :=
  (filter (fun r' => negb (String.eqb (idea_enrichment.idea_id r')
                                      (idea_enrichment.idea_id r))) t
   ++ [r])%list.

Definition replace_evaluation (r : idea_evaluation.row)
    (t : list idea_evaluation.row) : list idea_evaluation.row :=
  (filter (fun r' => negb (String.eqb (idea_evaluation.idea_id r')
                                      (idea_evaluation.idea_id r))) t
   ++ [r])%list.

Definition insert_idea (r : ideas.row) (d : Database) : Database :=
  {| tbl_ideas := (tbl_ideas d ++ [r])%list;
     tbl_idea_enrichment := tbl_idea_enrichment d;
     tbl_idea_evaluation := tbl_idea_evaluation d |}.

Definition update_status (status updated_at id : string) (d : Database)
  : Database :=
  {| tbl_ideas := map (set_status status updated_at id) (tbl_ideas d);
     tbl_idea_enrichment := tbl_idea_enrichment d;
     tbl_idea_evaluation := tbl_idea_evaluation d |}.

Definition put_enrichment (r : idea_enrichment.row) (d : Database)
  : Database :=
  {| tbl_ideas := tbl_ideas d;
     tbl_idea_enrichment := replace_enrichment r (tbl_idea_enrichment d);
     tbl_idea_evaluation := tbl_idea_evaluation d |}.

Definition put_evaluation (r : idea_evaluation.row) (d : Database)
  : Database :=
  {| tbl_ideas := tbl_ideas d;
     tbl_idea_enrichment := tbl_idea_enrichment d;
     tbl_idea_evaluation := replace_evaluation r (tbl_idea_evaluation d) |}.

(** One statement on the store; [CURRENT_TIMESTAMP] is the store's clock,
    used by the column defaults of [ideas].  A violated constraint throws:
    the primary key on a plain [INSERT], the foreign key to [ideas] on the
    stage tables ([PRAGMA foreign_keys = ON]). *)
Definition run_statement (CURRENT_TIMESTAMP : string) (stmt : statement)
    (d : Database) : result Database :=
  match stmt with
  | INSERT_INTO_ideas id source raw_text context project_hint =>
      if idea_exists id d
      then Err "SQLITE_CONSTRAINT: UNIQUE constraint failed: ideas.id"
      else Ok (insert_idea {| ideas.id := id;
                              ideas.source := source;
                              ideas.raw_text := raw_text;
                              ideas.created_at := CURRENT_TIMESTAMP;
                              ideas.context := context;
                              ideas.project_hint := project_hint;
                              ideas.status := "pending";
                              ideas.updated_at := CURRENT_TIMESTAMP |} d)
  | UPDATE_ideas_SET_status status updated_at id =>
      Ok (update_status status updated_at id d)
  | INSERT_OR_REPLACE_INTO_idea_enrichment r =>
      if idea_exists (idea_enrichment.idea_id r) d
      then Ok (put_enrichment r d)
      else Err "SQLITE_CONSTRAINT: FOREIGN KEY constraint failed"
  | INSERT_OR_REPLACE_INTO_idea_evaluation r =>
      if idea_exists (idea_evaluation.idea_id r) d
      then Ok (put_evaluation r d)
      else Err "SQLITE_CONSTRAINT: FOREIGN KEY constraint failed"
  end.

(* ================================================================== *)
(** ** Asynchronous programs                                           *)
(* ================================================================== *)

(** The body of an HTTP response. *)
Inductive body : Type :=
| body_error (error : string)
| body_created (id status message : string)
| body_status (status message : string)
| body_idea (idea : ideas.row) (enrichment : option EnrichmentOutput)
            (evaluation : option EvaluationOutput).

Record response : Type := {
  res_status : nat;
  res_body : body
}.

(** The text sent to a generator, kept as the template and its arguments
    ([ENRICHMENT_PROMPT] prints [context || 'No additional context
    provided']). *)
Inductive prompt : Type :=
| ENRICHMENT_PROMPT (idea : string) (context : option string)
| EVALUATION_PROMPT (idea : string) (enrichedData : EnrichmentOutput).

(** A block of [response.content]. *)
Record content_block : Type := {
  block_type : string;
  block_text : string
}.

(** The promises a program awaits: calls to the record store and to the two
    text generators, which answer or fail.
    [generateContent p] is [model.generateContent(p)] on gemini-1.5-flash
    followed by [result.response.text()]; [messages_create p] is
    [client.messages.create] with [p] as the one user message, and gives
    [response.content]. *)
Inductive call : Type -> Type :=
| db_get_idea (id : string) : call (option ideas.row)
| db_get_enrichment (ideaId : string) : call (option idea_enrichment.row)
| db_get_evaluation (ideaId : string) : call (option idea_evaluation.row)
| db_run (stmt : statement) : call unit
| generateContent (p : prompt) : call string
| messages_create (p : prompt) : call (list content_block).

(** Synchronous primitives with an effect or an outside input. *)
Inductive prim : Type -> Type :=
| uuidv4 : prim string
| Date_toISOString : prim string
| console_log (message : string) : prim unit
| console_error (message error : string) : prim unit
| res_send (r : response) : prim unit.

(** An [async] function body.  [Await] is a suspension point, continued
    with the settled promise; [Detach body k] calls an [async] arrow
    function without awaiting it and goes on with [k]. *)
Inductive async (A : Type) : Type :=
| Ret (a : A)
| Throw (message : string)
| Await {X : Type} (c : call X) (k : result X -> async A)
| Sync {X : Type} (p : prim X) (k : X -> async A)
| Detach (body : async unit) (k : async A).
Arguments Ret {A} a.
Arguments Throw {A} message.
Arguments Await {A X} c k.
Arguments Sync {A X} p k.
Arguments Detach {A} body k.

Fixpoint bind {A B : Type} (p : async A) (f : A -> async B) : async B :=
  match p with
  | Ret a => f a
  | Throw m => Throw m
  | Await c k => Await c (fun r => bind (k r) f)
  | Sync c k => Sync c (fun x => bind (k x) f)
  | Detach b k => Detach b (bind k f)
  end.

(** [try { p } catch (error) { h error }].  A detached body is not covered:
    the call of an [async] function never throws, its promise rejects. *)
Fixpoint try_catch {A : Type} (p : async A) (h : string -> async A)
  : async A :=
  match p with
  | Ret a => Ret a
  | Throw m => h m
  | Await c k => Await c (fun r => try_catch (k r) h)
  | Sync c k => Sync c (fun x => try_catch (k x) h)
  | Detach b k => Detach b (try_catch k h)
  end.

(** [await c]: the value of a fulfilled promise, the error of a rejected
    one thrown. *)
Definition await {X : Type} (c : call X) : async X :=
  Await c (fun r => match r with Ok x => Ret x | Err m => Throw m end).

Definition perform {X : Type} (p : prim X) : async X := Sync p Ret.

Definition detach (body : async unit) : async unit := Detach body (Ret tt).

Definition of_result {A : Type} (r : result A) : async A :=
  match r with Ok a => Ret a | Err m => Throw m end.

Declare Scope async_scope.
Delimit Scope async_scope with async.
Notation "x <- p ;; q" := (bind p (fun x => q))
  (at level 61, p at next level, right associativity) : async_scope.
Notation "p ;; q" := (bind p (fun _ => q))
  (at level 61, right associativity) : async_scope.
Notation "'try' p 'catch' e => h" := (try_catch p (fun e => h))
  (at level 62, p at level 61, e name, h at level 61) : async_scope.
Local Open Scope async_scope.

(** [res.json(b)] and [res.status(n).json(b)]. *)
Definition res_json (b : body) : async unit :=
  perform (res_send {| res_status := 200; res_body := b |}).
Definition res_status_json (n : nat) (b : body) : async unit :=
  perform (res_send {| res_status := n; res_body := b |}).

(* ================================================================== *)
(** ** Persistence of the stage outputs (server/services)              *)
(* ================================================================== *)

(** [a || b] on strings: the empty string is falsy. *)
Definition or_else (a b : string) : string :=
  if String.eqb a "" then b else a.

(** [a || null] on an optional string. *)
Definition or_null (a : option string) : option string :=
  match a with
  | Some s => if String.eqb s "" then None else Some s
  | None => None
  end.

(** [!a] on an optional string: absent, [null] and [''] are falsy. *)
Definition falsy (a : option string) : bool :=
  match a with
  | Some s => String.eqb s ""
  | None => true
  end.

Section Services.

(** The JSON text of the stage outputs the generators answer with, and of
    the three nested objects of an enrichment.  The parsed value is cast to
    the interface unchecked. *)
Context {JSON_EnrichmentOutput : JSON EnrichmentOutput}
        {JSON_EvaluationOutput : JSON EvaluationOutput}
        {JSON_MarketValidation : JSON MarketValidation}
        {JSON_TechnicalFeasibility : JSON TechnicalFeasibility}
        {JSON_ResourceEstimate : JSON ResourceEstimate}.

(** The enrichment executor. *)
Definition enrichIdea (idea : string) (context : option string)
  : async EnrichmentOutput :=
  try
    (response <- await (generateContent (ENRICHMENT_PROMPT idea context)) ;;
     enrichedData <- of_result (JSON_parse response) ;;
     Ret enrichedData)
  catch error =>
    (perform (console_error "Enrichment failed:" error) ;;
     Throw ("Failed to enrich idea: " ++ error)).

(** The parameters [saveEnrichment] binds to its statement. *)
Definition enrichment_row (ideaId : string) (enrichment : EnrichmentOutput)
    (now : string) : idea_enrichment.row :=
  {| idea_enrichment.idea_id := ideaId;
     idea_enrichment.category := category enrichment;
     idea_enrichment.complexity_score := complexityScore enrichment;
     idea_enrichment.market_validation :=
       JSON_stringify (marketValidation enrichment);
     idea_enrichment.technical_feasibility :=
       JSON_stringify (technicalFeasibility enrichment);
     idea_enrichment.resource_estimate :=
       JSON_stringify (resourceEstimate enrichment);
     idea_enrichment.enriched_at := now;
     idea_enrichment.enriched_by := "gemini-1.5-flash" |}.

Definition saveEnrichment (ideaId : string) (enrichment : EnrichmentOutput)
  : async unit :=
  now <- perform Date_toISOString ;;
  await (db_run (INSERT_OR_REPLACE_INTO_idea_enrichment
                   (enrichment_row ideaId enrichment now))).

Definition getEnrichment (ideaId : string)
  : async (option EnrichmentOutput) :=
  row <- await (db_get_enrichment ideaId) ;;
  match row with
  | None => Ret None
  | Some row =>
      mv <- of_result (JSON_parse (idea_enrichment.market_validation row)) ;;
      tf <- of_result
              (JSON_parse (idea_enrichment.technical_feasibility row)) ;;
      re <- of_result (JSON_parse (idea_enrichment.resource_estimate row)) ;;
      Ret (Some {| category := idea_enrichment.category row;
                   complexityScore := idea_enrichment.complexity_score row;
                   marketValidation := mv;
                   technicalFeasibility := tf;
                   resourceEstimate := re |})
  end.

(** The parameters [saveEvaluation] binds to its statement. *)
Definition evaluation_row (ideaId : string) (evaluation : EvaluationOutput)
    (now : string) : idea_evaluation.row :=
  {| idea_evaluation.idea_id := ideaId;
     idea_evaluation.jtbd_analysis := jtbdAnalysis evaluation;
     idea_evaluation.disruption_score := disruptionScore evaluation;
     idea_evaluation.capabilities_fit := capabilitiesFit evaluation;
     idea_evaluation.strategic_recommendation := recommendation evaluation;
     idea_evaluation.case_study_matches :=
       JSON_stringify (caseStudyMatches evaluation);
     idea_evaluation.evaluation_score := evaluationScore evaluation;
     idea_evaluation.evaluated_at := now |}.

(** The evaluation executor. *)
Definition evaluateIdea (idea : string) (enrichedData : EnrichmentOutput)
  : async EvaluationOutput :=
  try
    (content <- await (messages_create (EVALUATION_PROMPT idea enrichedData)) ;;
     match find (fun block => String.eqb (block_type block) "text") content
     with
     | None => Throw "No text response from Claude"
     | Some textContent =>
         evaluationData <- of_result (JSON_parse (block_text textContent)) ;;
         Ret evaluationData
     end)
  catch error =>
    (perform (console_error "Evaluation failed:" error) ;;
     Throw ("Failed to evaluate idea: " ++ error)).

Definition saveEvaluation (ideaId : string) (evaluation : EvaluationOutput)
  : async unit :=
  now <- perform Date_toISOString ;;
  await (db_run (INSERT_OR_REPLACE_INTO_idea_evaluation
                   (evaluation_row ideaId evaluation now))).

Definition getEvaluation (ideaId : string)
  : async (option EvaluationOutput) :=
  row <- await (db_get_evaluation ideaId) ;;
  match row with
  | None => Ret None
  | Some row =>
      matches <- of_result
        (JSON_parse (or_else (idea_evaluation.case_study_matches row) "[]")) ;;
      Ret (Some {| jtbdAnalysis := idea_evaluation.jtbd_analysis row;
                   disruptionScore := idea_evaluation.disruption_score row;
                   capabilitiesFit := idea_evaluation.capabilities_fit row;
                   recommendation :=
                     idea_evaluation.strategic_recommendation row;
                   caseStudyMatches := matches;
                   evaluationScore := idea_evaluation.evaluation_score row;
                   (* Using JTBD as rationale for Phase 1 *)
                   rationale := idea_evaluation.jtbd_analysis row |})
  end.

(* ================================================================ *)
(** ** Request handlers and detached tasks (server/index.ts)         *)
(* ================================================================ *)

(** The status an idea takes from its route. *)
Definition newStatus (route : RouteDecision) : string :=
  match route with
  | GENERATE_BLUEPRINT => "evaluated-ready"
  | DEFER_WITH_BLUEPRINT => "deferred"
  | NEEDS_VALIDATION => "research"
  | _ => "archived"
  end.

(** The fields of the body of [POST /api/ideas]. *)
Record CreateIdeaBody : Type := {
  rawText : option string;
  body_context : option string;
  projectHint : option string
}.

(** [POST /api/ideas] *)
Definition POST_ideas (req_body : CreateIdeaBody) : async unit :=
  try
    (if falsy (rawText req_body) then
       res_status_json 400 (body_error "rawText is required")
     else
       ideaId <- perform uuidv4 ;;
       let source := "manual" in
       await (db_run (INSERT_INTO_ideas ideaId source
                        (match rawText req_body with
                         | Some s => s
                         | None => ""
                         end)
                        (or_null (body_context req_body))
                        (or_null (projectHint req_body)))) ;;
       res_status_json 201
         (body_created ideaId "pending"
            "Idea created. Run enrichment to analyze."))
  catch error => res_status_json 500 (body_error error).

(** [GET /api/ideas/:id] *)
Definition GET_idea (id : string) : async unit :=
  try
    (idea <- await (db_get_idea id) ;;
     match idea with
     | None => res_status_json 404 (body_error "Idea not found")
     | Some idea =>
         enrichment <- getEnrichment id ;;
         evaluation <- getEvaluation id ;;
         res_json (body_idea idea enrichment evaluation)
     end)
  catch error => res_status_json 500 (body_error error).

(** The detached task of [POST /api/ideas/:id/enrich]. *)
Definition enrich_task (id : string) (idea : ideas.row) : async unit :=
  try
    (enrichment <- enrichIdea (ideas.raw_text idea) (ideas.context idea) ;;
     saveEnrichment id enrichment ;;
     now <- perform Date_toISOString ;;
     await (db_run (UPDATE_ideas_SET_status "enriched" now id)) ;;
     perform (console_log ("✅ Enrichment completed for idea " ++ id)))
  catch error =>
    perform (console_error ("❌ Enrichment failed for idea " ++ id ++ ":")
                           error).

(** [POST /api/ideas/:id/enrich] *)
Definition POST_enrich (id : string) : async unit :=
  try
    (idea <- await (db_get_idea id) ;;
     match idea with
     | None => res_status_json 404 (body_error "Idea not found")
     | Some idea =>
         res_json (body_status "enriching" "Processing enrichment...") ;;
         detach (enrich_task id idea)
     end)
  catch error => res_status_json 500 (body_error error).

(** The detached task of [POST /api/ideas/:id/evaluate]. *)
Definition evaluate_task (id : string) (idea : ideas.row)
    (enrichment : EnrichmentOutput) : async unit :=
  try
    (evaluation <- evaluateIdea (ideas.raw_text idea) enrichment ;;
     saveEvaluation id evaluation ;;
     let route := routeIdea (evaluationScore evaluation)
                            (recommendation evaluation) in
     now <- perform Date_toISOString ;;
     await (db_run (UPDATE_ideas_SET_status (newStatus route) now id)) ;;
     perform (console_log
       ("✅ Evaluation completed for idea " ++ id ++ ". Route: "
        ++ RouteDecision_to_string route ++ ", Status: "
        ++ newStatus route)))
  catch error =>
    perform (console_error ("❌ Evaluation failed for idea " ++ id ++ ":")
                           error).

(** [POST /api/ideas/:id/evaluate] *)
Definition POST_evaluate (id : string) : async unit :=
  try
    (idea <- await (db_get_idea id) ;;
     match idea with
     | None => res_status_json 404 (body_error "Idea not found")
     | Some idea =>
         enrichment <- getEnrichment id ;;
         match enrichment with
         | None =>
             res_status_json 400 (body_error
               "Idea must be enriched before evaluation. Run /enrich first.")
         | Some enrichment =>
             res_json (body_status "evaluating"
                         "Processing strategic evaluation...") ;;
             detach (evaluate_task id idea enrichment)
         end
     end)
  catch error => res_status_json 500 (body_error error).

(** The detached task of [POST /api/ideas/:id/analyze]. *)
Definition analyze_task (id : string) (idea : ideas.row) : async unit :=
  try
    (perform (console_log ("🔄 Enriching idea " ++ id ++ "...")) ;;
     enrichment <- enrichIdea (ideas.raw_text idea) (ideas.context idea) ;;
     saveEnrichment id enrichment ;;
     perform (console_log "✅ Enrichment complete") ;;
     perform (console_log ("🔄 Evaluating idea " ++ id ++ "...")) ;;
     evaluation <- evaluateIdea (ideas.raw_text idea) enrichment ;;
     saveEvaluation id evaluation ;;
     perform (console_log "✅ Evaluation complete") ;;
     let route := routeIdea (evaluationScore evaluation)
                            (recommendation evaluation) in
     now <- perform Date_toISOString ;;
     await (db_run (UPDATE_ideas_SET_status (newStatus route) now id)) ;;
     perform (console_log
       ("✅ Analysis complete. Route: " ++ RouteDecision_to_string route
        ++ ", Status: " ++ newStatus route)))
  catch error =>
    perform (console_error ("❌ Analysis failed for idea " ++ id ++ ":")
                           error).

(** [POST /api/ideas/:id/analyze] *)
Definition POST_analyze (id : string) : async unit :=
  try
    (idea <- await (db_get_idea id) ;;
     match idea with
     | None => res_status_json 404 (body_error "Idea not found")
     | Some idea =>
         res_json (body_status "analyzing"
                     "Running full pipeline: enrichment → evaluation") ;;
         detach (analyze_task id idea)
     end)
  catch error => res_status_json 500 (body_error error).

End Services.

(* ================================================================== *)
(** ** The event loop                                                  *)
(* ================================================================== *)

(** What lies outside the server: the identifiers [uuidv4] draws, the two
    clocks, and what the text generators answer to a prompt.  The drawn
    values are indexed by the number of draws made so far. *)
Record world : Type := {
  uuid_at : nat -> string;
  now_at : nat -> string;
  CURRENT_TIMESTAMP_at : nat -> string;
  generateContent_result : prompt -> result string;
  messages_create_result : prompt -> result (list content_block)
}.

(** What the server did, in order. *)
Inductive event : Type :=
| ev_response (r : response)
| ev_console_log (message : string)
| ev_console_error (message error : string)
| ev_db_run (stmt : statement) (ok : bool)
| ev_generateContent (p : prompt) (outcome : result string)
| ev_messages_create (p : prompt) (outcome : result (list content_block)).

(** A detached task in flight: the idea of the request that started it and
    what is left of its body, suspended at an [Await]. *)
Record task : Type := {
  task_idea : string;
  task_body : async unit
}.

Record server : Type := {
  db : Database;
  pool : list task;
  trace : list event;
  draws : nat
}.

Definition log (e : event) (s : server) : server :=
  {| db := db s; pool := pool s; trace := (trace s ++ [e])%list;
     draws := draws s |}.

Definition draw (s : server) : server :=
  {| db := db s; pool := pool s; trace := trace s; draws := S (draws s) |}.

Definition set_db (d : Database) (s : server) : server :=
  {| db := d; pool := pool s; trace := trace s; draws := draws s |}.

Definition set_pool (p : list task) (s : server) : server :=
  {| db := db s; pool := p; trace := trace s; draws := draws s |}.

(** The settlement of an awaited promise. *)
Definition do_call {X : Type} (w : world) (c : call X) (s : server)
  : result X * server :=
  match c in call X return result X * server with
  | db_get_idea id => (Ok (SELECT_idea id (db s)), s)
  | db_get_enrichment ideaId => (Ok (SELECT_enrichment ideaId (db s)), s)
  | db_get_evaluation ideaId => (Ok (SELECT_evaluation ideaId (db s)), s)
  | db_run stmt =>
      match run_statement (CURRENT_TIMESTAMP_at w (draws s)) stmt (db s) with
      | Ok d => (Ok tt, log (ev_db_run stmt true) (draw (set_db d s)))
      | Err m => (Err m, log (ev_db_run stmt false) (draw s))
      end
  | generateContent p =>
      let r := generateContent_result w p in
      (r, log (ev_generateContent p r) s)
  | messages_create p =>
      let r := messages_create_result w p in
      (r, log (ev_messages_create p r) s)
  end.

Definition do_prim {X : Type} (w : world) (p : prim X) (s : server)
  : X * server :=
  match p in prim X return X * server with
  | uuidv4 => (uuid_at w (draws s), draw s)
  | Date_toISOString => (now_at w (draws s), draw s)
  | console_log m => (tt, log (ev_console_log m) s)
  | console_error m e => (tt, log (ev_console_error m e) s)
  | res_send r => (tt, log (ev_response r) s)
  end.

(** A detached body that reached an [Await] stays in flight; one that
    returned or threw is over (nothing awaits its promise). *)
Definition park (idea : string) (b : async unit) (s : server) : server :=
  match b with
  | Await _ _ => set_pool (pool s ++ [{| task_idea := idea; task_body := b |}])%list s
  | _ => s
  end.

(** A body runs synchronously up to its first suspension point. *)
Fixpoint advance {A : Type} (w : world) (idea : string) (p : async A)
    (s : server) : async A * server :=
  match p with
  | Sync c k => let '(x, s') := do_prim w c s in advance w idea (k x) s'
  | Detach b k =>
      let '(b', s') := advance w idea b s in
      advance w idea k (park idea b' s')
  | _ => (p, s)
  end.

(** A body run to its end, every awaited promise settled at once. *)
Fixpoint exec {A : Type} (w : world) (idea : string) (p : async A)
    (s : server) : result A * server :=
  match p with
  | Ret a => (Ok a, s)
  | Throw m => (Err m, s)
  | Await c k => let '(r, s') := do_call w c s in exec w idea (k r) s'
  | Sync c k => let '(x, s') := do_prim w c s in exec w idea (k x) s'
  | Detach b k =>
      let '(b', s') := advance w idea b s in
      exec w idea k (park idea b' s')
  end.

Fixpoint remove_nth {A : Type} (i : nat) (l : list A) : list A :=
  match l, i with
  | [], _ => []
  | _ :: r, O => r
  | x :: r, S j => x :: remove_nth j r
  end.

(** The event loop settles the promise the [i]-th task in flight awaits;
    the task goes on to its next suspension point, or to its end. *)
Definition resume (w : world) (i : nat) (s : server) : server :=
  match nth_error (pool s) i with
  | Some t =>
      match task_body t with
      | Await c k =>
          let '(r, s1) := do_call w c (set_pool (remove_nth i (pool s)) s) in
          let '(b, s2) := advance w (task_idea t) (k r) s1 in
          park (task_idea t) b s2
      | _ => s
      end
  | None => s
  end.

(** The [i]-th task in flight run to its end. *)
Definition complete (w : world) (i : nat) (s : server) : server :=
  match nth_error (pool s) i with
  | Some t =>
      snd (exec w (task_idea t) (task_body t)
                (set_pool (remove_nth i (pool s)) s))
  | None => s
  end.

(** The number of tasks in flight for one idea. *)
Definition in_flight (id : string) (s : server) : nat :=
  List.length (filter (fun t => String.eqb (task_idea t) id) (pool s)).

Section Requests.

Context {JSON_EnrichmentOutput : JSON EnrichmentOutput}
        {JSON_EvaluationOutput : JSON EvaluationOutput}
        {JSON_MarketValidation : JSON MarketValidation}
        {JSON_TechnicalFeasibility : JSON TechnicalFeasibility}
        {JSON_ResourceEstimate : JSON ResourceEstimate}.

Inductive request : Type :=
| req_POST_ideas (req_body : CreateIdeaBody)
| req_GET_idea (id : string)
| req_POST_enrich (id : string)
| req_POST_evaluate (id : string)
| req_POST_analyze (id : string).

Definition handler (r : request) : async unit :=
  match r with
  | req_POST_ideas b => POST_ideas b
  | req_GET_idea id => GET_idea id
  | req_POST_enrich id => POST_enrich id
  | req_POST_evaluate id => POST_evaluate id
  | req_POST_analyze id => POST_analyze id
  end.

(** [req.params.id] *)
Definition params_id (r : request) : string :=
  match r with
  | req_POST_ideas _ => ""
  | req_GET_idea id | req_POST_enrich id | req_POST_evaluate id
  | req_POST_analyze id => id
  end.

(** One request handled up to the end of its handler. *)
Definition handle (w : world) (r : request) (s : server) : server :=
  snd (exec w (params_id r) (handler r) s).

End Requests.

(* ================================================================== *)
(** ** Observations on a run                                           *)
(* ================================================================== *)

(** The events a run added to the trace. *)
Definition events_since (s s' : server) : list event :=
  skipn (List.length (trace s)) (trace s').

(** The status column of an idea. *)
Definition status_of (id : string) (d : Database) : option string :=
  option_map ideas.status (SELECT_idea id d).

(** The constraints of the schema: primary keys are unique, and every stage
    record belongs to a stored idea. *)
Definition constraints_hold (d : Database) : Prop :=
  NoDup (map ideas.id (tbl_ideas d))
  /\ NoDup (map idea_enrichment.idea_id (tbl_idea_enrichment d))
  /\ NoDup (map idea_evaluation.idea_id (tbl_idea_evaluation d))
  /\ (forall r, In r (tbl_idea_enrichment d) ->
                idea_exists (idea_enrichment.idea_id r) d = true)
  /\ (forall r, In r (tbl_idea_evaluation d) ->
                idea_exists (idea_evaluation.idea_id r) d = true).

(** The states the server reaches from [s0]: requests come in and the event
    loop resumes tasks in flight, in any order and in any worlds. *)
Inductive reachable
    {JSON_EnrichmentOutput : JSON EnrichmentOutput}
    {JSON_EvaluationOutput : JSON EvaluationOutput}
    {JSON_MarketValidation : JSON MarketValidation}
    {JSON_TechnicalFeasibility : JSON TechnicalFeasibility}
    {JSON_ResourceEstimate : JSON ResourceEstimate}
    (s0 : server) : server -> Prop :=
| reach_start : reachable s0 s0
| reach_request (w : world) (r : request) (s : server) :
    reachable s0 s -> reachable s0 (handle w r s)
| reach_resume (w : world) (i : nat) (s : server) :
    reachable s0 s -> reachable s0 (resume w i s).

(** The number of ideas stored under an identifier. *)
Definition ideas_with_id (id : string) (d : Database) : nat :=
  List.length (filter (fun r => String.eqb (ideas.id r) id) (tbl_ideas d)).

(** The number of enrichment records kept for an idea. *)
Definition enrichment_records (id : string) (d : Database) : nat :=
  List.length
    (filter (fun r => String.eqb (idea_enrichment.idea_id r) id)
            (tbl_idea_enrichment d)).

(** The enrichment records of the other ideas. *)
Definition other_enrichments (id : string) (d : Database)
  : list idea_enrichment.row :=
  filter (fun r => negb (String.eqb (idea_enrichment.idea_id r) id))
         (tbl_idea_enrichment d).

(** An evaluation with its [rationale] replaced. *)
Definition with_rationale (r : string) (e : EvaluationOutput)
  : EvaluationOutput :=
  {| jtbdAnalysis := jtbdAnalysis e;
     disruptionScore := disruptionScore e;
     capabilitiesFit := capabilitiesFit e;
     recommendation := recommendation e;
     caseStudyMatches := caseStudyMatches e;
     evaluationScore := evaluationScore e;
     rationale := r |}.

(** The evaluation executor called its generator. *)
Definition is_evaluateIdea (e : event) : bool :=
  match e with
  | ev_messages_create (EVALUATION_PROMPT _ _) _ => true
  | _ => false
  end.

(** The event of a successful [saveEnrichment] for idea [id]. *)
Definition is_enrichment_saved (id : string) (e : event) : bool :=
  match e with
  | ev_db_run (INSERT_OR_REPLACE_INTO_idea_enrichment r) true =>
      String.eqb (idea_enrichment.idea_id r) id
  | _ => false
  end.

(** A stage executor threw: it reports the error it caught. *)
Definition is_executor_failure (e : event) : bool :=
  match e with
  | ev_console_error message _ =>
      String.eqb message "Enrichment failed:"
      || String.eqb message "Evaluation failed:"
  | _ => false
  end.

Section Outcomes.

Context {JSON_EnrichmentOutput : JSON EnrichmentOutput}
        {JSON_EvaluationOutput : JSON EvaluationOutput}.

(** What the [try] block of [enrichIdea] comes to in world [w]: the parsed
    answer of the generator, or the error caught. *)
Definition enrichIdea_outcome (w : world) (idea : string)
    (context : option string) : result EnrichmentOutput :=
  match generateContent_result w (ENRICHMENT_PROMPT idea context) with
  | Ok response => JSON_parse response
  | Err m => Err m
  end.

(** What the [try] block of [evaluateIdea] comes to in world [w]. *)
Definition evaluateIdea_outcome (w : world) (idea : string)
    (enrichedData : EnrichmentOutput) : result EvaluationOutput :=
  match messages_create_result w (EVALUATION_PROMPT idea enrichedData) with
  | Ok content =>
      match find (fun block => String.eqb (block_type block) "text") content
      with
      | Some textContent => JSON_parse (block_text textContent)
      | None => Err "No text response from Claude"
      end
  | Err m => Err m
  end.

End Outcomes.

(** A stage record was written. *)
Definition is_stage_record_saved (e : event) : bool :=
  match e with
  | ev_db_run (INSERT_OR_REPLACE_INTO_idea_enrichment _) true => true
  | ev_db_run (INSERT_OR_REPLACE_INTO_idea_evaluation _) true => true
  | _ => false
  end.

(** Every call of the evaluation executor in [t] comes after a successful
    [saveEnrichment] for [id] in [t] ([saved]: one was seen already). *)
Fixpoint evaluation_follows_enrichment (id : string) (saved : bool)
    (t : list event) : bool :=
  match t with
  | [] => true
  | e :: t' =>
      (negb (is_evaluateIdea e) || saved)
      && evaluation_follows_enrichment id
           (saved || is_enrichment_saved id e) t'
  end.

(** The body is suspended on the generator of the evaluation executor. *)
Definition awaits_evaluateIdea (b : async unit) : bool :=
  match b with
  | Await c _ =>
      match c with
      | messages_create (EVALUATION_PROMPT _ _) => true
      | _ => false
      end
  | _ => false
  end.

(** The statements under test, as the specification words them. *)
Module Stated.

(** "The Orchestrator guarantees at most one stage-mutating pipeline task
    in flight at a time", per idea. *)
Definition at_most_one_in_flight (s : server) : Prop :=
  forall id, in_flight id s <= 1.

(** "If a stage executor fails in a detached task, the idea's status and
    updatedAt are left unchanged and no stage record is persisted from that
    run": whenever an executor threw during the run of [body] from [s], the
    table of ideas is as it was and the run wrote no stage record. *)
Definition no_partial_mutation (w : world) (id : string)
    (body : async unit) (s : server) : Prop :=
  let s' := snd (exec w id body s) in
  existsb is_executor_failure (events_since s s') = true ->
  tbl_ideas (db s') = tbl_ideas (db s)
  /\ existsb is_stage_record_saved (events_since s s') = false.

End Stated.

(* ================================================================== *)
(** ** Sample data                                                     *)
(* ================================================================== *)

Module Sample.

(** Stand-ins for the JSON texts. *)
Definition json_mv : JSON MarketValidation := {|
  JSON_stringify := fun m => marketGap m;
  JSON_parse := fun s =>
    Ok {| searchVolume := None; competitors := []; marketGap := s |}
|}.
Definition json_tf : JSON TechnicalFeasibility := {|
  JSON_stringify := fun t => stackFit t;
  JSON_parse := fun s =>
    Ok {| stackFit := s; dependencies := []; riskFactors := [] |}
|}.
Definition json_re : JSON ResourceEstimate := {|
  JSON_stringify := fun r => JSON_stringify (skillsRequired r);
  JSON_parse := fun s =>
    match JSON_parse s with
    | Ok l => Ok {| estimatedHours := 0%Q; skillsRequired := l;
                    costEstimate := None |}
    | Err m => Err m
    end
|}.

Definition enrichment : EnrichmentOutput := {|
  category := "product";
  complexityScore := (1 # 2)%Q;
  marketValidation := {| searchVolume := Some "medium";
                         competitors := ["Notion"; "Trello"];
                         marketGap := "No tool ranks ideas" |};
  technicalFeasibility := {| stackFit := "good";
                             dependencies := ["sqlite"];
                             riskFactors := ["model drift"] |};
  resourceEstimate := {| estimatedHours := 40%Q;
                         skillsRequired := ["typescript"];
                         costEstimate := None |}
|}.

Definition evaluation : EvaluationOutput := {|
  jtbdAnalysis := "Teams need to triage ideas";
  disruptionScore := (7 # 10)%Q;
  capabilitiesFit := "strong";
  recommendation := "build-now";
  caseStudyMatches := ["Netflix vs Blockbuster"; "Steel minimills"];
  evaluationScore := 90%Q;
  rationale := "High score, resources available"
|}.

Definition evaluation_low : EvaluationOutput := {|
  jtbdAnalysis := "No clear job";
  disruptionScore := (1 # 10)%Q;
  capabilitiesFit := "missing";
  recommendation := "skip";
  caseStudyMatches := [];
  evaluationScore := 30%Q;
  rationale := "Low score"
|}.

(** The generators answer with the names of the sample documents. *)
Definition json_enrichment : JSON EnrichmentOutput := {|
  JSON_stringify := fun _ => "enrichment.json";
  JSON_parse := fun s =>
    if String.eqb s "enrichment.json" then Ok enrichment
    else Err "Unexpected token in JSON"
|}.
Definition json_evaluation : JSON EvaluationOutput := {|
  JSON_stringify := fun _ => "evaluation.json";
  JSON_parse := fun s =>
    if String.eqb s "evaluation.json" then Ok evaluation
    else if String.eqb s "evaluation_low.json" then Ok evaluation_low
    else Err "Unexpected token in JSON"
|}.

Definition idea : ideas.row := {|
  ideas.id := "idea-1";
  ideas.source := "manual";
  ideas.raw_text := "Build a tool";
  ideas.created_at := "2025-01-01 10:00:00";
  ideas.context := None;
  ideas.project_hint := None;
  ideas.status := "pending";
  ideas.updated_at := "2025-01-01 10:00:00"
|}.

Definition clock (n : nat) : string :=
  match n with
  | 0 => "2025-01-01T10:00:00.000Z"
  | 1 => "2025-01-01T10:00:01.000Z"
  | 2 => "2025-01-01T10:00:02.000Z"
  | 3 => "2025-01-01T10:00:03.000Z"
  | _ => "2025-01-01T10:00:09.000Z"
  end.

Definition text_block (text : string) : content_block :=
  {| block_type := "text"; block_text := text |}.

(** Both generators answer. *)
Definition w_ok : world := {|
  uuid_at := fun _ => "idea-2";
  now_at := clock;
  CURRENT_TIMESTAMP_at := fun _ => "2025-01-01 10:00:00";
  generateContent_result := fun _ => Ok "enrichment.json";
  messages_create_result := fun _ => Ok [text_block "evaluation.json"]
|}.

(** The generator of the enrichment executor is out of reach. *)
Definition w_enrich_fails : world := {|
  uuid_at := fun _ => "idea-2";
  now_at := clock;
  CURRENT_TIMESTAMP_at := fun _ => "2025-01-01 10:00:00";
  generateContent_result := fun _ => Err "fetch failed";
  messages_create_result := fun _ => Ok [text_block "evaluation.json"]
|}.

(** The generator of the evaluation executor answers without a text. *)
Definition w_evaluate_fails : world := {|
  uuid_at := fun _ => "idea-2";
  now_at := clock;
  CURRENT_TIMESTAMP_at := fun _ => "2025-01-01 10:00:00";
  generateContent_result := fun _ => Ok "enrichment.json";
  messages_create_result := fun _ => Ok []
|}.

(** The evaluation executor scores the idea 30. *)
Definition w_low_score : world := {|
  uuid_at := fun _ => "idea-2";
  now_at := clock;
  CURRENT_TIMESTAMP_at := fun _ => "2025-01-01 10:00:00";
  generateContent_result := fun _ => Ok "enrichment.json";
  messages_create_result := fun _ => Ok [text_block "evaluation_low.json"]
|}.

Definition empty_db : Database := {|
  tbl_ideas := []; tbl_idea_enrichment := []; tbl_idea_evaluation := []
|}.

(** A server with nothing in store. *)
Definition s_empty : server := {|
  db := empty_db; pool := []; trace := []; draws := 0
|}.

(** A server whose store holds one pending idea and no stage record. *)
Definition s_pending : server := {|
  db := {| tbl_ideas := [idea]; tbl_idea_enrichment := [];
           tbl_idea_evaluation := [] |};
  pool := []; trace := []; draws := 0
|}.

(** The handlers and tasks at the stand-in JSON texts. *)
Definition handle : world -> request -> server -> server :=
  @handle json_enrichment json_evaluation json_mv json_tf json_re.
Definition enrich_task : string -> ideas.row -> async unit :=
  @enrich_task json_enrichment json_mv json_tf json_re.
Definition evaluate_task
  : string -> ideas.row -> EnrichmentOutput -> async unit :=
  @evaluate_task json_evaluation.
Definition analyze_task : string -> ideas.row -> async unit :=
  @analyze_task json_enrichment json_evaluation json_mv json_tf json_re.
Definition saveEnrichment : string -> EnrichmentOutput -> async unit :=
  @saveEnrichment json_mv json_tf json_re.
Definition getEnrichment : string -> async (option EnrichmentOutput) :=
  @getEnrichment json_mv json_tf json_re.

(** [POST /api/ideas] with "Build a tool", on the empty store. *)
Definition s_created : server :=
  handle w_ok
    (req_POST_ideas {| rawText := Some "Build a tool";
                       body_context := None;
                       projectHint := None |})
    s_empty.

End Sample.

(* ================================================================== *)
(** ** What a program may do                                           *)
(* ================================================================== *)

(** Every effect of [p], those of the bodies it detaches included, is
    allowed by [ok_call] and [ok_prim]. *)
Fixpoint obeys (ok_call : forall X : Type, call X -> Prop)
    (ok_prim : forall X : Type, prim X -> Prop) {A : Type} (p : async A)
  : Prop :=
  match p with
  | Ret _ => True
  | Throw _ => True
  | Await c k => ok_call _ c /\ forall r, obeys ok_call ok_prim (k r)
  | Sync pr k => ok_prim _ pr /\ forall x, obeys ok_call ok_prim (k x)
  | Detach b k => obeys ok_call ok_prim b /\ obeys ok_call ok_prim k
  end.

(** Every body [p] detaches obeys [ok_call] and [ok_prim]; [p] itself is
    free. *)
Fixpoint spawns (ok_call : forall X : Type, call X -> Prop)
    (ok_prim : forall X : Type, prim X -> Prop) {A : Type} (p : async A)
  : Prop :=
  match p with
  | Ret _ => True
  | Throw _ => True
  | Await _ k => forall r, spawns ok_call ok_prim (k r)
  | Sync _ k => forall x, spawns ok_call ok_prim (k x)
  | Detach b k => obeys ok_call ok_prim b /\ spawns ok_call ok_prim k
  end.

Definition any_call : forall X : Type, call X -> Prop := fun _ _ => True.

Definition any_prim : forall X : Type, prim X -> Prop := fun _ _ => True.

(** Anything but sending a response. *)
Definition no_response : forall X : Type, prim X -> Prop :=
  fun _ p => match p with res_send _ => False | _ => True end.

(** The six values of the status column the server writes. *)
Definition valid_status (status : string) : Prop :=
  In status ["pending"; "enriched"; "evaluated-ready"; "deferred";
             "research"; "archived"].

(** The statuses a stage writes: every one of the six but pending. *)
Definition stage_status (status : string) : Prop :=
  In status ["enriched"; "evaluated-ready"; "deferred"; "research";
             "archived"].

(** A statement that sets a status sets the status of a stage. *)
Definition sets_stage_status : forall X : Type, call X -> Prop :=
  fun _ c =>
    match c with
    | db_run (UPDATE_ideas_SET_status status _ _) => stage_status status
    | _ => True
    end.

Definition statuses_valid (d : Database) : Prop :=
  Forall (fun r => valid_status (ideas.status r)) (tbl_ideas d).

(** The tasks in flight obey [ok_call] and [ok_prim]. *)
Definition pool_obeys (ok_call : forall X : Type, call X -> Prop)
    (ok_prim : forall X : Type, prim X -> Prop) (s : server) : Prop :=
  Forall (fun t => obeys ok_call ok_prim (task_body t)) (pool s).

(** The responses sent, in order. *)
Fixpoint responses (t : list event) : list response :=
  match t with
  | [] => []
  | ev_response r :: t' => r :: responses t'
  | _ :: t' => responses t'
  end.

(** [JSON.parse(JSON.stringify(a))] gives [a] back. *)
Definition round_trips {A : Type} {JSON_A : JSON A} (a : A) : Prop :=
  JSON_parse (JSON_stringify a) = Ok a.

(** The three nested objects of an enrichment survive their JSON text. *)
Definition enrichment_round_trips
    {JSON_MarketValidation : JSON MarketValidation}
    {JSON_TechnicalFeasibility : JSON TechnicalFeasibility}
    {JSON_ResourceEstimate : JSON ResourceEstimate}
    (e : EnrichmentOutput) : Prop :=
  round_trips (marketValidation e)
  /\ round_trips (technicalFeasibility e)
  /\ round_trips (resourceEstimate e).

(** The columns of an idea no statement of the server rewrites. *)
Definition same_identity (r r' : ideas.row) : Prop :=
  ideas.id r' = ideas.id r
  /\ ideas.source r' = ideas.source r
  /\ ideas.raw_text r' = ideas.raw_text r
  /\ ideas.created_at r' = ideas.created_at r
  /\ ideas.context r' = ideas.context r
  /\ ideas.project_hint r' = ideas.project_hint r.

(** The tiers of the routes, lowest first. *)
Definition RouteDecision_rank (r : RouteDecision) : nat :=
  match r with
  | ARCHIVE_WITH_LEARNING => 0
  | NEEDS_VALIDATION => 1
  | DEFER_WITH_BLUEPRINT => 2
  | GENERATE_BLUEPRINT => 3
  end.

Section Steps.

Context {JSON_EnrichmentOutput : JSON EnrichmentOutput}
        {JSON_EvaluationOutput : JSON EvaluationOutput}
        {JSON_MarketValidation : JSON MarketValidation}
        {JSON_TechnicalFeasibility : JSON TechnicalFeasibility}
        {JSON_ResourceEstimate : JSON ResourceEstimate}.

(** One turn of the server: a request comes in, or the event loop resumes
    a task in flight. *)
Inductive step : Type :=
| step_request (w : world) (r : request)
| step_resume (w : world) (i : nat).

Definition do_step (st : step) (s : server) : server :=
  match st with
  | step_request w r => handle w r s
  | step_resume w i => resume w i s
  end.

Definition run_steps (steps : list step) (s : server) : server :=
  fold_left (fun s st => do_step st s) steps s.

Definition is_request (st : step) : bool :=
  match st with
  | step_request _ _ => true
  | step_resume _ _ => false
  end.

End Steps.

(** [p] detaches nothing and awaits at most [n] promises on every path. *)
Fixpoint ends_within (n : nat) {A : Type} (p : async A) {struct p} : Prop :=
  match p with
  | Ret _ => True
  | Throw _ => True
  | Await _ k =>
      match n with
      | O => False
      | S n' => forall r, ends_within n' (k r)
      end
  | Sync _ k => forall x, ends_within n (k x)
  | Detach _ _ => False
  end.

(** The [n] steps in which the event loop settles, in the worlds [ws], the
    promise awaited by the task at position [i]. *)
Definition settlements (i : nat) (ws : list world) : list step :=
  map (fun w => step_resume w i) ws.

(** [b] is suspended on a promise, after which it awaits at most [n]
    more. *)
Definition suspended_within (n : nat) (b : async unit) : Prop :=
  match b with
  | Await _ k => forall r, ends_within n (k r)
  | _ => False
  end.

(* ================================================================== *)
(** ** The client (src/App.tsx, src/components/IdeaCard.tsx)           *)
(* ================================================================== *)

Module IdeaCard.

Definition getScoreColor (score : number) : string :=
  if geq score 80%Q then "text-green-600"
  else if geq score 60%Q then "text-blue-600"
  else if geq score 40%Q then "text-yellow-600"
  else "text-red-600".

(** [disabled={isAnalyzing || idea.status !== 'pending'}] on the Analyze
    button. *)
Definition analyze_disabled (isAnalyzing : bool) (status : string) : bool :=
  isAnalyzing || negb (String.eqb status "pending").

End IdeaCard.

Module App.

(** An element of [data.ideas] as the component types it;
    [enrichment] and [evaluation] are of type [any] there. *)
Record Idea : Type := {
  id : string;
  raw_text : string;
  status : string;
  created_at : string;
  evaluation_score : option number;
  strategic_recommendation : option string;
  enrichment : option EnrichmentOutput;
  evaluation : option EvaluationOutput
}.

Definition filteredIdeas (filter : string) (ideas : list Idea) : list Idea :=
  if String.eqb filter "all" then ideas
  else List.filter (fun idea => String.eqb (status idea) filter) ideas.

Record StatusCounts : Type := {
  pending : nat;
  enriched : nat;
  evaluated_ready : nat;
  deferred : nat;
  research : nat;
  archived : nat
}.

Definition statusCounts (ideas : list Idea) : StatusCounts :=
  let count s :=
    List.length (List.filter (fun i => String.eqb (status i) s) ideas) in
  {| pending := count "pending";
     enriched := count "enriched";
     evaluated_ready := count "evaluated-ready";
     deferred := count "deferred";
     research := count "research";
     archived := count "archived" |}.

(** [statusCounts[status]] on the tiles. *)
Definition tile_count (counts : StatusCounts) (s : string) : option nat :=
  if String.eqb s "pending" then Some (pending counts)
  else if String.eqb s "enriched" then Some (enriched counts)
  else if String.eqb s "evaluated-ready" then Some (evaluated_ready counts)
  else if String.eqb s "deferred" then Some (deferred counts)
  else if String.eqb s "research" then Some (research counts)
  else if String.eqb s "archived" then Some (archived counts)
  else None.

(** The click on a tile: [setFilter(filter === status ? 'all' : status)]. *)
Definition toggleFilter (filter s : string) : string :=
  if String.eqb filter s then "all" else s.

End App.

(* ================================================================== *)
(** ** More sample data                                                *)
(* ================================================================== *)

Module Cases.

(** An enrichment the stand-in JSON texts of [Sample] carry whole. *)
Definition enrichment : EnrichmentOutput := {|
  category := "feature";
  complexityScore := (3 # 10)%Q;
  marketValidation := {| searchVolume := None; competitors := [];
                         marketGap := "No tool ranks ideas" |};
  technicalFeasibility := {| stackFit := "good"; dependencies := [];
                             riskFactors := [] |};
  resourceEstimate := {| estimatedHours := 0%Q;
                         skillsRequired := ["typescript"; "sql"];
                         costEstimate := None |}
|}.

(** An enrichment row whose [resource_estimate] is not JSON. *)
Definition corrupt_row : idea_enrichment.row := {|
  idea_enrichment.idea_id := "idea-1";
  idea_enrichment.category := "feature";
  idea_enrichment.complexity_score := (3 # 10)%Q;
  idea_enrichment.market_validation := "gap";
  idea_enrichment.technical_feasibility := "good";
  idea_enrichment.resource_estimate := "not json";
  idea_enrichment.enriched_at := "2025-01-01T10:00:00.000Z";
  idea_enrichment.enriched_by := "gemini-1.5-flash"
|}.

Definition s_corrupt : server := {|
  db := {| tbl_ideas := [Sample.idea];
           tbl_idea_enrichment := [corrupt_row];
           tbl_idea_evaluation := [] |};
  pool := []; trace := []; draws := 0
|}.

(** An evaluation row written without case studies. *)
Definition bare_row : idea_evaluation.row := {|
  idea_evaluation.idea_id := "idea-1";
  idea_evaluation.jtbd_analysis := "Teams need to triage ideas";
  idea_evaluation.disruption_score := (7 # 10)%Q;
  idea_evaluation.capabilities_fit := "strong";
  idea_evaluation.strategic_recommendation := "build-now";
  idea_evaluation.case_study_matches := "";
  idea_evaluation.evaluation_score := 90%Q;
  idea_evaluation.evaluated_at := "2025-01-01T10:00:00.000Z"
|}.

Definition s_bare : server := {|
  db := {| tbl_ideas := [Sample.idea];
           tbl_idea_enrichment := [];
           tbl_idea_evaluation := [bare_row] |};
  pool := []; trace := []; draws := 0
|}.

(** An archived idea. *)
Definition archived_idea : ideas.row := {|
  ideas.id := "idea-1";
  ideas.source := "manual";
  ideas.raw_text := "Build a tool";
  ideas.created_at := "2025-01-01 10:00:00";
  ideas.context := Some "for the platform team";
  ideas.project_hint := None;
  ideas.status := "archived";
  ideas.updated_at := "2025-01-02 09:00:00"
|}.

Definition s_archived : server := {|
  db := {| tbl_ideas := [archived_idea]; tbl_idea_enrichment := [];
           tbl_idea_evaluation := [] |};
  pool := []; trace := []; draws := 0
|}.

(** The generator of the evaluation executor answers with a tool call
    before its text. *)
Definition w_two_blocks : world := {|
  uuid_at := fun _ => "idea-2";
  now_at := Sample.clock;
  CURRENT_TIMESTAMP_at := fun _ => "2025-01-01 10:00:00";
  generateContent_result := fun _ => Ok "enrichment.json";
  messages_create_result := fun _ =>
    Ok [{| block_type := "tool_use"; block_text := "" |};
        Sample.text_block "evaluation_low.json";
        Sample.text_block "evaluation.json"]
|}.

(** The generator of the enrichment executor answers with [enrichment]. *)
Definition json_enrichment : JSON EnrichmentOutput := {|
  JSON_stringify := fun _ => "enrichment.json";
  JSON_parse := fun s =>
    if String.eqb s "enrichment.json" then Ok enrichment
    else Err "Unexpected token in JSON"
|}.

(** An enriched idea and its record. *)
Definition enriched_idea : ideas.row := {|
  ideas.id := "idea-1";
  ideas.source := "manual";
  ideas.raw_text := "Build a tool";
  ideas.created_at := "2025-01-01 10:00:00";
  ideas.context := None;
  ideas.project_hint := None;
  ideas.status := "enriched";
  ideas.updated_at := "2025-01-01T10:00:02.000Z"
|}.

Definition s_enriched : server := {|
  db := {| tbl_ideas := [enriched_idea];
           tbl_idea_enrichment :=
             [@enrichment_row Sample.json_mv Sample.json_tf Sample.json_re
                "idea-1" enrichment "2025-01-01T10:00:00.000Z"];
           tbl_idea_evaluation := [] |};
  pool := []; trace := []; draws := 0
|}.

Definition card (s : string) : App.Idea := {|
  App.id := "idea-1";
  App.raw_text := "Build a tool";
  App.status := s;
  App.created_at := "2025-01-01 10:00:00";
  App.evaluation_score := None;
  App.strategic_recommendation := None;
  App.enrichment := None;
  App.evaluation := None
|}.

End Cases.

(* ================================================================== *)
(** * Properties                                                       *)
(* ================================================================== *)

(** ** Routing *)

Example route_85_skip : routeIdea 85%Q "skip" = DEFER_WITH_BLUEPRINT.
Proof. reflexivity. Qed.

Example route_59 : routeIdea 59%Q "build-now" = NEEDS_VALIDATION.
Proof. reflexivity. Qed.

Example route_39 : routeIdea 39%Q "build-now" = ARCHIVE_WITH_LEARNING.
Proof. reflexivity. Qed.

Example route_non_integer :
  routeIdea (159 # 2)%Q "build-now" = DEFER_WITH_BLUEPRINT.
Proof. reflexivity. Qed.

Lemma geq_spec (a b : number) : reflect (b <= a)%Q (geq a b).
Proof.
  unfold geq. destruct (Qle_bool b a) eqn:E; constructor.
  - now apply Qle_bool_iff.
  - intro H. apply Qle_bool_iff in H. congruence.
Qed.

Lemma geq_false_lt (a b : number) : geq a b = false <-> (a < b)%Q.
Proof.
  destruct (geq_spec a b) as [H | H]; split; intro H'; try discriminate.
  - exfalso. exact (Qlt_not_le _ _ H' H).
  - now apply Qnot_le_lt.
  - reflexivity.
Qed.

(** C1. [routeIdea] returns the first matching rule of the cascade:
    GENERATE_BLUEPRINT iff the score is at least 80 and the recommendation
    is "build-now"; otherwise DEFER_WITH_BLUEPRINT iff the score is at least
    60; otherwise NEEDS_VALIDATION iff it is at least 40; otherwise
    ARCHIVE_WITH_LEARNING.  A score of 85 with recommendation "skip" defers,
    and the thresholds 80, 60 and 40 are inclusive. *)
Theorem routeIdea_cascade (evaluationScore : number) (recommendation : string) :
  let rule1 := (80 <= evaluationScore)%Q /\ recommendation = "build-now" in
  let rule2 := (60 <= evaluationScore)%Q in
  let rule3 := (40 <= evaluationScore)%Q in
  (routeIdea evaluationScore recommendation = GENERATE_BLUEPRINT <-> rule1)
  /\ (routeIdea evaluationScore recommendation = DEFER_WITH_BLUEPRINT
      <-> ~ rule1 /\ rule2)
  /\ (routeIdea evaluationScore recommendation = NEEDS_VALIDATION
      <-> ~ rule1 /\ ~ rule2 /\ rule3)
  /\ (routeIdea evaluationScore recommendation = ARCHIVE_WITH_LEARNING
      <-> ~ rule1 /\ ~ rule2 /\ ~ rule3)
  /\ routeIdea 85%Q "skip" = DEFER_WITH_BLUEPRINT
  /\ routeIdea 80%Q "build-now" = GENERATE_BLUEPRINT
  /\ routeIdea 60%Q recommendation = DEFER_WITH_BLUEPRINT
  /\ routeIdea 40%Q recommendation = NEEDS_VALIDATION.
Proof.
  cbv zeta. unfold routeIdea, ROUTING_THRESHOLDS.BUILD_NOW,
    ROUTING_THRESHOLDS.BUILD_LATER, ROUTING_THRESHOLDS.RESEARCH.
  assert (H68 : (60 <= 80)%Q) by (unfold Qle; simpl; lia).
  assert (H46 : (40 <= 60)%Q) by (unfold Qle; simpl; lia).
  destruct (geq_spec evaluationScore 80%Q) as [H80 | H80];
    destruct (String.eqb_spec recommendation "build-now") as [Hr | Hr];
    destruct (geq_spec evaluationScore 60%Q) as [H60 | H60];
    destruct (geq_spec evaluationScore 40%Q) as [H40 | H40];
    cbn [andb];
    try (exfalso; apply H60; now apply Qle_trans with 80%Q);
    try (exfalso; apply H40; now apply Qle_trans with 60%Q);
    (repeat split; try discriminate; try tauto; try reflexivity;
     try (destruct (String.eqb recommendation "build-now"); reflexivity)).
Qed.

(** C9. [routeIdea] is a total function, and below the top threshold it does
    not read the recommendation: for a score under 80 (negative and
    non-integer scores included) any two recommendations give the same
    route, and a score under 40 is archived whatever the recommendation. *)
Theorem routeIdea_ignores_recommendation_below_80
    (evaluationScore : number) (r1 r2 : string) :
  (evaluationScore < 80)%Q ->
  routeIdea evaluationScore r1 = routeIdea evaluationScore r2
  /\ ((evaluationScore < 40)%Q ->
      routeIdea evaluationScore r1 = ARCHIVE_WITH_LEARNING).
Proof.
  intro H80. apply geq_false_lt in H80.
  unfold routeIdea, ROUTING_THRESHOLDS.BUILD_NOW. rewrite H80. cbn [andb].
  split; [reflexivity |].
  intro H40.
  assert (H60 : (evaluationScore < 60)%Q).
  { apply Qlt_trans with 40%Q; [exact H40 | unfold Qlt; simpl; lia]. }
  apply geq_false_lt in H40. apply geq_false_lt in H60.
  unfold ROUTING_THRESHOLDS.BUILD_LATER, ROUTING_THRESHOLDS.RESEARCH.
  now rewrite H60, H40.
Qed.

Lemma routeIdea_ignores_recommendation_below_80_witness :
  ((-5 # 2) < 80)%Q
  /\ routeIdea (-5 # 2)%Q "build-now" = routeIdea (-5 # 2)%Q "skip"
  /\ routeIdea (-5 # 2)%Q "build-now" = ARCHIVE_WITH_LEARNING.
Proof.
  assert (H : ((-5 # 2) < 80)%Q) by (unfold Qlt; simpl; lia).
  destruct (routeIdea_ignores_recommendation_below_80
              (-5 # 2)%Q "build-now" "skip" H) as [Heq Harch].
  split; [exact H |]. split; [exact Heq |].
  apply Harch. unfold Qlt; simpl; lia.
Defined.

(** ** JSON text of string arrays *)

Module JSONStringsFacts.
Import JSONStrings.

Lemma append_assoc (a b c : string) : (a ++ b) ++ c = a ++ (b ++ c).
Proof. induction a as [| x a IH]; simpl; [reflexivity | now rewrite IH]. Qed.

Lemma length_append (a b : string) :
  String.length (a ++ b) = String.length a + String.length b.
Proof. induction a as [| x a IH]; simpl; [reflexivity | now rewrite IH]. Qed.

(** The parser reads back the escape of one character. *)
Lemma parse_escape (c : ascii) (s body rest : string) :
  parse_string_body s = Some (body, rest) ->
  parse_string_body (escape c ++ s) = Some (String c body, rest).
Proof.
  intro H.
  destruct c as [[] [] [] [] [] [] [] []];
    match goal with
    | |- context [escape ?c] =>
        let e := eval vm_compute in (escape c) in
        change (escape c) with e
    end;
    cbn; rewrite H; reflexivity.
Qed.

Lemma parse_quote_body (s rest : string) :
  parse_string_body (quote_body s ++ String dquote rest) = Some (s, rest).
Proof.
  induction s as [| c s IH].
  - reflexivity.
  - cbn [quote_body]. rewrite append_assoc. now apply parse_escape.
Qed.

Lemma quote_unfold (s rest : string) :
  quote s ++ rest = String dquote (quote_body s ++ String dquote rest).
Proof. unfold quote. cbn. now rewrite append_assoc. Qed.

Lemma length_quote (s : string) : 2 <= String.length (quote s).
Proof. unfold quote. cbn. rewrite length_append. cbn. lia. Qed.

Lemma length_join_quote (l : list string) :
  List.length l <= String.length (join (map quote l)).
Proof.
  induction l as [| x [| y l] IH].
  - cbn. lia.
  - cbn [map join List.length]. pose proof (length_quote x). lia.
  - change (join (map quote (x :: y :: l)))
      with (quote x ++ "," ++ join (map quote (y :: l))).
    rewrite !length_append. pose proof (length_quote x).
    cbn [List.length] in *. lia.
Qed.

Lemma skip_ws_quote (x rest : string) :
  skip_ws (quote x ++ rest) = quote x ++ rest.
Proof. reflexivity. Qed.

(** One element of an array and the separator after it. *)
Lemma parse_elements_quote (fuel : nat) (x rest : string) :
  parse_elements (S fuel) (quote x ++ rest)
  = match skip_ws rest with
    | String d r3 =>
        if Ascii.eqb d ","
        then match parse_elements fuel r3 with
             | Some (xs, rest') => Some (x :: xs, rest')
             | None => None
             end
        else if Ascii.eqb d "]" then Some ([x], r3)
        else None
    | EmptyString => None
    end.
Proof.
  cbn [parse_elements]. rewrite skip_ws_quote, quote_unfold.
  change (Ascii.eqb dquote dquote) with true. cbv iota.
  now rewrite parse_quote_body.
Qed.

Lemma parse_elements_join (l : list string) :
  forall (fuel : nat) (x rest : string),
    List.length l < fuel ->
    parse_elements fuel (join (map quote (x :: l)) ++ String "]" rest)
    = Some (x :: l, rest).
Proof.
  induction l as [| y l IH]; intros fuel x rest Hfuel;
    (destruct fuel as [| fuel]; [cbn in Hfuel; lia |]).
  - cbn [map join]. rewrite parse_elements_quote. reflexivity.
  - change (join (map quote (x :: y :: l)))
      with (quote x ++ "," ++ join (map quote (y :: l))).
    rewrite !append_assoc, parse_elements_quote.
    cbn [append skip_ws is_ws]. change (is_ws ",") with false. cbv iota.
    change (Ascii.eqb "," ",") with true. cbv iota.
    rewrite (IH fuel y rest); [reflexivity | cbn in Hfuel; lia].
Qed.

(** [JSON.parse(JSON.stringify(l))] is [l]. *)
Lemma parse_stringify (l : list string) : parse (stringify l) = Ok l.
Proof.
  destruct l as [| x l]; [reflexivity |].
  assert (Hq : exists r, join (map quote (x :: l)) ++ String "]" ""
                         = quote x ++ r).
  { destruct l as [| y l].
    - eexists. reflexivity.
    - change (join (map quote (x :: y :: l)))
        with (quote x ++ "," ++ join (map quote (y :: l))).
      rewrite append_assoc. eexists. reflexivity. }
  destruct Hq as [r Hr].
  assert (Hlen : List.length l
                 < String.length (join (map quote (x :: l)) ++ String "]" "")).
  { rewrite length_append. pose proof (length_join_quote (x :: l)).
    cbn [List.length String.length] in *. lia. }
  pose proof (parse_elements_join l _ x "" Hlen) as Hp.
  unfold parse, parse_array, stringify.
  change ("[" ++ join (map quote (x :: l)) ++ "]")
    with (String "[" (join (map quote (x :: l)) ++ String "]" "")).
  change (skip_ws (String "[" ?s)) with (String "[" s).
  change (Ascii.eqb "[" "[") with true. cbv iota.
  rewrite Hr in *. rewrite skip_ws_quote, quote_unfold.
  change (Ascii.eqb dquote "]") with false. cbv iota.
  rewrite <- quote_unfold, Hp. reflexivity.
Qed.

(** The text of an array is never the empty string. *)
Lemma stringify_not_empty (l : list string) :
  String.eqb (stringify l) "" = false.
Proof. reflexivity. Qed.

End JSONStringsFacts.

Example stringify_two :
  JSON_stringify ["Netflix vs Blockbuster"; "a\b"]
  = "[" ++ String JSONStrings.dquote "Netflix vs Blockbuster"
    ++ String JSONStrings.dquote ","
    ++ String JSONStrings.dquote "a\\b"
    ++ String JSONStrings.dquote "]".
Proof. reflexivity. Qed.

Example parse_with_whitespace : JSON_parse " [ ] " = Ok (@nil string).
Proof. reflexivity. Qed.

Example parse_not_an_array : JSON_parse "{}" = Err "SyntaxError: Unexpected token in JSON" :> result (list string).
Proof. reflexivity. Qed.

(** ** Running programs *)

Section ExecFacts.

Variable w : world.
Variable idea : string.

Lemma exec_bind {A B : Type} (p : async A) (f : A -> async B) (s : server) :
  exec w idea (bind p f) s
  = match exec w idea p s with
    | (Ok a, s') => exec w idea (f a) s'
    | (Err m, s') => (Err m, s')
    end.
Proof.
  revert B f s.
  induction p as [A a | A m | A X c k IH | A X c k IH | A b _ k IH];
    intros B f s; cbn.
  - reflexivity.
  - reflexivity.
  - destruct (do_call w c s) as [r s']. apply IH.
  - destruct (do_prim w c s) as [x s']. apply IH.
  - destruct (advance w idea b s) as [b' s']. apply IH.
Qed.

Lemma exec_try_catch {A : Type} (p : async A) (h : string -> async A)
    (s : server) :
  exec w idea (try_catch p h) s
  = match exec w idea p s with
    | (Ok a, s') => (Ok a, s')
    | (Err m, s') => exec w idea (h m) s'
    end.
Proof.
  revert h s.
  induction p as [A a | A m | A X c k IH | A X c k IH | A b _ k IH];
    intros h s; cbn.
  - reflexivity.
  - reflexivity.
  - destruct (do_call w c s) as [r s']. apply IH.
  - destruct (do_prim w c s) as [x s']. apply IH.
  - destruct (advance w idea b s) as [b' s']. apply IH.
Qed.

Lemma exec_await {X : Type} (c : call X) (s : server) :
  exec w idea (await c) s = do_call w c s.
Proof.
  cbn. destruct (do_call w c s) as [[x | m] s']; reflexivity.
Qed.

Lemma exec_perform {X : Type} (p : prim X) (s : server) :
  exec w idea (perform p) s = (Ok (fst (do_prim w p s)), snd (do_prim w p s)).
Proof.
  cbn. destruct (do_prim w p s) as [x s']. reflexivity.
Qed.

Lemma exec_of_result {A : Type} (r : result A) (s : server) :
  exec w idea (of_result r) s = (r, s).
Proof. destruct r; reflexivity. Qed.

End ExecFacts.

(** ** The record store *)

Lemma idea_exists_SELECT (id : string) (d : Database) :
  idea_exists id d = true <-> exists row, SELECT_idea id d = Some row.
Proof.
  unfold idea_exists, SELECT_idea.
  induction (tbl_ideas d) as [| r t IH]; cbn.
  - split; [discriminate | intros [row H]; discriminate].
  - destruct (String.eqb (ideas.id r) id); cbn.
    + split; [intros _; now exists r | reflexivity].
    + exact IH.
Qed.

Lemma SELECT_idea_id (id : string) (d : Database) (row : ideas.row) :
  SELECT_idea id d = Some row -> ideas.id row = id.
Proof.
  unfold SELECT_idea. intro H. apply find_some in H as [_ H].
  now apply String.eqb_eq.
Qed.

Lemma SELECT_idea_exists (id : string) (d : Database) (row : ideas.row) :
  SELECT_idea id d = Some row -> idea_exists id d = true.
Proof. intro H. apply idea_exists_SELECT. now exists row. Qed.

(** [UPDATE ideas SET status] keeps the keys and rewrites the one row. *)
Lemma find_set_status (status updated_at id : string) (t : list ideas.row) :
  find (fun r => String.eqb (ideas.id r) id)
       (map (set_status status updated_at id) t)
  = option_map (set_status status updated_at id)
      (find (fun r => String.eqb (ideas.id r) id) t).
Proof.
  induction t as [| r t IH]; cbn; [reflexivity |].
  unfold set_status at 1.
  destruct (String.eqb (ideas.id r) id) eqn:E; cbn; rewrite ?E; cbn.
  - unfold set_status. now rewrite E.
  - exact IH.
Qed.

Lemma existsb_set_status (status updated_at id id' : string)
    (t : list ideas.row) :
  existsb (fun r => String.eqb (ideas.id r) id')
          (map (set_status status updated_at id) t)
  = existsb (fun r => String.eqb (ideas.id r) id') t.
Proof.
  induction t as [| r t IH]; cbn; [reflexivity |].
  rewrite IH. f_equal. unfold set_status.
  destruct (String.eqb (ideas.id r) id); reflexivity.
Qed.

Lemma status_set_status (status updated_at id : string) (r : ideas.row) :
  ideas.id r = id ->
  ideas.status (set_status status updated_at id r) = status
  /\ ideas.updated_at (set_status status updated_at id r) = updated_at.
Proof.
  intro H. unfold set_status. rewrite H, String.eqb_refl. now split.
Qed.

(** [INSERT OR REPLACE] leaves one row under the key of the new row. *)
Lemma filter_replace_enrichment (r : idea_enrichment.row)
    (t : list idea_enrichment.row) :
  filter (fun r' => String.eqb (idea_enrichment.idea_id r')
                               (idea_enrichment.idea_id r))
         (replace_enrichment r t) = [r].
Proof.
  unfold replace_enrichment. rewrite filter_app. cbn.
  rewrite String.eqb_refl.
  induction t as [| x t IH]; cbn; [reflexivity |].
  destruct (String.eqb (idea_enrichment.idea_id x)
                       (idea_enrichment.idea_id r)) eqn:E; cbn.
  - exact IH.
  - rewrite E. exact IH.
Qed.

Lemma find_replace_enrichment (r : idea_enrichment.row)
    (t : list idea_enrichment.row) :
  find (fun r' => String.eqb (idea_enrichment.idea_id r')
                             (idea_enrichment.idea_id r))
       (replace_enrichment r t) = Some r.
Proof.
  unfold replace_enrichment.
  induction t as [| x t IH]; cbn.
  - now rewrite String.eqb_refl.
  - destruct (String.eqb (idea_enrichment.idea_id x)
                         (idea_enrichment.idea_id r)) eqn:E; cbn.
    + exact IH.
    + rewrite E. exact IH.
Qed.

Lemma others_replace_enrichment (r : idea_enrichment.row)
    (t : list idea_enrichment.row) :
  filter (fun r' => negb (String.eqb (idea_enrichment.idea_id r')
                                     (idea_enrichment.idea_id r)))
         (replace_enrichment r t)
  = filter (fun r' => negb (String.eqb (idea_enrichment.idea_id r')
                                       (idea_enrichment.idea_id r))) t.
Proof.
  unfold replace_enrichment. rewrite filter_app. cbn.
  rewrite String.eqb_refl. cbn. rewrite app_nil_r.
  induction t as [| x t IH]; cbn; [reflexivity |].
  destruct (negb (String.eqb (idea_enrichment.idea_id x)
                             (idea_enrichment.idea_id r))) eqn:E; cbn.
  - rewrite E. now f_equal.
  - exact IH.
Qed.

(** A second [INSERT OR REPLACE] under the same key overwrites the first. *)
Lemma replace_enrichment_twice (r1 r2 : idea_enrichment.row)
    (t : list idea_enrichment.row) :
  idea_enrichment.idea_id r1 = idea_enrichment.idea_id r2 ->
  replace_enrichment r2 (replace_enrichment r1 t) = replace_enrichment r2 t.
Proof.
  intro H. unfold replace_enrichment at 1 3. f_equal.
  rewrite <- H. apply others_replace_enrichment.
Qed.

Lemma find_replace_evaluation (r : idea_evaluation.row)
    (t : list idea_evaluation.row) :
  find (fun r' => String.eqb (idea_evaluation.idea_id r')
                             (idea_evaluation.idea_id r))
       (replace_evaluation r t) = Some r.
Proof.
  unfold replace_evaluation.
  induction t as [| x t IH]; cbn.
  - now rewrite String.eqb_refl.
  - destruct (String.eqb (idea_evaluation.idea_id x)
                         (idea_evaluation.idea_id r)) eqn:E; cbn.
    + exact IH.
    + rewrite E. exact IH.
Qed.

(** ** The constraints of the schema are kept *)

Lemma existsb_app_l {A : Type} (f : A -> bool) (l l' : list A) :
  existsb f l = true -> existsb f (l ++ l')%list = true.
Proof. intro H. rewrite existsb_app, H. reflexivity. Qed.

Lemma not_in_map_of_existsb (id : string) (t : list ideas.row) :
  existsb (fun r => String.eqb (ideas.id r) id) t = false ->
  ~ In id (map ideas.id t).
Proof.
  induction t as [| r t IH]; cbn; [tauto |].
  intros H [Hr | Hin]; apply orb_false_iff in H as [Hx Ht].
  - rewrite Hr, String.eqb_refl in Hx. discriminate.
  - now apply IH.
Qed.

Lemma NoDup_snoc {A : Type} (l : list A) (x : A) :
  NoDup l -> ~ In x l -> NoDup (l ++ [x])%list.
Proof.
  intros Hl Hx. induction Hl as [| y l Hy Hl IH]; cbn.
  - constructor; [tauto | constructor].
  - constructor.
    + rewrite in_app_iff. cbn. intros [H | [H | []]]; [tauto |].
      apply Hx. now left.
    + apply IH. intro H. apply Hx. now right.
Qed.

Lemma map_id_set_status (status now id : string) (t : list ideas.row) :
  map ideas.id (map (set_status status now id) t) = map ideas.id t.
Proof.
  induction t as [| r t IH]; cbn; [reflexivity |]. rewrite IH. f_equal.
  unfold set_status. destruct (String.eqb (ideas.id r) id); reflexivity.
Qed.

(** The keys left by [INSERT OR REPLACE] are unique. *)
Lemma NoDup_replace {A : Type} (key : A -> string) (r : A) (t : list A) :
  NoDup (map key t) ->
  NoDup (map key
           (filter (fun r' => negb (String.eqb (key r') (key r))) t ++ [r])%list).
Proof.
  intro H. rewrite map_app. cbn [map]. apply NoDup_snoc.
  - induction t as [| x t IH]; cbn; [constructor |].
    inversion H as [| ? ? Hx Ht]; subst.
    destruct (String.eqb (key x) (key r)); cbn; [now apply IH |].
    constructor; [| now apply IH].
    intro Hin. apply Hx. apply in_map_iff in Hin as (y & Hy & Hin).
    apply filter_In in Hin as [Hin _]. apply in_map_iff. now exists y.
  - intro Hin. apply in_map_iff in Hin as (y & Hy & Hin).
    apply filter_In in Hin as [_ Hne]. rewrite Hy, String.eqb_refl in Hne.
    discriminate.
Qed.

Lemma In_replace {A : Type} (key : A -> string) (r x : A) (t : list A) :
  In x (filter (fun r' => negb (String.eqb (key r') (key r))) t ++ [r])%list ->
  x = r \/ In x t.
Proof.
  rewrite in_app_iff. cbn. intros [H | [H | []]].
  - right. now apply filter_In in H as [H _].
  - now left.
Qed.

(** A statement that succeeds keeps the constraints. *)
Lemma run_statement_constraints (t : string) (stmt : statement)
    (d d' : Database) :
  constraints_hold d -> run_statement t stmt d = Ok d' -> constraints_hold d'.
Proof.
  intros (Hi & Hen & Hev & Fen & Fev) Hrun.
  destruct stmt as [id source raw context hint | status now id | r | r];
    cbn [run_statement] in Hrun.
  - destruct (idea_exists id d) eqn:Hfresh; [discriminate |].
    injection Hrun as <-. unfold constraints_hold, insert_idea, idea_exists.
    cbn [tbl_ideas tbl_idea_enrichment tbl_idea_evaluation].
    repeat split; try assumption.
    + rewrite map_app. cbn [map ideas.id]. apply NoDup_snoc; [exact Hi |].
      now apply not_in_map_of_existsb.
    + intros r Hr. apply existsb_app_l. exact (Fen r Hr).
    + intros r Hr. apply existsb_app_l. exact (Fev r Hr).
  - injection Hrun as <-. unfold constraints_hold, update_status, idea_exists.
    cbn [tbl_ideas tbl_idea_enrichment tbl_idea_evaluation].
    repeat split; try assumption.
    + now rewrite map_id_set_status.
    + intros r Hr. rewrite existsb_set_status. exact (Fen r Hr).
    + intros r Hr. rewrite existsb_set_status. exact (Fev r Hr).
  - destruct (idea_exists (idea_enrichment.idea_id r) d) eqn:Hidea;
      [| discriminate].
    injection Hrun as <-. unfold constraints_hold, put_enrichment.
    cbn [tbl_ideas tbl_idea_enrichment tbl_idea_evaluation].
    repeat split; try assumption.
    + now apply (NoDup_replace idea_enrichment.idea_id).
    + intros x Hx.
      apply (In_replace idea_enrichment.idea_id) in Hx as [-> | Hx];
        [exact Hidea | exact (Fen x Hx)].
  - destruct (idea_exists (idea_evaluation.idea_id r) d) eqn:Hidea;
      [| discriminate].
    injection Hrun as <-. unfold constraints_hold, put_evaluation.
    cbn [tbl_ideas tbl_idea_enrichment tbl_idea_evaluation].
    repeat split; try assumption.
    + now apply (NoDup_replace idea_evaluation.idea_id).
    + intros x Hx.
      apply (In_replace idea_evaluation.idea_id) in Hx as [-> | Hx];
        [exact Hidea | exact (Fev x Hx)].
Qed.

(** [INSERT OR REPLACE] under another key leaves the record of [id]. *)
Lemma find_replace_enrichment_other (id : string) (r : idea_enrichment.row)
    (t : list idea_enrichment.row) :
  idea_enrichment.idea_id r <> id ->
  find (fun r' => String.eqb (idea_enrichment.idea_id r') id)
       (replace_enrichment r t)
  = find (fun r' => String.eqb (idea_enrichment.idea_id r') id) t.
Proof.
  intro Hne. unfold replace_enrichment.
  induction t as [| x t IH]; cbn.
  - apply String.eqb_neq in Hne. now rewrite Hne.
  - destruct (String.eqb (idea_enrichment.idea_id x)
                         (idea_enrichment.idea_id r)) eqn:E; cbn.
    + apply String.eqb_eq in E.
      assert (Hx : String.eqb (idea_enrichment.idea_id x) id = false).
      { apply String.eqb_neq. congruence. }
      rewrite Hx. exact IH.
    + destruct (String.eqb (idea_enrichment.idea_id x) id);
        [reflexivity | exact IH].
Qed.

(** No statement of the server removes an enrichment record. *)
Lemma run_statement_keeps_enrichment (id t : string) (stmt : statement)
    (d d' : Database) :
  SELECT_enrichment id d <> None ->
  run_statement t stmt d = Ok d' ->
  SELECT_enrichment id d' <> None.
Proof.
  intros H Hrun.
  destruct stmt as [id' source raw context hint | status now id' | r | r];
    cbn [run_statement] in Hrun.
  - destruct (idea_exists id' d); [discriminate |]. now injection Hrun as <-.
  - now injection Hrun as <-.
  - destruct (idea_exists (idea_enrichment.idea_id r) d); [| discriminate].
    injection Hrun as <-. unfold SELECT_enrichment, put_enrichment in *.
    cbn [tbl_idea_enrichment].
    destruct (String.eqb_spec (idea_enrichment.idea_id r) id) as [<- | Hne].
    + now rewrite find_replace_enrichment.
    + now rewrite find_replace_enrichment_other.
  - destruct (idea_exists (idea_evaluation.idea_id r) d); [| discriminate].
    now injection Hrun as <-.
Qed.

Section StoreInvariant.

(** A property of the store that every successful statement keeps. *)
Variable P : Database -> Prop.
Hypothesis P_statement :
  forall (t : string) (stmt : statement) (d d' : Database),
    P d -> run_statement t stmt d = Ok d' -> P d'.

Variable w : world.

Lemma do_call_keeps {X : Type} (c : call X) (s : server) :
  P (db s) -> P (db (snd (do_call w c s))).
Proof.
  intro H. destruct c; cbn [do_call snd]; try exact H.
  destruct (run_statement (CURRENT_TIMESTAMP_at w (draws s)) stmt (db s))
    as [d |] eqn:Hrun; cbn [snd]; [| exact H].
  exact (P_statement _ _ _ _ H Hrun).
Qed.

Lemma do_prim_db {X : Type} (p : prim X) (s : server) :
  db (snd (do_prim w p s)) = db s.
Proof. destruct p; reflexivity. Qed.

Lemma park_db (owner : string) (b : async unit) (s : server) :
  db (park owner b s) = db s.
Proof. destruct b; reflexivity. Qed.

(** The synchronous part of a body does not touch the store. *)
Lemma advance_db {A : Type} (owner : string) (p : async A) (s : server) :
  db (snd (advance w owner p s)) = db s.
Proof.
  revert s.
  induction p as [A a | A m | A X c k IH | A X c k IH | A b IHb k IHk];
    intro s; cbn [advance]; try reflexivity.
  - pose proof (do_prim_db c s) as Hp.
    destruct (do_prim w c s) as [x s']. cbn [snd] in Hp.
    rewrite IH. exact Hp.
  - pose proof (IHb s) as Hb.
    destruct (advance w owner b s) as [b' s']. cbn [snd] in Hb.
    rewrite IHk, park_db. exact Hb.
Qed.

(** The store changes through statements only: a body run to its end keeps
    what every statement keeps. *)
Lemma exec_keeps {A : Type} (owner : string) (p : async A) (s : server) :
  P (db s) -> P (db (snd (exec w owner p s))).
Proof.
  revert s.
  induction p as [A a | A m | A X c k IH | A X c k IH | A b _ k IHk];
    intros s H; cbn [exec]; try exact H.
  - pose proof (do_call_keeps c s H) as Hc.
    destruct (do_call w c s) as [r s']. now apply IH.
  - pose proof (do_prim_db c s) as Hp.
    destruct (do_prim w c s) as [x s']. cbn [snd] in Hp.
    apply IH. now rewrite Hp.
  - pose proof (advance_db owner b s) as Hb.
    destruct (advance w owner b s) as [b' s']. cbn [snd] in Hb.
    apply IHk. now rewrite park_db, Hb.
Qed.

Lemma resume_keeps (i : nat) (s : server) :
  P (db s) -> P (db (resume w i s)).
Proof.
  intro H. unfold resume.
  destruct (nth_error (pool s) i) as [t |]; [| exact H].
  destruct (task_body t) as [| | X c k | |]; try exact H.
  pose proof (do_call_keeps c (set_pool (remove_nth i (pool s)) s) H) as Hc.
  destruct (do_call w c (set_pool (remove_nth i (pool s)) s)) as [r s1].
  pose proof (advance_db (task_idea t) (k r) s1) as Ha.
  destruct (advance w (task_idea t) (k r) s1) as [b s2]. cbn [snd] in *.
  now rewrite park_db, Ha.
Qed.

End StoreInvariant.

Section Reachable.

Context {JSON_EnrichmentOutput : JSON EnrichmentOutput}
        {JSON_EvaluationOutput : JSON EvaluationOutput}
        {JSON_MarketValidation : JSON MarketValidation}
        {JSON_TechnicalFeasibility : JSON TechnicalFeasibility}
        {JSON_ResourceEstimate : JSON ResourceEstimate}.

(** The constraints of the schema hold in every state the server reaches
    from a state where they hold: whatever the requests, the answers of the
    generators and the interleaving of the tasks, no table ever holds two
    rows under one key, nor a stage record without its idea. *)
Lemma reachable_constraints (s0 s : server) :
  constraints_hold (db s0) -> reachable s0 s -> constraints_hold (db s).
Proof.
  intros H0 Hreach. induction Hreach as [| w r s _ IH | w i s _ IH].
  - exact H0.
  - unfold handle. now apply (exec_keeps _ run_statement_constraints).
  - now apply (resume_keeps _ run_statement_constraints).
Qed.

(** An enrichment record, once in store, is there in every later state. *)
Lemma reachable_keeps_enrichment (id : string) (s0 s : server) :
  SELECT_enrichment id (db s0) <> None ->
  reachable s0 s ->
  SELECT_enrichment id (db s) <> None.
Proof.
  intros H0 Hreach. induction Hreach as [| w r s _ IH | w i s _ IH].
  - exact H0.
  - unfold handle.
    now apply (exec_keeps _ (run_statement_keeps_enrichment id)).
  - now apply (resume_keeps _ (run_statement_keeps_enrichment id)).
Qed.

End Reachable.

(** ** The stages *)

Lemma db_draw (s : server) : db (draw s) = db s.
Proof. reflexivity. Qed.

Section Pipeline.

Context {JSON_MarketValidation : JSON MarketValidation}
        {JSON_TechnicalFeasibility : JSON TechnicalFeasibility}
        {JSON_ResourceEstimate : JSON ResourceEstimate}.

Variable w : world.

Lemma exec_db_run (owner : string) (stmt : statement) (s : server) :
  exec w owner (await (db_run stmt)) s
  = match run_statement (CURRENT_TIMESTAMP_at w (draws s)) stmt (db s) with
    | Ok d => (Ok tt, log (ev_db_run stmt true) (draw (set_db d s)))
    | Err m => (Err m, log (ev_db_run stmt false) (draw s))
    end.
Proof.
  rewrite exec_await. cbn.
  destruct (run_statement _ stmt (db s)); reflexivity.
Qed.

Lemma exec_Date (owner : string) (s : server) :
  exec w owner (perform Date_toISOString) s
  = (Ok (now_at w (draws s)), draw s).
Proof. reflexivity. Qed.

Lemma exec_console_log (owner m : string) (s : server) :
  exec w owner (perform (console_log m)) s
  = (Ok tt, log (ev_console_log m) s).
Proof. reflexivity. Qed.

Lemma exec_console_error (owner m e : string) (s : server) :
  exec w owner (perform (console_error m e)) s
  = (Ok tt, log (ev_console_error m e) s).
Proof. reflexivity. Qed.

Lemma exec_res_status_json (owner : string) (n : nat) (b : body)
    (s : server) :
  exec w owner (res_status_json n b) s
  = (Ok tt, log (ev_response {| res_status := n; res_body := b |}) s).
Proof. reflexivity. Qed.

Lemma exec_res_json (owner : string) (b : body) (s : server) :
  exec w owner (res_json b) s
  = (Ok tt, log (ev_response {| res_status := 200; res_body := b |}) s).
Proof. reflexivity. Qed.

(** [saveEnrichment] on an idea in store, and on one that is not. *)
Lemma exec_saveEnrichment (owner id : string) (e : EnrichmentOutput)
    (s : server) :
  exec w owner (saveEnrichment id e) s
  = let row := enrichment_row id e (now_at w (draws s)) in
    let stmt := INSERT_OR_REPLACE_INTO_idea_enrichment row in
    if idea_exists id (db s)
    then (Ok tt, log (ev_db_run stmt true)
                     (draw (set_db (put_enrichment row (db s)) (draw s))))
    else (Err "SQLITE_CONSTRAINT: FOREIGN KEY constraint failed",
          log (ev_db_run stmt false) (draw (draw s))).
Proof.
  unfold saveEnrichment. rewrite exec_bind, exec_Date, exec_db_run.
  cbn [run_statement enrichment_row idea_enrichment.idea_id].
  rewrite db_draw. destruct (idea_exists id (db s)); reflexivity.
Qed.

Lemma exec_saveEvaluation (owner id : string) (e : EvaluationOutput)
    (s : server) :
  exec w owner (saveEvaluation id e) s
  = let row := evaluation_row id e (now_at w (draws s)) in
    let stmt := INSERT_OR_REPLACE_INTO_idea_evaluation row in
    if idea_exists id (db s)
    then (Ok tt, log (ev_db_run stmt true)
                     (draw (set_db (put_evaluation row (db s)) (draw s))))
    else (Err "SQLITE_CONSTRAINT: FOREIGN KEY constraint failed",
          log (ev_db_run stmt false) (draw (draw s))).
Proof.
  unfold saveEvaluation. rewrite exec_bind, exec_Date, exec_db_run.
  cbn [run_statement evaluation_row idea_evaluation.idea_id].
  rewrite db_draw. destruct (idea_exists id (db s)); reflexivity.
Qed.

Lemma exec_update_status (owner status now id : string) (s : server) :
  exec w owner (await (db_run (UPDATE_ideas_SET_status status now id))) s
  = (Ok tt, log (ev_db_run (UPDATE_ideas_SET_status status now id) true)
                (draw (set_db (update_status status now id (db s)) s))).
Proof. now rewrite exec_db_run. Qed.

(** [getEvaluation] on the row [saveEvaluation] wrote. *)
Lemma exec_getEvaluation_row (owner id now : string)
    (e : EvaluationOutput) (s : server) :
  SELECT_evaluation id (db s) = Some (evaluation_row id e now) ->
  exec w owner (getEvaluation id) s
  = (Ok (Some (with_rationale (jtbdAnalysis e) e)), s).
Proof.
  intro Hrow. unfold getEvaluation.
  rewrite exec_bind, exec_await. cbn [do_call]. rewrite Hrow.
  rewrite exec_bind, exec_of_result.
  cbn [evaluation_row idea_evaluation.case_study_matches].
  unfold or_else.
  change (JSON_stringify (caseStudyMatches e))
    with (JSONStrings.stringify (caseStudyMatches e)).
  rewrite JSONStringsFacts.stringify_not_empty.
  change (JSON_parse (JSONStrings.stringify (caseStudyMatches e)))
    with (JSONStrings.parse (JSONStrings.stringify (caseStudyMatches e))).
  rewrite JSONStringsFacts.parse_stringify. reflexivity.
Qed.

(** C10. The [rationale] of an evaluation is not persisted: after
    [saveEvaluation] of [e], [getEvaluation] returns [e] with its
    [rationale] replaced by [e.jtbdAnalysis], every other field as it was;
    and the store after the save does not depend on [e.rationale]. *)
Theorem evaluation_roundtrip_drops_rationale (owner id : string)
    (e : EvaluationOutput) (s : server) :
  idea_exists id (db s) = true ->
  fst (exec w owner (saveEvaluation id e ;; getEvaluation id) s)
  = Ok (Some (with_rationale (jtbdAnalysis e) e))
  /\ forall r : string,
       db (snd (exec w owner (saveEvaluation id (with_rationale r e)) s))
       = db (snd (exec w owner (saveEvaluation id e) s)).
Proof.
  intro Hidea. split.
  - rewrite exec_bind, exec_saveEvaluation. cbv zeta. rewrite Hidea.
    erewrite exec_getEvaluation_row; [reflexivity |].
    unfold SELECT_evaluation. cbn [db log draw set_db put_evaluation
                                    tbl_idea_evaluation].
    apply (find_replace_evaluation
             (evaluation_row id e (now_at w (draws s)))).
  - intro r. rewrite !exec_saveEvaluation. cbv zeta. rewrite Hidea.
    reflexivity.
Qed.

End Pipeline.

Lemma evaluation_roundtrip_drops_rationale_witness :
  idea_exists "idea-1" (db Sample.s_pending) = true
  /\ fst (exec Sample.w_ok "idea-1"
             (saveEvaluation "idea-1" Sample.evaluation
              ;; getEvaluation "idea-1") Sample.s_pending)
     = Ok (Some (with_rationale "Teams need to triage ideas"
                                Sample.evaluation)).
Proof.
  split; [reflexivity |].
  exact (proj1 (evaluation_roundtrip_drops_rationale Sample.w_ok
                  "idea-1" "idea-1" Sample.evaluation Sample.s_pending
                  eq_refl)).
Defined.

(** ** Enrichment is an upsert *)

Section Upsert.

Context {JSON_MarketValidation : JSON MarketValidation}
        {JSON_TechnicalFeasibility : JSON TechnicalFeasibility}
        {JSON_ResourceEstimate : JSON ResourceEstimate}.

(** What [getEnrichment] returns does not depend on [enriched_at]. *)
Lemma getEnrichment_ignores_enriched_at (w1 w2 : world) (owner id : string)
    (e : EnrichmentOutput) (now1 now2 : string) (s1 s2 : server) :
  SELECT_enrichment id (db s1) = Some (enrichment_row id e now1) ->
  SELECT_enrichment id (db s2) = Some (enrichment_row id e now2) ->
  fst (exec w1 owner (getEnrichment id) s1)
  = fst (exec w2 owner (getEnrichment id) s2).
Proof.
  intros H1 H2. unfold getEnrichment.
  rewrite !exec_bind, !exec_await. cbn [do_call]. rewrite H1, H2.
  rewrite !exec_bind, !exec_of_result.
  cbn [enrichment_row idea_enrichment.market_validation].
  destruct (JSON_parse (JSON_stringify (marketValidation e))) as [mv | m];
    [| reflexivity].
  rewrite !exec_bind, !exec_of_result.
  cbn [enrichment_row idea_enrichment.technical_feasibility].
  destruct (JSON_parse (JSON_stringify (technicalFeasibility e))) as [tf | m];
    [| reflexivity].
  rewrite !exec_bind, !exec_of_result.
  cbn [enrichment_row idea_enrichment.resource_estimate].
  destruct (JSON_parse (JSON_stringify (resourceEstimate e))) as [re | m];
    reflexivity.
Qed.

(** C7. Re-running the enrichment persistence is an upsert-replace:
    whatever record the store held for the idea, after [saveEnrichment] the
    table of enrichments is the records of the other ideas followed by the
    one row [saveEnrichment] binds from the output (idea id, category,
    complexity score, the three JSON texts, the time of the run,
    gemini-1.5-flash), no column being kept from the record replaced.  After
    a second run with the same output there is still exactly one record
    under the idea's key and the store is the one a single run (made at the
    time of the second) leaves; the record read back is the one read after
    the first run; a second run with another output leaves the row of that
    output alone.  The ideas, the evaluations and the enrichments of the
    other ideas are untouched. *)
Theorem saveEnrichment_upsert (w1 w2 : world) (owner id : string)
    (e : EnrichmentOutput) (s : server) :
  idea_exists id (db s) = true ->
  let s1 := snd (exec w1 owner (saveEnrichment id e) s) in
  let s2 := snd (exec w2 owner (saveEnrichment id e) s1) in
  let row1 :=
    {| idea_enrichment.idea_id := id;
       idea_enrichment.category := category e;
       idea_enrichment.complexity_score := complexityScore e;
       idea_enrichment.market_validation :=
         JSON_stringify (marketValidation e);
       idea_enrichment.technical_feasibility :=
         JSON_stringify (technicalFeasibility e);
       idea_enrichment.resource_estimate :=
         JSON_stringify (resourceEstimate e);
       idea_enrichment.enriched_at := now_at w1 (draws s);
       idea_enrichment.enriched_by := "gemini-1.5-flash" |} in
  let row2 :=
    {| idea_enrichment.idea_id := id;
       idea_enrichment.category := category e;
       idea_enrichment.complexity_score := complexityScore e;
       idea_enrichment.market_validation :=
         JSON_stringify (marketValidation e);
       idea_enrichment.technical_feasibility :=
         JSON_stringify (technicalFeasibility e);
       idea_enrichment.resource_estimate :=
         JSON_stringify (resourceEstimate e);
       idea_enrichment.enriched_at := now_at w2 (draws s1);
       idea_enrichment.enriched_by := "gemini-1.5-flash" |} in
  enrichment_records id (db s1) = 1
  /\ enrichment_records id (db s2) = 1
  /\ db s1 = put_enrichment (enrichment_row id e (now_at w1 (draws s))) (db s)
  /\ db s2 = put_enrichment (enrichment_row id e (now_at w2 (draws s1))) (db s)
  /\ fst (exec w2 owner (getEnrichment id) s2)
     = fst (exec w1 owner (getEnrichment id) s1)
  /\ other_enrichments id (db s2) = other_enrichments id (db s)
  /\ tbl_idea_enrichment (db s1)
     = (other_enrichments id (db s) ++ [row1])%list
  /\ tbl_idea_enrichment (db s2)
     = (other_enrichments id (db s) ++ [row2])%list
  /\ SELECT_enrichment id (db s1) = Some row1
  /\ SELECT_enrichment id (db s2) = Some row2
  /\ tbl_ideas (db s2) = tbl_ideas (db s)
  /\ tbl_idea_evaluation (db s2) = tbl_idea_evaluation (db s)
  /\ forall e' : EnrichmentOutput,
       tbl_idea_enrichment
         (db (snd (exec w2 owner (saveEnrichment id e') s1)))
       = (other_enrichments id (db s)
          ++ [enrichment_row id e' (now_at w2 (draws s1))])%list.
Proof.
  intros Hidea s1 s2 row1 row2.
  change row1 with (enrichment_row id e (now_at w1 (draws s))).
  change row2 with (enrichment_row id e (now_at w2 (draws s1))).
  clear row1 row2.
  assert (E1 : s1 = log (ev_db_run (INSERT_OR_REPLACE_INTO_idea_enrichment
                                      (enrichment_row id e (now_at w1 (draws s))))
                                   true)
                        (draw (set_db (put_enrichment
                                         (enrichment_row id e (now_at w1 (draws s)))
                                         (db s)) (draw s)))).
  { subst s1. rewrite exec_saveEnrichment. cbv zeta. now rewrite Hidea. }
  assert (D1 : db s1 = put_enrichment
                         (enrichment_row id e (now_at w1 (draws s))) (db s)).
  { now rewrite E1. }
  assert (Hidea1 : idea_exists id (db s1) = true).
  { rewrite D1. exact Hidea. }
  assert (D2 : forall e' : EnrichmentOutput,
             db (snd (exec w2 owner (saveEnrichment id e') s1))
             = put_enrichment
                 (enrichment_row id e' (now_at w2 (draws s1))) (db s)).
  { intro e'. rewrite exec_saveEnrichment. cbv zeta. rewrite Hidea1.
    cbn [snd db log draw set_db]. rewrite D1.
    unfold put_enrichment.
    cbn [tbl_ideas tbl_idea_enrichment tbl_idea_evaluation].
    now rewrite replace_enrichment_twice. }
  assert (D2' : db s2 = put_enrichment
                          (enrichment_row id e (now_at w2 (draws s1))) (db s))
    by exact (D2 e).
  assert (S1 : SELECT_enrichment id (db s1)
               = Some (enrichment_row id e (now_at w1 (draws s)))).
  { rewrite D1. unfold SELECT_enrichment, put_enrichment.
    cbn [tbl_idea_enrichment].
    apply (find_replace_enrichment (enrichment_row id e _)). }
  assert (S2 : SELECT_enrichment id (db s2)
               = Some (enrichment_row id e (now_at w2 (draws s1)))).
  { rewrite D2'. unfold SELECT_enrichment, put_enrichment.
    cbn [tbl_idea_enrichment].
    apply (find_replace_enrichment (enrichment_row id e _)). }
  split; [| split; [| split; [| split; [| split; [| split; [| split;
    [| split; [| split; [| split; [| split; [| split]]]]]]]]]]].
  - rewrite D1. unfold enrichment_records, put_enrichment.
    cbn [tbl_idea_enrichment].
    now rewrite (filter_replace_enrichment (enrichment_row id e _)).
  - rewrite D2'. unfold enrichment_records, put_enrichment.
    cbn [tbl_idea_enrichment].
    now rewrite (filter_replace_enrichment (enrichment_row id e _)).
  - exact D1.
  - exact D2'.
  - exact (getEnrichment_ignores_enriched_at w2 w1 owner id e _ _ s2 s1 S2 S1).
  - rewrite D2'. unfold other_enrichments, put_enrichment.
    cbn [tbl_idea_enrichment].
    apply (others_replace_enrichment (enrichment_row id e _)).
  - now rewrite D1.
  - now rewrite D2'.
  - exact S1.
  - exact S2.
  - now rewrite D2'.
  - now rewrite D2'.
  - intro e'. now rewrite D2.
Qed.

End Upsert.

Lemma saveEnrichment_upsert_witness :
  let save := @saveEnrichment Sample.json_mv Sample.json_tf Sample.json_re
                              "idea-1" Sample.enrichment in
  let s1 := snd (exec Sample.w_ok "idea-1" save Cases.s_enriched) in
  let s2 := snd (exec Sample.w_ok "idea-1" save s1) in
  idea_exists "idea-1" (db Cases.s_enriched) = true
  /\ tbl_idea_enrichment (db Cases.s_enriched)
     = [{| idea_enrichment.idea_id := "idea-1";
           idea_enrichment.category := "feature";
           idea_enrichment.complexity_score := (3 # 10)%Q;
           idea_enrichment.market_validation := "No tool ranks ideas";
           idea_enrichment.technical_feasibility := "good";
           idea_enrichment.resource_estimate :=
             JSONStrings.stringify ["typescript"; "sql"];
           idea_enrichment.enriched_at := "2025-01-01T10:00:00.000Z";
           idea_enrichment.enriched_by := "gemini-1.5-flash" |}]
  /\ enrichment_records "idea-1" (db s2) = 1
  /\ tbl_idea_enrichment (db s2)
     = [{| idea_enrichment.idea_id := "idea-1";
           idea_enrichment.category := "product";
           idea_enrichment.complexity_score := (1 # 2)%Q;
           idea_enrichment.market_validation := "No tool ranks ideas";
           idea_enrichment.technical_feasibility := "good";
           idea_enrichment.resource_estimate :=
             JSONStrings.stringify ["typescript"];
           idea_enrichment.enriched_at := "2025-01-01T10:00:02.000Z";
           idea_enrichment.enriched_by := "gemini-1.5-flash" |}]
  /\ fst (exec Sample.w_ok "idea-1"
            (@getEnrichment Sample.json_mv Sample.json_tf Sample.json_re
                            "idea-1") s2)
     = fst (exec Sample.w_ok "idea-1"
              (@getEnrichment Sample.json_mv Sample.json_tf Sample.json_re
                              "idea-1") s1).
Proof.
  pose proof (@saveEnrichment_upsert Sample.json_mv Sample.json_tf
                Sample.json_re Sample.w_ok Sample.w_ok "idea-1" "idea-1"
                Sample.enrichment Cases.s_enriched eq_refl) as H.
  cbv zeta in *.
  destruct H as (_ & H2 & _ & _ & H5 & _ & _ & H8 & _).
  split; [reflexivity |]. split; [reflexivity |].
  split; [exact H2 |]. split; [exact H8 | exact H5].
Defined.

(** ** The stage executors *)

Section Executors.

Context {JSON_EnrichmentOutput : JSON EnrichmentOutput}
        {JSON_EvaluationOutput : JSON EvaluationOutput}.

Variable w : world.

(** [enrichIdea] returns what its generator answered, parsed, or reports
    the error it caught and throws it wrapped. *)
Lemma exec_enrichIdea (owner idea : string) (context : option string)
    (s : server) :
  exec w owner (enrichIdea idea context) s
  = let p := ENRICHMENT_PROMPT idea context in
    let s1 := log (ev_generateContent p (generateContent_result w p)) s in
    match enrichIdea_outcome w idea context with
    | Ok enrichedData => (Ok enrichedData, s1)
    | Err m => (Err ("Failed to enrich idea: " ++ m),
                log (ev_console_error "Enrichment failed:" m) s1)
    end.
Proof.
  unfold enrichIdea, enrichIdea_outcome.
  rewrite exec_try_catch, exec_bind, exec_await. cbn [do_call].
  destruct (generateContent_result w (ENRICHMENT_PROMPT idea context))
    as [response | m]; [| reflexivity].
  rewrite exec_bind, exec_of_result.
  destruct (JSON_parse response); reflexivity.
Qed.

Lemma exec_evaluateIdea (owner idea : string) (enrichedData : EnrichmentOutput)
    (s : server) :
  exec w owner (evaluateIdea idea enrichedData) s
  = let p := EVALUATION_PROMPT idea enrichedData in
    let s1 := log (ev_messages_create p (messages_create_result w p)) s in
    match evaluateIdea_outcome w idea enrichedData with
    | Ok evaluationData => (Ok evaluationData, s1)
    | Err m => (Err ("Failed to evaluate idea: " ++ m),
                log (ev_console_error "Evaluation failed:" m) s1)
    end.
Proof.
  unfold evaluateIdea, evaluateIdea_outcome.
  rewrite exec_try_catch, exec_bind, exec_await. cbn [do_call].
  destruct (messages_create_result w (EVALUATION_PROMPT idea enrichedData))
    as [content | m]; [| reflexivity].
  destruct (find (fun block => String.eqb (block_type block) "text") content)
    as [textContent |]; [| reflexivity].
  rewrite exec_bind, exec_of_result.
  destruct (JSON_parse (block_text textContent)); reflexivity.
Qed.

End Executors.

(** ** Detached tasks *)

Lemma idea_exists_put_enrichment (id : string) (r : idea_enrichment.row)
    (d : Database) :
  idea_exists id (put_enrichment r d) = idea_exists id d.
Proof. reflexivity. Qed.

Lemma idea_exists_put_evaluation (id : string) (r : idea_evaluation.row)
    (d : Database) :
  idea_exists id (put_evaluation r d) = idea_exists id d.
Proof. reflexivity. Qed.

Lemma idea_exists_update_status (id status now id' : string) (d : Database) :
  idea_exists id (update_status status now id' d) = idea_exists id d.
Proof. unfold idea_exists, update_status. cbn. apply existsb_set_status. Qed.

Lemma status_of_update_status (status now id : string) (d : Database) :
  idea_exists id d = true ->
  status_of id (update_status status now id d) = Some status.
Proof.
  intro H. apply idea_exists_SELECT in H as [row Hrow].
  unfold status_of, SELECT_idea, update_status in *. cbn [tbl_ideas].
  rewrite find_set_status, Hrow. cbn [option_map]. f_equal.
  apply status_set_status. exact (SELECT_idea_id id d row Hrow).
Qed.

Lemma skipn_length_app {A : Type} (l l' : list A) :
  skipn (List.length l) (l ++ l')%list = l'.
Proof. induction l as [| x l IH]; cbn; [reflexivity | exact IH]. Qed.

Lemma events_since_app (s s' : server) (l : list event) :
  trace s' = (trace s ++ l)%list -> events_since s s' = l.
Proof. intro H. unfold events_since. rewrite H. apply skipn_length_app. Qed.

(** Symbolic execution of a body, one statement at a time. *)
Ltac run_step :=
  first
    [ rewrite exec_enrichIdea
    | rewrite exec_evaluateIdea
    | rewrite exec_saveEnrichment
    | rewrite exec_saveEvaluation
    | rewrite exec_update_status
    | rewrite exec_Date
    | rewrite exec_console_log
    | rewrite exec_console_error
    | rewrite exec_res_status_json
    | rewrite exec_res_json
    | rewrite exec_try_catch
    | rewrite exec_bind
    | rewrite exec_await ];
  cbv beta iota zeta;
  cbn [do_call db log draw set_db pool draws trace fst snd].

Ltac run := repeat run_step.

(** The outcome [H] of an executor or of a lookup, then on with the run. *)
Ltac run_with H := rewrite H; cbv beta iota zeta; run.

Section Tasks.

Context {JSON_EnrichmentOutput : JSON EnrichmentOutput}
        {JSON_EvaluationOutput : JSON EvaluationOutput}
        {JSON_MarketValidation : JSON MarketValidation}
        {JSON_TechnicalFeasibility : JSON TechnicalFeasibility}
        {JSON_ResourceEstimate : JSON ResourceEstimate}.

Variable w : world.

(** The evaluation task when the executor answers. *)
Lemma evaluate_task_ok (owner id : string) (idea : ideas.row)
    (enrichment : EnrichmentOutput) (evaluation : EvaluationOutput)
    (s : server) :
  idea_exists id (db s) = true ->
  evaluateIdea_outcome w (ideas.raw_text idea) enrichment = Ok evaluation ->
  let route := routeIdea (evaluationScore evaluation)
                         (recommendation evaluation) in
  let s' := snd (exec w owner (evaluate_task id idea enrichment) s) in
  db s' = update_status (newStatus route) (now_at w (S (S (draws s)))) id
            (put_evaluation
               (evaluation_row id evaluation (now_at w (draws s))) (db s))
  /\ pool s' = pool s.
Proof.
  intros Hidea Hev route s'. subst s'. unfold evaluate_task.
  run. run_with Hev. run_with Hidea. now split.
Qed.

(** The full pipeline when both executors answer. *)
Lemma analyze_task_ok (owner id : string) (idea : ideas.row)
    (enrichment : EnrichmentOutput) (evaluation : EvaluationOutput)
    (s : server) :
  idea_exists id (db s) = true ->
  enrichIdea_outcome w (ideas.raw_text idea) (ideas.context idea)
  = Ok enrichment ->
  evaluateIdea_outcome w (ideas.raw_text idea) enrichment = Ok evaluation ->
  let route := routeIdea (evaluationScore evaluation)
                         (recommendation evaluation) in
  let s' := snd (exec w owner (analyze_task id idea) s) in
  db s' = update_status (newStatus route)
            (now_at w (S (S (S (S (draws s)))))) id
            (put_evaluation
               (evaluation_row id evaluation (now_at w (S (S (draws s)))))
               (put_enrichment
                  (enrichment_row id enrichment (now_at w (draws s)))
                  (db s)))
  /\ pool s' = pool s.
Proof.
  intros Hidea Hen Hev route s'. subst s'. unfold analyze_task.
  run. run_with Hen. run_with Hidea. run_with Hev.
  rewrite idea_exists_put_enrichment. run_with Hidea. now split.
Qed.

(** C2. After a successful evaluation stage the status written to the idea
    is the image of the computed route under the total mapping
    GENERATE_BLUEPRINT -> evaluated-ready, DEFER_WITH_BLUEPRINT -> deferred,
    NEEDS_VALIDATION -> research, ARCHIVE_WITH_LEARNING -> archived, in the
    task of [/evaluate] and in the task of [/analyze]. *)
Theorem evaluation_writes_mapped_status (owner id : string)
    (idea : ideas.row) (enrichment : EnrichmentOutput)
    (evaluation : EvaluationOutput) (s : server) :
  idea_exists id (db s) = true ->
  evaluateIdea_outcome w (ideas.raw_text idea) enrichment = Ok evaluation ->
  let route := routeIdea (evaluationScore evaluation)
                         (recommendation evaluation) in
  (newStatus GENERATE_BLUEPRINT = "evaluated-ready"
   /\ newStatus DEFER_WITH_BLUEPRINT = "deferred"
   /\ newStatus NEEDS_VALIDATION = "research"
   /\ newStatus ARCHIVE_WITH_LEARNING = "archived")
  /\ status_of id (db (snd (exec w owner (evaluate_task id idea enrichment) s)))
     = Some (newStatus route)
  /\ (enrichIdea_outcome w (ideas.raw_text idea) (ideas.context idea)
      = Ok enrichment ->
      status_of id (db (snd (exec w owner (analyze_task id idea) s)))
      = Some (newStatus route)).
Proof.
  intros Hidea Hev route. split; [now repeat split |]. split.
  - destruct (evaluate_task_ok owner id idea enrichment evaluation s
                Hidea Hev) as [Hdb _].
    rewrite Hdb. apply status_of_update_status.
    now rewrite idea_exists_put_evaluation.
  - intro Hen.
    destruct (analyze_task_ok owner id idea enrichment evaluation s
                Hidea Hen Hev) as [Hdb _].
    rewrite Hdb. apply status_of_update_status.
    now rewrite idea_exists_put_evaluation, idea_exists_put_enrichment.
Qed.

(** The events of a run, read off the nested [log]s. *)
Ltac read_events :=
  apply events_since_app;
  cbn [db log draw set_db pool draws trace fst snd];
  rewrite <- ?app_assoc; reflexivity.

(** The events of a run in a hypothesis, read off the nested [log]s. *)
Ltac read_events_in H :=
  erewrite events_since_app in H;
  [| cbn [db log draw set_db pool draws trace fst snd];
     rewrite <- ?app_assoc; reflexivity].

(** C4. When the stage executor of the detached task of [/enrich] or of
    [/evaluate] fails, the run mutates nothing: the status and updated_at
    of the idea, as the whole store, are left as they were and no stage
    record is persisted from the run; the failure is only logged, no
    response being sent, so that the status of the idea (still pending
    after the task of [/enrich] on a pending idea) is all the caller can
    see of it.  The statement of the specification holds of both tasks, for
    every world, idea and store, and its premise is met whenever the
    executor fails. *)
Theorem failed_stage_leaves_idea_unchanged (owner id : string)
    (idea : ideas.row) (enrichment : EnrichmentOutput) (s : server) :
  let raw := ideas.raw_text idea in
  let ctx := ideas.context idea in
  let asked := ev_generateContent (ENRICHMENT_PROMPT raw ctx)
                 (generateContent_result w (ENRICHMENT_PROMPT raw ctx)) in
  let asked' := ev_messages_create (EVALUATION_PROMPT raw enrichment)
                  (messages_create_result w
                     (EVALUATION_PROMPT raw enrichment)) in
  Stated.no_partial_mutation w owner (enrich_task id idea) s
  /\ Stated.no_partial_mutation w owner
       (evaluate_task id idea enrichment) s
  /\ (forall m : string,
         enrichIdea_outcome w raw ctx = Err m ->
         let s' := snd (exec w owner (enrich_task id idea) s) in
         existsb is_executor_failure (events_since s s') = true
         /\ db s' = db s /\ pool s' = pool s
         /\ status_of id (db s') = status_of id (db s)
         /\ SELECT_enrichment id (db s') = SELECT_enrichment id (db s)
         /\ responses (events_since s s') = []
         /\ events_since s s'
            = [asked;
               ev_console_error "Enrichment failed:" m;
               ev_console_error
                 ("❌ Enrichment failed for idea " ++ id ++ ":")
                 ("Failed to enrich idea: " ++ m)])
  /\ (forall m : string,
         evaluateIdea_outcome w raw enrichment = Err m ->
         let s' := snd (exec w owner (evaluate_task id idea enrichment) s) in
         existsb is_executor_failure (events_since s s') = true
         /\ db s' = db s /\ pool s' = pool s
         /\ status_of id (db s') = status_of id (db s)
         /\ SELECT_evaluation id (db s') = SELECT_evaluation id (db s)
         /\ responses (events_since s s') = []
         /\ events_since s s'
            = [asked';
               ev_console_error "Evaluation failed:" m;
               ev_console_error
                 ("❌ Evaluation failed for idea " ++ id ++ ":")
                 ("Failed to evaluate idea: " ++ m)]).
Proof.
  cbv zeta. split; [| split; [| split]].
  - unfold Stated.no_partial_mutation. cbv zeta. unfold enrich_task. run.
    destruct (enrichIdea_outcome w (ideas.raw_text idea) (ideas.context idea))
      as [e | m]; cbv beta iota; run.
    + destruct (idea_exists id (db s)); cbv beta iota; run;
        intro H; read_events_in H; cbn in H; discriminate H.
    + intros _. split; [reflexivity |].
      erewrite events_since_app;
        [| cbn [db log draw set_db pool draws trace fst snd];
           rewrite <- ?app_assoc; reflexivity].
      reflexivity.
  - unfold Stated.no_partial_mutation. cbv zeta. unfold evaluate_task. run.
    destruct (evaluateIdea_outcome w (ideas.raw_text idea) enrichment)
      as [e | m]; cbv beta iota; run.
    + destruct (idea_exists id (db s)); cbv beta iota; run;
        intro H; read_events_in H; cbn in H; discriminate H.
    + intros _. split; [reflexivity |].
      erewrite events_since_app;
        [| cbn [db log draw set_db pool draws trace fst snd];
           rewrite <- ?app_assoc; reflexivity].
      reflexivity.
  - intros m Hen. unfold enrich_task. run. run_with Hen.
    assert (Hevents :
              events_since s
                (log (ev_console_error
                        ("❌ Enrichment failed for idea " ++ id ++ ":")
                        ("Failed to enrich idea: " ++ m))
                   (log (ev_console_error "Enrichment failed:" m)
                      (log (ev_generateContent
                              (ENRICHMENT_PROMPT (ideas.raw_text idea)
                                 (ideas.context idea))
                              (generateContent_result w
                                 (ENRICHMENT_PROMPT (ideas.raw_text idea)
                                    (ideas.context idea)))) s)))
              = [ev_generateContent
                   (ENRICHMENT_PROMPT (ideas.raw_text idea)
                      (ideas.context idea))
                   (generateContent_result w
                      (ENRICHMENT_PROMPT (ideas.raw_text idea)
                         (ideas.context idea)));
                 ev_console_error "Enrichment failed:" m;
                 ev_console_error
                   ("❌ Enrichment failed for idea " ++ id ++ ":")
                   ("Failed to enrich idea: " ++ m)])
      by read_events.
    rewrite Hevents. repeat split.
  - intros m Hev. unfold evaluate_task. run. run_with Hev.
    assert (Hevents :
              events_since s
                (log (ev_console_error
                        ("❌ Evaluation failed for idea " ++ id ++ ":")
                        ("Failed to evaluate idea: " ++ m))
                   (log (ev_console_error "Evaluation failed:" m)
                      (log (ev_messages_create
                              (EVALUATION_PROMPT (ideas.raw_text idea)
                                 enrichment)
                              (messages_create_result w
                                 (EVALUATION_PROMPT (ideas.raw_text idea)
                                    enrichment))) s)))
              = [ev_messages_create
                   (EVALUATION_PROMPT (ideas.raw_text idea) enrichment)
                   (messages_create_result w
                      (EVALUATION_PROMPT (ideas.raw_text idea) enrichment));
                 ev_console_error "Evaluation failed:" m;
                 ev_console_error
                   ("❌ Evaluation failed for idea " ++ id ++ ":")
                   ("Failed to evaluate idea: " ++ m)])
      by read_events.
    rewrite Hevents. repeat split.
Qed.

(** X22. The full pipeline when an executor fails.  A failure of the
    enrichment executor leaves the whole store as it was.  A failure of the
    evaluation executor comes after the enrichment of the run was saved
    (the order of the pipeline): the store then holds that enrichment
    record, the row [saveEnrichment] binds from the output, in place of any
    earlier one; the ideas (status and updated_at included) and the
    evaluations are as they were.  Either way the failure is only logged,
    no response is sent and nothing stays in flight. *)
Theorem full_pipeline_failure (owner id : string) (idea : ideas.row)
    (enrichment : EnrichmentOutput) (m : string) (s : server) :
  let raw := ideas.raw_text idea in
  let ctx := ideas.context idea in
  let asked := ev_generateContent (ENRICHMENT_PROMPT raw ctx)
                 (generateContent_result w (ENRICHMENT_PROMPT raw ctx)) in
  let asked' := ev_messages_create (EVALUATION_PROMPT raw enrichment)
                  (messages_create_result w
                     (EVALUATION_PROMPT raw enrichment)) in
  let s' := snd (exec w owner (analyze_task id idea) s) in
  (enrichIdea_outcome w raw ctx = Err m ->
   db s' = db s /\ pool s' = pool s
   /\ events_since s s'
      = [ev_console_log ("🔄 Enriching idea " ++ id ++ "...");
         asked;
         ev_console_error "Enrichment failed:" m;
         ev_console_error ("❌ Analysis failed for idea " ++ id ++ ":")
                          ("Failed to enrich idea: " ++ m)])
  /\ (idea_exists id (db s) = true ->
      enrichIdea_outcome w raw ctx = Ok enrichment ->
      evaluateIdea_outcome w raw enrichment = Err m ->
      let row := enrichment_row id enrichment (now_at w (draws s)) in
      db s' = put_enrichment row (db s)
      /\ tbl_idea_enrichment (db s')
         = (other_enrichments id (db s) ++ [row])%list
      /\ SELECT_enrichment id (db s') = Some row
      /\ tbl_ideas (db s') = tbl_ideas (db s)
      /\ status_of id (db s') = status_of id (db s)
      /\ tbl_idea_evaluation (db s') = tbl_idea_evaluation (db s)
      /\ pool s' = pool s
      /\ events_since s s'
         = [ev_console_log ("🔄 Enriching idea " ++ id ++ "...");
            asked;
            ev_db_run (INSERT_OR_REPLACE_INTO_idea_enrichment row) true;
            ev_console_log "✅ Enrichment complete";
            ev_console_log ("🔄 Evaluating idea " ++ id ++ "...");
            asked';
            ev_console_error "Evaluation failed:" m;
            ev_console_error ("❌ Analysis failed for idea " ++ id ++ ":")
                             ("Failed to evaluate idea: " ++ m)]).
Proof.
  cbv zeta. split.
  - intro Hen. unfold analyze_task. run. run_with Hen.
    repeat split; [read_events].
  - intros Hidea Hen Hev. unfold analyze_task.
    run. run_with Hen. run_with Hidea. run_with Hev.
    split; [reflexivity |]. split; [reflexivity |].
    split.
    { unfold SELECT_enrichment, put_enrichment. cbn [tbl_idea_enrichment].
      apply (find_replace_enrichment (enrichment_row id enrichment _)). }
    repeat split; [read_events].
Qed.

(** ** Ordering inside the full pipeline *)

Lemma evaluation_follows_enrichment_sound (id : string) (t : list event) :
  forall saved : bool,
    evaluation_follows_enrichment id saved t = true ->
    forall (pre : list event) (e : event) (post : list event),
      t = (pre ++ e :: post)%list ->
      is_evaluateIdea e = true ->
      saved = true \/ existsb (is_enrichment_saved id) pre = true.
Proof.
  induction t as [| x t IH]; intros saved Hmon pre e post Heq He.
  - destruct pre; discriminate.
  - cbn [evaluation_follows_enrichment] in Hmon.
    apply andb_prop in Hmon as [Hx Ht].
    destruct pre as [| y pre]; cbn in Heq; injection Heq as -> ->.
    + rewrite He in Hx. cbn in Hx. now left.
    + destruct (IH _ Ht pre e post eq_refl He) as [H | H].
      * apply orb_prop in H as [H | H]; [now left | right].
        cbn [existsb]. now rewrite H.
      * right. cbn [existsb]. rewrite H. apply orb_true_r.
Qed.

Lemma nth_error_app_length {A : Type} (l : list A) (x : A) :
  nth_error (l ++ [x])%list (List.length l) = Some x.
Proof. induction l as [| y l IH]; cbn; [reflexivity | exact IH]. Qed.

Lemma remove_nth_app_length {A : Type} (l : list A) (x : A) :
  remove_nth (List.length l) (l ++ [x])%list = l.
Proof. induction l as [| y l IH]; cbn; [reflexivity | now rewrite IH]. Qed.

(** The event loop resumes the task that was parked last. *)
Lemma resume_last {X : Type} (l : list task) (owner : string) (c : call X)
    (k : result X -> async unit) (s : server) :
  pool s = (l ++ [{| task_idea := owner; task_body := Await c k |}])%list ->
  resume w (List.length l) s
  = let '(r, s1) := do_call w c (set_pool l s) in
    let '(b, s2) := advance w owner (k r) s1 in
    park owner b s2.
Proof.
  intro H. unfold resume.
  rewrite H, nth_error_app_length, remove_nth_app_length. reflexivity.
Qed.

Ltac simpl_loop :=
  cbn [do_call run_statement enrichment_row idea_enrichment.idea_id
       evaluation_row idea_evaluation.idea_id
       exec advance try_catch bind perform await detach of_result do_prim
       park fst snd log pool set_pool draw db draws trace set_db].

Ltac check_monitor :=
  erewrite events_since_app;
  [| cbn [db log draw set_db set_pool pool draws trace fst snd];
     rewrite <- ?app_assoc; reflexivity];
  cbn [evaluation_follows_enrichment app is_evaluateIdea
       is_enrichment_saved negb orb andb enrichment_row
       idea_enrichment.idea_id existsb];
  rewrite ?String.eqb_refl; reflexivity.

(** On every run of the full pipeline, a call of the evaluation executor
    comes after the enrichment record was saved. *)
Lemma analyze_task_monitor (owner id : string) (idea : ideas.row)
    (s : server) :
  evaluation_follows_enrichment id false
    (events_since s (snd (exec w owner (analyze_task id idea) s))) = true.
Proof.
  unfold analyze_task. run.
  destruct (enrichIdea_outcome w (ideas.raw_text idea) (ideas.context idea))
    as [enrichment | m] eqn:Hen; cbv beta iota; run; [| check_monitor].
  destruct (idea_exists id (db s)) eqn:Hidea; cbv beta iota; run;
    [| check_monitor].
  destruct (evaluateIdea_outcome w (ideas.raw_text idea) enrichment)
    as [evaluation | m] eqn:Hev; cbv beta iota; run; [| check_monitor].
  rewrite idea_exists_put_enrichment. run_with Hidea. check_monitor.
Qed.

(** C5. Within a run of the full pipeline the evaluation executor is called
    only after the enrichment record of that run has been persisted; when
    the enrichment executor fails the task ends without calling it; and when
    the task is suspended on the evaluation executor the enrichment record
    is in the store. *)
Theorem pipeline_evaluates_after_enrichment_persisted (owner id : string)
    (idea : ideas.row) (s : server) :
  let raw := ideas.raw_text idea in
  let ctx := ideas.context idea in
  let s' := snd (exec w owner (analyze_task id idea) s) in
  (forall (pre : list event) (e : event) (post : list event),
      events_since s s' = (pre ++ e :: post)%list ->
      is_evaluateIdea e = true ->
      existsb (is_enrichment_saved id) pre = true)
  /\ (forall m : string,
         enrichIdea_outcome w raw ctx = Err m ->
         existsb is_evaluateIdea (events_since s s') = false
         /\ db s' = db s /\ pool s' = pool s)
  /\ (forall enrichment : EnrichmentOutput,
         SELECT_idea id (db s) = Some idea ->
         enrichIdea_outcome w raw ctx = Ok enrichment ->
         let s1 := handle w (req_POST_analyze id) s in
         let s2 := resume w (List.length (pool s)) s1 in
         let s3 := resume w (List.length (pool s)) s2 in
         (exists b : async unit,
             pool s3 = (pool s ++ [{| task_idea := id; task_body := b |}])%list
             /\ awaits_evaluateIdea b = true)
         /\ SELECT_enrichment id (db s3)
            = Some (enrichment_row id enrichment (now_at w (draws s)))
         /\ existsb is_evaluateIdea (events_since s s3) = false
         /\ (forall s4 : server,
                reachable s3 s4 -> SELECT_enrichment id (db s4) <> None)).
Proof.
  cbv zeta. split; [| split].
  - intros pre e post Heq He.
    destruct (evaluation_follows_enrichment_sound id _ false
                (analyze_task_monitor owner id idea s) pre e post Heq He)
      as [H | H]; [discriminate | exact H].
  - intros m Hen. unfold analyze_task. run. run_with Hen.
    split; [| split; reflexivity].
    erewrite events_since_app;
      [| cbn [db log draw set_db set_pool pool draws trace fst snd];
         rewrite <- ?app_assoc; reflexivity].
    reflexivity.
  - intros enrichment Hidea Hen.
    assert (Hex := SELECT_idea_exists _ _ _ Hidea).
    unfold handle. cbn [handler params_id]. unfold POST_analyze.
    run. rewrite Hidea. run.
    unfold enrichIdea_outcome in Hen.
    destruct (generateContent_result w
                (ENRICHMENT_PROMPT (ideas.raw_text idea) (ideas.context idea)))
      as [response |] eqn:Hgen; [| discriminate Hen].
    unfold analyze_task, saveEnrichment, enrichIdea, evaluateIdea. simpl_loop.
    match goal with
    | |- context [resume w _ (resume w _ ?x)] =>
        rewrite (resume_last (pool s) _ _ _ x eq_refl)
    end.
    simpl_loop. rewrite Hgen. simpl_loop. rewrite Hen. simpl_loop.
    match goal with
    | |- context [resume w _ ?x] =>
        rewrite (resume_last (pool s) _ _ _ x eq_refl)
    end.
    simpl_loop. rewrite Hex. simpl_loop.
    assert (Hrow : SELECT_enrichment id
                     (put_enrichment
                        (enrichment_row id enrichment (now_at w (draws s)))
                        (db s))
                   = Some (enrichment_row id enrichment (now_at w (draws s)))).
    { unfold SELECT_enrichment, put_enrichment. cbn [tbl_idea_enrichment].
      apply (find_replace_enrichment (enrichment_row id enrichment _)). }
    split; [| split; [| split]].
    + eexists. split; reflexivity.
    + exact Hrow.
    + erewrite events_since_app;
        [| cbn [db log draw set_db set_pool pool draws trace fst snd];
           rewrite <- ?app_assoc; reflexivity].
      reflexivity.
    + intros s4 Hreach.
      refine (reachable_keeps_enrichment id _ s4 _ Hreach).
      cbn [db set_pool log draw set_db]. rewrite Hrow. discriminate.
Qed.

(** ** Request handlers *)

Lemma exec_getEnrichment_none (owner id : string) (s : server) :
  SELECT_enrichment id (db s) = None ->
  exec w owner (getEnrichment id) s = (Ok None, s).
Proof.
  intro H. unfold getEnrichment. run. rewrite H. reflexivity.
Qed.

(** [getEnrichment] only reads. *)
Lemma exec_getEnrichment_state (owner id : string) (s : server) :
  snd (exec w owner (getEnrichment id) s) = s.
Proof.
  unfold getEnrichment. run.
  destruct (SELECT_enrichment id (db s)) as [row |]; [| reflexivity].
  rewrite exec_bind, exec_of_result.
  destruct (JSON_parse (idea_enrichment.market_validation row));
    [| reflexivity].
  rewrite exec_bind, exec_of_result.
  destruct (JSON_parse (idea_enrichment.technical_feasibility row));
    [| reflexivity].
  rewrite exec_bind, exec_of_result.
  destruct (JSON_parse (idea_enrichment.resource_estimate row)); reflexivity.
Qed.

(** C3. On an idea with no enrichment record, [POST /api/ideas/:id/evaluate]
    answers at once with the error 400 "Idea must be enriched before
    evaluation" (the precondition error), and with 404 "Idea not found" when
    the idea does not exist; that response is the only thing that happens:
    no acknowledgment is sent, no task is started, and the store (status and
    records) is unchanged. *)
Theorem evaluation_requires_enrichment (id : string) (s : server) :
  SELECT_enrichment id (db s) = None ->
  let s' := handle w (req_POST_evaluate id) s in
  let error :=
    match SELECT_idea id (db s) with
    | Some _ =>
        {| res_status := 400;
           res_body := body_error
             "Idea must be enriched before evaluation. Run /enrich first." |}
    | None =>
        {| res_status := 404; res_body := body_error "Idea not found" |}
    end in
  s' = log (ev_response error) s
  /\ events_since s s' = [ev_response error]
  /\ pool s' = pool s
  /\ db s' = db s.
Proof.
  intros Hnone s' error.
  assert (E : s' = log (ev_response error) s).
  { subst s' error. unfold handle. cbn [handler params_id].
    unfold POST_evaluate. run.
    destruct (SELECT_idea id (db s)) as [idea |]; run; [| reflexivity].
    rewrite exec_getEnrichment_none by exact Hnone. run. reflexivity. }
  rewrite E. repeat split. read_events.
Qed.

Lemma filter_none {A : Type} (f : A -> bool) (l : list A) :
  existsb f l = false -> filter f l = [].
Proof.
  induction l as [| x l IH]; cbn; [reflexivity |].
  intro H. apply orb_false_iff in H as [Hx Hl]. rewrite Hx. now apply IH.
Qed.

Lemma find_app_last {A : Type} (f : A -> bool) (l : list A) (x : A) :
  existsb f l = false -> f x = true -> find f (l ++ [x])%list = Some x.
Proof.
  intros Hl Hx. induction l as [| y l IH]; cbn in *.
  - now rewrite Hx.
  - apply orb_false_iff in Hl as [Hy Hl]. rewrite Hy. now apply IH.
Qed.

(** C6. [POST /api/ideas] rejects an empty [rawText] with the validation
    error 400 and stores nothing; otherwise it takes the identifier drawn by
    [uuidv4] and, that identifier being fresh, inserts the idea with status
    pending and only then answers 201 with the new identifier.  An
    identifier already in use is refused by the primary key: the store is
    unchanged and the answer is 500. *)
Theorem createIdea_validates_and_persists (req_body : CreateIdeaBody)
    (s : server) :
  let s' := handle w (req_POST_ideas req_body) s in
  let ideaId := uuid_at w (draws s) in
  (falsy (rawText req_body) = true ->
   s' = log (ev_response {| res_status := 400;
                            res_body := body_error "rawText is required" |})
            s)
  /\ (forall text : string,
         rawText req_body = Some text -> text <> "" ->
         let stmt := INSERT_INTO_ideas ideaId "manual" text
                       (or_null (body_context req_body))
                       (or_null (projectHint req_body)) in
         let row :=
           {| ideas.id := ideaId;
              ideas.source := "manual";
              ideas.raw_text := text;
              ideas.created_at := CURRENT_TIMESTAMP_at w (S (draws s));
              ideas.context := or_null (body_context req_body);
              ideas.project_hint := or_null (projectHint req_body);
              ideas.status := "pending";
              ideas.updated_at := CURRENT_TIMESTAMP_at w (S (draws s)) |} in
         (idea_exists ideaId (db s) = false ->
          db s' = insert_idea row (db s)
          /\ SELECT_idea ideaId (db s') = Some row
          /\ ideas_with_id ideaId (db s') = 1
          /\ status_of ideaId (db s') = Some "pending"
          /\ events_since s s'
             = [ev_db_run stmt true;
                ev_response
                  {| res_status := 201;
                     res_body := body_created ideaId "pending"
                       "Idea created. Run enrichment to analyze." |}]
          /\ pool s' = pool s)
         /\ (idea_exists ideaId (db s) = true ->
             db s' = db s
             /\ events_since s s'
                = [ev_db_run stmt false;
                   ev_response
                     {| res_status := 500;
                        res_body := body_error
                          "SQLITE_CONSTRAINT: UNIQUE constraint failed: ideas.id"
                     |}])).
Proof.
  cbv zeta. unfold handle. cbn [handler params_id]. unfold POST_ideas.
  split.
  - intro Hfalsy. run. rewrite Hfalsy. run. reflexivity.
  - intros text Htext Hne.
    assert (Hfalsy : falsy (rawText req_body) = false).
    { rewrite Htext. cbn. now apply String.eqb_neq. }
    run. rewrite Hfalsy.
    rewrite exec_bind, exec_perform. cbn [do_prim fst snd].
    rewrite exec_bind, exec_db_run, Htext.
    cbn [run_statement draw draws db]. split.
    + intro Hfresh. rewrite Hfresh. run.
      assert (Hsel : SELECT_idea (uuid_at w (draws s))
                       (insert_idea
                          {| ideas.id := uuid_at w (draws s);
                             ideas.source := "manual";
                             ideas.raw_text := text;
                             ideas.created_at :=
                               CURRENT_TIMESTAMP_at w (S (draws s));
                             ideas.context := or_null (body_context req_body);
                             ideas.project_hint :=
                               or_null (projectHint req_body);
                             ideas.status := "pending";
                             ideas.updated_at :=
                               CURRENT_TIMESTAMP_at w (S (draws s)) |} (db s))
                     = Some
                         {| ideas.id := uuid_at w (draws s);
                            ideas.source := "manual";
                            ideas.raw_text := text;
                            ideas.created_at :=
                              CURRENT_TIMESTAMP_at w (S (draws s));
                            ideas.context := or_null (body_context req_body);
                            ideas.project_hint :=
                              or_null (projectHint req_body);
                            ideas.status := "pending";
                            ideas.updated_at :=
                              CURRENT_TIMESTAMP_at w (S (draws s)) |}).
      { unfold SELECT_idea, insert_idea. cbn [tbl_ideas].
        apply find_app_last; [exact Hfresh | apply String.eqb_refl]. }
      repeat split.
      * exact Hsel.
      * unfold ideas_with_id, insert_idea. cbn [tbl_ideas].
        rewrite filter_app, length_app, (filter_none _ _ Hfresh).
        cbn [filter ideas.id]. now rewrite String.eqb_refl.
      * unfold status_of. now rewrite Hsel.
      * read_events.
    + intro Hused. rewrite Hused. run. split; [reflexivity | read_events].
Qed.

(** ** Tasks in flight *)

Lemma in_flight_park (id : string) (b : async unit) (l : list task)
    (s : server) :
  in_flight id (set_pool (l ++ [{| task_idea := id; task_body := b |}])%list s)
  = S (List.length (filter (fun t => String.eqb (task_idea t) id) l)).
Proof.
  unfold in_flight. cbn [pool set_pool]. rewrite filter_app. cbn [filter].
  cbn [task_idea]. rewrite String.eqb_refl, length_app. cbn [List.length]. lia.
Qed.

(** An accepted [/enrich] request reads the store and parks one task. *)
Lemma POST_enrich_accepted (id : string) (idea : ideas.row) (s : server) :
  SELECT_idea id (db s) = Some idea ->
  db (handle w (req_POST_enrich id) s) = db s
  /\ in_flight id (handle w (req_POST_enrich id) s) = S (in_flight id s).
Proof.
  intro Hidea. unfold handle. cbn [handler params_id].
  unfold POST_enrich. run. run_with Hidea.
  unfold enrich_task, enrichIdea. simpl_loop.
  split; [reflexivity | apply in_flight_park].
Qed.

(** C8 (amended). The server keeps no count of the tasks in flight: every
    accepted run request on an idea ([/enrich], [/analyze], and [/evaluate]
    once the idea is enriched) starts one more detached task for it,
    whatever is in flight already; any number of tasks for one idea can be
    in flight at the same time. *)
Theorem each_run_request_starts_a_task (id : string) (idea : ideas.row)
    (s : server) :
  SELECT_idea id (db s) = Some idea ->
  in_flight id (handle w (req_POST_enrich id) s) = S (in_flight id s)
  /\ in_flight id (handle w (req_POST_analyze id) s) = S (in_flight id s)
  /\ (forall enrichment : EnrichmentOutput,
         fst (exec w id (getEnrichment id) s) = Ok (Some enrichment) ->
         in_flight id (handle w (req_POST_evaluate id) s)
         = S (in_flight id s))
  /\ (forall n : nat,
         exists s' : server,
           reachable s s' /\ in_flight id s' = n + in_flight id s).
Proof.
  intro Hidea. split; [| split; [| split]].
  - exact (proj2 (POST_enrich_accepted id idea s Hidea)).
  - unfold handle. cbn [handler params_id].
    unfold POST_analyze. run. run_with Hidea.
    unfold analyze_task, enrichIdea. simpl_loop. apply in_flight_park.
  - intros enrichment Hget. unfold handle. cbn [handler params_id].
    unfold POST_evaluate. run. run_with Hidea.
    pose proof (exec_getEnrichment_state id id s) as Hstate.
    destruct (exec w id (getEnrichment id) s) as [r s0].
    cbn [fst snd] in Hget, Hstate. subst r s0. cbv beta iota. run.
    unfold evaluate_task, evaluateIdea. simpl_loop. apply in_flight_park.
  - intro n.
    assert (H : exists s' : server,
               reachable s s' /\ db s' = db s
               /\ in_flight id s' = n + in_flight id s).
    { induction n as [| n (s' & Hreach & Hdb & Hn)].
      - exists s. repeat split. constructor.
      - destruct (POST_enrich_accepted id idea s') as [Hdb' Hn'].
        { now rewrite Hdb. }
        exists (handle w (req_POST_enrich id) s'). repeat split.
        + now apply reach_request.
        + now rewrite Hdb'.
        + rewrite Hn', Hn. reflexivity. }
    destruct H as (s' & Hreach & _ & Hn). now exists s'.
Qed.

End Tasks.

(** ** Runs on sample data *)

Example created_pending :
  status_of "idea-2" (db Sample.s_created) = Some "pending".
Proof. reflexivity. Qed.

Example full_pipeline_evaluated_ready :
  let s1 := Sample.handle Sample.w_ok (req_POST_analyze "idea-2")
              Sample.s_created in
  in_flight "idea-2" s1 = 1
  /\ status_of "idea-2" (db s1) = Some "pending"
  /\ status_of "idea-2" (db (complete Sample.w_ok 0 s1))
     = Some "evaluated-ready".
Proof. vm_compute. repeat split. Qed.

Example full_pipeline_archived :
  let s1 := Sample.handle Sample.w_low_score (req_POST_analyze "idea-2")
              Sample.s_created in
  status_of "idea-2" (db (complete Sample.w_low_score 0 s1))
  = Some "archived".
Proof. vm_compute. reflexivity. Qed.

Example enrichment_failure_stays_pending :
  let s1 := Sample.handle Sample.w_enrich_fails (req_POST_enrich "idea-2")
              Sample.s_created in
  let s2 := complete Sample.w_enrich_fails 0 s1 in
  status_of "idea-2" (db s2) = Some "pending"
  /\ db s2 = db Sample.s_created
  /\ pool s2 = [].
Proof. vm_compute. repeat split. Qed.

Example evaluate_before_enrich_rejected :
  let s1 := Sample.handle Sample.w_ok (req_POST_evaluate "idea-2")
              Sample.s_created in
  events_since Sample.s_created s1
  = [ev_response
       {| res_status := 400;
          res_body := body_error
            "Idea must be enriched before evaluation. Run /enrich first." |}]
  /\ db s1 = db Sample.s_created
  /\ pool s1 = [].
Proof. vm_compute. repeat split. Qed.

(** Stepping the task and running it to its end agree on the store. *)
Example resume_steps_reach_the_end :
  let s1 := Sample.handle Sample.w_ok (req_POST_analyze "idea-2")
              Sample.s_created in
  let step := resume Sample.w_ok 0 in
  db (step (step (step (step (step s1)))))
  = db (complete Sample.w_ok 0 s1)
  /\ pool (step (step (step (step (step s1))))) = [].
Proof. vm_compute. repeat split. Qed.

(** ** The theorems at the sample data *)

Lemma evaluation_writes_mapped_status_witness :
  idea_exists "idea-1" (db Sample.s_pending) = true
  /\ @evaluateIdea_outcome Sample.json_evaluation Sample.w_ok "Build a tool"
       Sample.enrichment
     = Ok Sample.evaluation
  /\ status_of "idea-1"
       (db (snd (exec Sample.w_ok "idea-1"
                   (Sample.evaluate_task "idea-1" Sample.idea
                      Sample.enrichment)
                   Sample.s_pending)))
     = Some "evaluated-ready"
  /\ status_of "idea-1"
       (db (snd (exec Sample.w_ok "idea-1"
                   (Sample.analyze_task "idea-1" Sample.idea)
                   Sample.s_pending)))
     = Some "evaluated-ready".
Proof.
  pose proof (@evaluation_writes_mapped_status Sample.json_enrichment
                Sample.json_evaluation Sample.json_mv Sample.json_tf
                Sample.json_re Sample.w_ok "idea-1" "idea-1" Sample.idea
                Sample.enrichment Sample.evaluation Sample.s_pending
                eq_refl eq_refl) as H.
  cbv zeta in H. destruct H as (_ & Hev & Han).
  split; [reflexivity |]. split; [reflexivity |].
  split; [exact Hev | exact (Han eq_refl)].
Defined.

Lemma evaluation_requires_enrichment_witness :
  SELECT_enrichment "idea-1" (db Sample.s_pending) = None
  /\ Sample.handle Sample.w_ok (req_POST_evaluate "idea-1") Sample.s_pending
     = log (ev_response
              {| res_status := 400;
                 res_body := body_error
                   "Idea must be enriched before evaluation. Run /enrich first."
              |}) Sample.s_pending.
Proof.
  split; [reflexivity |].
  exact (proj1 (@evaluation_requires_enrichment Sample.json_enrichment
                  Sample.json_evaluation Sample.json_mv Sample.json_tf
                  Sample.json_re Sample.w_ok "idea-1" Sample.s_pending
                  eq_refl)).
Defined.

Lemma failed_stage_leaves_idea_unchanged_witness :
  (@enrichIdea_outcome Sample.json_enrichment Sample.w_enrich_fails
     "Build a tool" None
   = Err "fetch failed"
   /\ db (snd (exec Sample.w_enrich_fails "idea-1"
                 (Sample.enrich_task "idea-1" Sample.idea) Sample.s_pending))
      = db Sample.s_pending
   /\ status_of "idea-1"
        (db (snd (exec Sample.w_enrich_fails "idea-1"
                    (Sample.enrich_task "idea-1" Sample.idea)
                    Sample.s_pending)))
      = Some "pending")
  /\ (@evaluateIdea_outcome Sample.json_evaluation Sample.w_evaluate_fails
        "Build a tool" Cases.enrichment
      = Err "No text response from Claude"
      /\ db (snd (exec Sample.w_evaluate_fails "idea-1"
                    (Sample.evaluate_task "idea-1" Cases.enriched_idea
                       Cases.enrichment)
                    Cases.s_enriched))
         = db Cases.s_enriched)
  /\ (existsb is_executor_failure
        (events_since Sample.s_pending
           (snd (exec Sample.w_enrich_fails "idea-1"
                   (Sample.enrich_task "idea-1" Sample.idea)
                   Sample.s_pending))) = true
      /\ existsb is_stage_record_saved
           (events_since Sample.s_pending
              (snd (exec Sample.w_enrich_fails "idea-1"
                      (Sample.enrich_task "idea-1" Sample.idea)
                      Sample.s_pending))) = false).
Proof.
  pose proof (@failed_stage_leaves_idea_unchanged Sample.json_enrichment
                Sample.json_evaluation Sample.json_mv
                Sample.json_tf Sample.json_re Sample.w_enrich_fails
                "idea-1" "idea-1" Sample.idea Sample.enrichment
                Sample.s_pending) as H.
  cbv zeta in H. destruct H as (Hstated & _ & Hen & _).
  destruct (Hen "fetch failed" eq_refl) as (Hfail & Hdb & _ & Hstatus & _).
  pose proof (@failed_stage_leaves_idea_unchanged Sample.json_enrichment
                Sample.json_evaluation Sample.json_mv
                Sample.json_tf Sample.json_re Sample.w_evaluate_fails
                "idea-1" "idea-1" Cases.enriched_idea Cases.enrichment
                Cases.s_enriched) as H'.
  cbv zeta in H'. destruct H' as (_ & _ & _ & Hev).
  destruct (Hev "No text response from Claude" eq_refl) as (_ & Hdb' & _).
  split; [| split].
  - split; [reflexivity |]. split; [exact Hdb |].
    exact (eq_trans Hstatus eq_refl).
  - split; [reflexivity | exact Hdb'].
  - split; [exact Hfail |]. exact (proj2 (Hstated Hfail)).
Defined.

Lemma full_pipeline_failure_witness :
  let s' := snd (exec Sample.w_evaluate_fails "idea-1"
                   (Sample.analyze_task "idea-1" Sample.idea)
                   Sample.s_pending) in
  @evaluateIdea_outcome Sample.json_evaluation Sample.w_evaluate_fails
    "Build a tool" Sample.enrichment
  = Err "No text response from Claude"
  /\ SELECT_enrichment "idea-1" (db s')
     = Some (@enrichment_row Sample.json_mv Sample.json_tf Sample.json_re
               "idea-1" Sample.enrichment "2025-01-01T10:00:00.000Z")
  /\ tbl_ideas (db s') = tbl_ideas (db Sample.s_pending)
  /\ tbl_idea_evaluation (db s') = [].
Proof.
  cbv zeta.
  pose proof (@full_pipeline_failure Sample.json_enrichment
                Sample.json_evaluation Sample.json_mv
                Sample.json_tf Sample.json_re Sample.w_evaluate_fails
                "idea-1" "idea-1" Sample.idea Sample.enrichment
                "No text response from Claude" Sample.s_pending) as H.
  cbv zeta in H. destruct H as (_ & H).
  destruct (H eq_refl eq_refl eq_refl)
    as (_ & _ & Hrow & Hideas & _ & Hev & _).
  split; [reflexivity |]. split; [exact Hrow |].
  split; [exact Hideas | exact Hev].
Defined.

(** The full pipeline is another matter: it saves the enrichment of the run
    before it calls the evaluation executor, so that a failure of that
    executor finds a stage record of the run in store. *)
Lemma full_pipeline_keeps_enrichment_on_evaluation_failure :
  ~ Stated.no_partial_mutation Sample.w_evaluate_fails "idea-1"
      (Sample.analyze_task "idea-1" Sample.idea) Sample.s_pending.
Proof.
  unfold Stated.no_partial_mutation. cbv zeta. intro H.
  assert (Hfail : existsb is_executor_failure
                    (events_since Sample.s_pending
                       (snd (exec Sample.w_evaluate_fails "idea-1"
                               (Sample.analyze_task "idea-1" Sample.idea)
                               Sample.s_pending))) = true)
    by (vm_compute; reflexivity).
  destruct (H Hfail) as [_ Hsaved].
  vm_compute in Hsaved. discriminate Hsaved.
Qed.

Lemma pipeline_evaluates_after_enrichment_persisted_witness :
  let s1 := Sample.handle Sample.w_ok (req_POST_analyze "idea-1")
              Sample.s_pending in
  let s3 := resume Sample.w_ok 0 (resume Sample.w_ok 0 s1) in
  SELECT_idea "idea-1" (db Sample.s_pending) = Some Sample.idea
  /\ SELECT_enrichment "idea-1" (db s3)
     = Some (@enrichment_row Sample.json_mv Sample.json_tf Sample.json_re
               "idea-1" Sample.enrichment "2025-01-01T10:00:00.000Z")
  /\ existsb is_evaluateIdea (events_since Sample.s_pending s3) = false.
Proof.
  pose proof (@pipeline_evaluates_after_enrichment_persisted
                Sample.json_enrichment Sample.json_evaluation Sample.json_mv
                Sample.json_tf Sample.json_re Sample.w_ok "idea-1" "idea-1"
                Sample.idea Sample.s_pending) as H.
  cbv zeta in H. destruct H as (_ & _ & H).
  destruct (H Sample.enrichment eq_refl eq_refl) as (_ & Hrow & Hnone & _).
  cbv zeta. split; [reflexivity |]. split; [exact Hrow | exact Hnone].
Defined.

Lemma createIdea_validates_and_persists_witness :
  let req_body := {| rawText := Some "Build a tool"; body_context := None;
                     projectHint := None |} in
  rawText req_body = Some "Build a tool"
  /\ "Build a tool" <> ""
  /\ idea_exists "idea-2" (db Sample.s_empty) = false
  /\ status_of "idea-2"
       (db (Sample.handle Sample.w_ok (req_POST_ideas req_body) Sample.s_empty))
     = Some "pending".
Proof.
  cbv zeta.
  assert (Hne : "Build a tool" <> "") by discriminate.
  pose proof (@createIdea_validates_and_persists Sample.json_enrichment
                Sample.json_evaluation Sample.json_mv Sample.json_tf
                Sample.json_re Sample.w_ok
                {| rawText := Some "Build a tool"; body_context := None;
                   projectHint := None |} Sample.s_empty) as H.
  cbv zeta in H. destruct H as (_ & H).
  destruct (H "Build a tool" eq_refl Hne) as (Hfresh & _).
  destruct (Hfresh eq_refl) as (_ & _ & _ & Hstatus & _).
  split; [reflexivity |]. split; [exact Hne |]. split; [reflexivity |].
  exact Hstatus.
Defined.

Lemma each_run_request_starts_a_task_witness :
  SELECT_idea "idea-1" (db Sample.s_pending) = Some Sample.idea
  /\ in_flight "idea-1"
       (Sample.handle Sample.w_ok (req_POST_enrich "idea-1") Sample.s_pending)
     = 1.
Proof.
  split; [reflexivity |].
  exact (proj1 (@each_run_request_starts_a_task Sample.json_enrichment
                  Sample.json_evaluation Sample.json_mv Sample.json_tf
                  Sample.json_re Sample.w_ok "idea-1" Sample.idea
                  Sample.s_pending eq_refl)).
Defined.

(** C8, as stated, fails: a second [/enrich] request on an idea whose first
    task is still in flight leaves two tasks in flight for it. *)
Lemma second_run_request_overlaps :
  let s1 := Sample.handle Sample.w_ok (req_POST_enrich "idea-1")
              Sample.s_pending in
  let s2 := Sample.handle Sample.w_ok (req_POST_enrich "idea-1") s1 in
  in_flight "idea-1" s1 = 1
  /\ in_flight "idea-1" s2 = 2
  /\ ~ Stated.at_most_one_in_flight s2.
Proof.
  cbv zeta. split; [reflexivity |]. split; [reflexivity |].
  intro H. specialize (H "idea-1"). vm_compute in H. lia.
Qed.

(* ================================================================== *)
(** * Further properties                                               *)
(* ================================================================== *)

(** ** Routing and its display *)

Lemma geq_mono (a b c : number) :
  (a <= b)%Q -> geq a c = true -> geq b c = true.
Proof.
  intros Hab Hac. destruct (geq_spec a c) as [H | H]; [| discriminate].
  destruct (geq_spec b c) as [H' | H']; [reflexivity |].
  exfalso. apply H'. now apply Qle_trans with a.
Qed.

Lemma geq_const (a b c : number) :
  (c <= b)%Q -> geq a b = true -> geq a c = true.
Proof.
  intros Hcb Hab. destruct (geq_spec a b) as [H | H]; [| discriminate].
  destruct (geq_spec a c) as [H' | H']; [reflexivity |].
  exfalso. apply H'. now apply Qle_trans with b.
Qed.

Lemma le_60_80 : (60 <= 80)%Q.
Proof. unfold Qle; simpl; lia. Qed.

Lemma le_40_60 : (40 <= 60)%Q.
Proof. unfold Qle; simpl; lia. Qed.

(** X1. [routeIdea] is monotone in the score: with the recommendation
    fixed, a higher score is never routed to a lower tier; and two scores
    that are equal as numbers take the same route. *)
Theorem routeIdea_monotone (s1 s2 : number) (recommendation : string) :
  (s1 <= s2)%Q ->
  RouteDecision_rank (routeIdea s1 recommendation)
  <= RouteDecision_rank (routeIdea s2 recommendation)
  /\ ((s1 == s2)%Q ->
      routeIdea s1 recommendation = routeIdea s2 recommendation).
Proof.
  intro Hle.
  assert (Hmono : RouteDecision_rank (routeIdea s1 recommendation)
                  <= RouteDecision_rank (routeIdea s2 recommendation)).
  { unfold routeIdea, ROUTING_THRESHOLDS.BUILD_NOW,
      ROUTING_THRESHOLDS.BUILD_LATER, ROUTING_THRESHOLDS.RESEARCH.
    pose proof (geq_mono s1 s2 80%Q Hle) as M80.
    pose proof (geq_mono s1 s2 60%Q Hle) as M60.
    pose proof (geq_mono s1 s2 40%Q Hle) as M40.
    pose proof (geq_const s2 80%Q 60%Q le_60_80) as C86.
    pose proof (geq_const s2 60%Q 40%Q le_40_60) as C64.
    destruct (geq s1 80%Q), (geq s1 60%Q), (geq s1 40%Q),
      (geq s2 80%Q), (geq s2 60%Q), (geq s2 40%Q),
      (String.eqb recommendation "build-now");
      cbn; try lia;
      try (specialize (M80 eq_refl); discriminate);
      try (specialize (M60 eq_refl); discriminate);
      try (specialize (M40 eq_refl); discriminate);
      try (specialize (C86 eq_refl); discriminate);
      try (specialize (C64 eq_refl); discriminate). }
  split; [exact Hmono |].
  intro Heq.
  assert (Hge : (s2 <= s1)%Q) by (rewrite Heq; apply Qle_refl).
  unfold routeIdea, ROUTING_THRESHOLDS.BUILD_NOW,
    ROUTING_THRESHOLDS.BUILD_LATER, ROUTING_THRESHOLDS.RESEARCH.
  assert (E : forall c, geq s1 c = geq s2 c).
  { intro c. destruct (geq s1 c) eqn:E1, (geq s2 c) eqn:E2; try reflexivity.
    - rewrite (geq_mono s1 s2 c Hle E1) in E2. discriminate.
    - rewrite (geq_mono s2 s1 c Hge E2) in E1. discriminate. }
  now rewrite !E.
Qed.

Lemma routeIdea_monotone_witness :
  (59 <= (121 # 2))%Q
  /\ RouteDecision_rank (routeIdea 59%Q "partner")
     <= RouteDecision_rank (routeIdea (121 # 2)%Q "partner").
Proof.
  assert (H : (59 <= (121 # 2))%Q) by (unfold Qle; simpl; lia).
  split; [exact H |].
  exact (proj1 (routeIdea_monotone 59%Q (121 # 2)%Q "partner" H)).
Defined.

(** X2. The colour the card gives a score follows the route of the idea:
    red exactly for the archived scores, yellow exactly for those that need
    validation, and green or blue for the two blueprint routes; green means
    GENERATE_BLUEPRINT only with the recommendation "build-now", any other
    recommendation on a green score is routed to DEFER_WITH_BLUEPRINT. *)
Theorem getScoreColor_follows_route (score : number) (recommendation : string) :
  let colour := IdeaCard.getScoreColor score in
  let route := routeIdea score recommendation in
  (colour = "text-red-600" <-> route = ARCHIVE_WITH_LEARNING)
  /\ (colour = "text-yellow-600" <-> route = NEEDS_VALIDATION)
  /\ (colour = "text-blue-600" -> route = DEFER_WITH_BLUEPRINT)
  /\ (colour = "text-green-600" ->
      (recommendation = "build-now" -> route = GENERATE_BLUEPRINT)
      /\ (recommendation <> "build-now" -> route = DEFER_WITH_BLUEPRINT))
  /\ (route = GENERATE_BLUEPRINT -> colour = "text-green-600").
Proof.
  cbv zeta.
  unfold IdeaCard.getScoreColor, routeIdea, ROUTING_THRESHOLDS.BUILD_NOW,
    ROUTING_THRESHOLDS.BUILD_LATER, ROUTING_THRESHOLDS.RESEARCH.
  pose proof (geq_const score 80%Q 60%Q le_60_80) as C86.
  destruct (String.eqb_spec recommendation "build-now") as [Hr | Hr];
    destruct (geq score 80%Q), (geq score 60%Q), (geq score 40%Q);
    cbn [andb];
    try (specialize (C86 eq_refl); discriminate);
    repeat split; intros; try discriminate; try reflexivity;
    try contradiction.
Qed.

(** ** The status tiles of the client *)

Lemma valid_status_cases (s : string) :
  valid_status s ->
  s = "pending" \/ s = "enriched" \/ s = "evaluated-ready"
  \/ s = "deferred" \/ s = "research" \/ s = "archived".
Proof. unfold valid_status. cbn. intuition auto. Qed.

(** X3. On a list of ideas whose statuses are among the six the server
    writes, the six status tiles count every idea exactly once; the number
    on a tile is the number of cards shown once the tile is selected, all
    of them of that status; and a second click on the selected tile shows
    the whole list again. *)
Theorem statusCounts_partition (ideas : list App.Idea) :
  Forall (fun idea => valid_status (App.status idea)) ideas ->
  let counts := App.statusCounts ideas in
  App.pending counts + App.enriched counts + App.evaluated_ready counts
  + App.deferred counts + App.research counts + App.archived counts
  = List.length ideas
  /\ (forall s : string,
         valid_status s ->
         App.tile_count counts s
         = Some (List.length (App.filteredIdeas s ideas))
         /\ Forall (fun idea => App.status idea = s)
                   (App.filteredIdeas s ideas)
         /\ App.filteredIdeas (App.toggleFilter s s) ideas = ideas).
Proof.
  intro Hvalid. cbv zeta. split.
  - unfold App.statusCounts. cbn [App.pending App.enriched App.evaluated_ready
                                   App.deferred App.research App.archived].
    induction Hvalid as [| idea ideas Hidea _ IH]; [reflexivity |].
    cbn [filter List.length].
    destruct (valid_status_cases _ Hidea) as [E | [E | [E | [E | [E | E]]]]];
      rewrite E; cbn [String.eqb Ascii.eqb Bool.eqb List.length];
      cbn [List.length] in *; lia.
  - intros s Hs. split; [| split].
    + destruct (valid_status_cases _ Hs) as [E | [E | [E | [E | [E | E]]]]];
        subst s; reflexivity.
    + assert (Hall : String.eqb s "all" = false).
      { destruct (valid_status_cases _ Hs) as [E | [E | [E | [E | [E | E]]]]];
          subst s; reflexivity. }
      unfold App.filteredIdeas. rewrite Hall.
      apply Forall_forall. intros idea Hin.
      apply filter_In in Hin as [_ Hin]. now apply String.eqb_eq.
    + unfold App.toggleFilter. now rewrite String.eqb_refl.
Qed.

Lemma statusCounts_partition_witness :
  let ideas := [Cases.card "pending"; Cases.card "archived";
                Cases.card "pending"] in
  Forall (fun idea => valid_status (App.status idea)) ideas
  /\ App.tile_count (App.statusCounts ideas) "pending"
     = Some (List.length (App.filteredIdeas "pending" ideas))
  /\ List.length (App.filteredIdeas "pending" ideas) = 2.
Proof.
  cbv zeta.
  assert (H : Forall (fun idea => valid_status (App.status idea))
                [Cases.card "pending"; Cases.card "archived";
                 Cases.card "pending"]).
  { repeat constructor; cbn; tauto. }
  split; [exact H |].
  destruct (statusCounts_partition _ H) as [_ Htile].
  cbv zeta in Htile.
  assert (Hp : valid_status "pending") by (cbn; tauto).
  split; [exact (proj1 (Htile "pending" Hp)) | reflexivity].
Defined.

(** ** Policies on programs *)

Section ObeysFacts.

Variable ok_call : forall X : Type, call X -> Prop.
Variable ok_prim : forall X : Type, prim X -> Prop.

Lemma obeys_bind {A B : Type} (p : async A) (f : A -> async B) :
  obeys ok_call ok_prim p ->
  (forall a, obeys ok_call ok_prim (f a)) ->
  obeys ok_call ok_prim (bind p f).
Proof.
  intros Hp Hf. revert B f Hf.
  induction p as [A a | A m | A X c k IH | A X c k IH | A b _ k IH];
    intros B f Hf; cbn in *.
  - apply Hf.
  - exact I.
  - destruct Hp as [Hc Hk]. split; [exact Hc |]. intro r. now apply IH.
  - destruct Hp as [Hc Hk]. split; [exact Hc |]. intro x. now apply IH.
  - destruct Hp as [Hb Hk]. split; [exact Hb |]. now apply IH.
Qed.

Lemma obeys_try_catch {A : Type} (p : async A) (h : string -> async A) :
  obeys ok_call ok_prim p ->
  (forall m, obeys ok_call ok_prim (h m)) ->
  obeys ok_call ok_prim (try_catch p h).
Proof.
  intros Hp Hh.
  induction p as [A a | A m | A X c k IH | A X c k IH | A b _ k IH];
    cbn in *.
  - exact I.
  - apply Hh.
  - destruct Hp as [Hc Hk]. split; [exact Hc |]. intro r. now apply IH.
  - destruct Hp as [Hc Hk]. split; [exact Hc |]. intro x. now apply IH.
  - destruct Hp as [Hb Hk]. split; [exact Hb |]. now apply IH.
Qed.

Lemma obeys_await {X : Type} (c : call X) :
  ok_call X c -> obeys ok_call ok_prim (await c).
Proof. intro H. cbn. split; [exact H |]. intros [x | m]; exact I. Qed.

Lemma obeys_perform {X : Type} (p : prim X) :
  ok_prim X p -> obeys ok_call ok_prim (perform p).
Proof. intro H. cbn. split; [exact H |]. intro x. exact I. Qed.

Lemma obeys_of_result {A : Type} (r : result A) :
  obeys ok_call ok_prim (of_result r).
Proof. destruct r; exact I. Qed.

Lemma obeys_spawns {A : Type} (p : async A) :
  obeys ok_call ok_prim p -> spawns ok_call ok_prim p.
Proof.
  induction p as [A a | A m | A X c k IH | A X c k IH | A b _ k IH];
    cbn; intro H; try exact I.
  - intro r. apply IH. apply H.
  - intro x. apply IH. apply H.
  - split; [apply H | apply IH; apply H].
Qed.

Lemma spawns_bind {A B : Type} (p : async A) (f : A -> async B) :
  spawns ok_call ok_prim p ->
  (forall a, spawns ok_call ok_prim (f a)) ->
  spawns ok_call ok_prim (bind p f).
Proof.
  intros Hp Hf. revert B f Hf.
  induction p as [A a | A m | A X c k IH | A X c k IH | A b _ k IH];
    intros B f Hf; cbn in *.
  - apply Hf.
  - exact I.
  - intro r. now apply IH.
  - intro x. now apply IH.
  - destruct Hp as [Hb Hk]. split; [exact Hb |]. now apply IH.
Qed.

Lemma spawns_try_catch {A : Type} (p : async A) (h : string -> async A) :
  spawns ok_call ok_prim p ->
  (forall m, spawns ok_call ok_prim (h m)) ->
  spawns ok_call ok_prim (try_catch p h).
Proof.
  intros Hp Hh.
  induction p as [A a | A m | A X c k IH | A X c k IH | A b _ k IH];
    cbn in *.
  - exact I.
  - apply Hh.
  - intro r. now apply IH.
  - intro x. now apply IH.
  - destruct Hp as [Hb Hk]. split; [exact Hb |]. now apply IH.
Qed.

End ObeysFacts.

Lemma obeys_weaken (ok_call ok_call' : forall X : Type, call X -> Prop)
    (ok_prim ok_prim' : forall X : Type, prim X -> Prop) :
  (forall X c, ok_call X c -> ok_call' X c) ->
  (forall X p, ok_prim X p -> ok_prim' X p) ->
  forall (A : Type) (p : async A),
    obeys ok_call ok_prim p -> obeys ok_call' ok_prim' p.
Proof.
  intros Hc Hp A p.
  induction p as [A a | A m | A X c k IH | A X c k IH | A b IHb k IH];
    cbn; intro H; try exact I.
  - split; [apply Hc, H |]. intro r. apply IH, H.
  - split; [apply Hp, H |]. intro x. apply IH, H.
  - split; [apply IHb, H | apply IH, H].
Qed.

Lemma pool_do_call {X : Type} (w : world) (c : call X) (s : server) :
  pool (snd (do_call w c s)) = pool s.
Proof.
  destruct c; cbn [do_call snd]; try reflexivity.
  destruct (run_statement (CURRENT_TIMESTAMP_at w (draws s)) stmt (db s));
    reflexivity.
Qed.

Lemma pool_do_prim {X : Type} (w : world) (p : prim X) (s : server) :
  pool (snd (do_prim w p s)) = pool s.
Proof. destruct p; reflexivity. Qed.

Lemma Forall_remove_nth {A : Type} (P : A -> Prop) (i : nat) (l : list A) :
  Forall P l -> Forall P (remove_nth i l).
Proof.
  intro H. revert i.
  induction H as [| x l Hx Hl IH]; intros [| i]; cbn;
    try constructor; auto.
Qed.

Section Policy.

Variable ok_call : forall X : Type, call X -> Prop.
Variable ok_prim : forall X : Type, prim X -> Prop.
Variable w : world.

(** A property of the server that allowed effects keep and that does not
    look at the pool. *)
Variable Inv : server -> Prop.
Hypothesis Inv_call :
  forall (X : Type) (c : call X) (s : server),
    ok_call X c -> Inv s -> Inv (snd (do_call w c s)).
Hypothesis Inv_prim :
  forall (X : Type) (p : prim X) (s : server),
    ok_prim X p -> Inv s -> Inv (snd (do_prim w p s)).
Hypothesis Inv_pool :
  forall (l : list task) (s : server), Inv s -> Inv (set_pool l s).

Lemma park_obeys (owner : string) (b : async unit) (s : server) :
  obeys ok_call ok_prim b -> Inv s -> pool_obeys ok_call ok_prim s ->
  Inv (park owner b s) /\ pool_obeys ok_call ok_prim (park owner b s).
Proof.
  intros Hb Hi Hpool. destruct b; cbn [park]; try (split; assumption).
  split; [now apply Inv_pool |].
  unfold pool_obeys in *. cbn [pool set_pool].
  apply Forall_app. split; [exact Hpool |]. constructor; [exact Hb |].
  constructor.
Qed.

Lemma advance_obeys {A : Type} (owner : string) (p : async A) (s : server) :
  obeys ok_call ok_prim p -> Inv s -> pool_obeys ok_call ok_prim s ->
  obeys ok_call ok_prim (fst (advance w owner p s))
  /\ Inv (snd (advance w owner p s))
  /\ pool_obeys ok_call ok_prim (snd (advance w owner p s)).
Proof.
  revert s.
  induction p as [A a | A m | A X c k IH | A X c k IH | A b IHb k IHk];
    intros s Hp Hi Hpool; cbn [advance fst snd];
    try (split; [assumption | split; assumption]).
  - destruct Hp as [Hc Hk].
    pose proof (Inv_prim _ c s Hc Hi) as Hi'.
    pose proof (pool_do_prim w c s) as Hpl.
    destruct (do_prim w c s) as [x s']. cbn [snd] in *.
    apply IH; [apply Hk | exact Hi' |].
    unfold pool_obeys. now rewrite Hpl.
  - destruct Hp as [Hb Hk].
    destruct (IHb s Hb Hi Hpool) as (Hb' & Hi' & Hpool').
    destruct (advance w owner b s) as [b' s']. cbn [fst snd] in *.
    destruct (park_obeys owner b' s' Hb' Hi' Hpool') as [Hi'' Hpool''].
    now apply IHk.
Qed.

(** A body that obeys the policy, run to its end among tasks that obey it,
    keeps the property and leaves only such tasks in flight. *)
Lemma exec_obeys {A : Type} (owner : string) (p : async A) (s : server) :
  obeys ok_call ok_prim p -> Inv s -> pool_obeys ok_call ok_prim s ->
  Inv (snd (exec w owner p s))
  /\ pool_obeys ok_call ok_prim (snd (exec w owner p s)).
Proof.
  revert s.
  induction p as [A a | A m | A X c k IH | A X c k IH | A b _ k IHk];
    intros s Hp Hi Hpool; cbn [exec snd]; try (split; assumption).
  - destruct Hp as [Hc Hk].
    pose proof (Inv_call _ c s Hc Hi) as Hi'.
    pose proof (pool_do_call w c s) as Hpl.
    destruct (do_call w c s) as [r s']. cbn [snd] in *.
    apply IH; [apply Hk | exact Hi' |].
    unfold pool_obeys. now rewrite Hpl.
  - destruct Hp as [Hc Hk].
    pose proof (Inv_prim _ c s Hc Hi) as Hi'.
    pose proof (pool_do_prim w c s) as Hpl.
    destruct (do_prim w c s) as [x s']. cbn [snd] in *.
    apply IH; [apply Hk | exact Hi' |].
    unfold pool_obeys. now rewrite Hpl.
  - destruct Hp as [Hb Hk].
    destruct (advance_obeys owner b s Hb Hi Hpool) as (Hb' & Hi' & Hpool').
    destruct (advance w owner b s) as [b' s']. cbn [fst snd] in *.
    destruct (park_obeys owner b' s' Hb' Hi' Hpool') as [Hi'' Hpool''].
    now apply IHk.
Qed.

(** The same when the event loop resumes a task in flight. *)
Lemma resume_obeys (i : nat) (s : server) :
  Inv s -> pool_obeys ok_call ok_prim s ->
  Inv (resume w i s) /\ pool_obeys ok_call ok_prim (resume w i s).
Proof.
  intros Hi Hpool. unfold resume.
  destruct (nth_error (pool s) i) as [t |] eqn:Hnth; [| now split].
  assert (Ht : obeys ok_call ok_prim (task_body t)).
  { apply nth_error_In in Hnth.
    exact (proj1 (Forall_forall _ _) Hpool t Hnth). }
  destruct (task_body t) as [| | X c k | |]; try (now split).
  destruct Ht as [Hc Hk].
  assert (Hi0 : Inv (set_pool (remove_nth i (pool s)) s))
    by now apply Inv_pool.
  assert (Hp0 : pool_obeys ok_call ok_prim
                  (set_pool (remove_nth i (pool s)) s)).
  { unfold pool_obeys. cbn [pool set_pool]. now apply Forall_remove_nth. }
  pose proof (Inv_call _ c _ Hc Hi0) as Hi1.
  pose proof (pool_do_call w c (set_pool (remove_nth i (pool s)) s)) as Hpl.
  destruct (do_call w c (set_pool (remove_nth i (pool s)) s)) as [r s1].
  cbn [snd] in *.
  assert (Hp1 : pool_obeys ok_call ok_prim s1).
  { unfold pool_obeys in *. now rewrite Hpl. }
  destruct (advance_obeys (task_idea t) (k r) s1 (Hk r) Hi1 Hp1)
    as (Hb & Hi2 & Hp2).
  destruct (advance w (task_idea t) (k r) s1) as [b s2]. cbn [fst snd] in *.
  now apply park_obeys.
Qed.

End Policy.

(** A body whose detached bodies obey the policy leaves only obeying tasks
    in flight, whatever it does itself. *)
Lemma exec_spawns (ok_call : forall X : Type, call X -> Prop)
    (ok_prim : forall X : Type, prim X -> Prop) (w : world) (owner : string)
    {A : Type} (p : async A) (s : server) :
  spawns ok_call ok_prim p -> pool_obeys ok_call ok_prim s ->
  pool_obeys ok_call ok_prim (snd (exec w owner p s)).
Proof.
  revert s.
  induction p as [A a | A m | A X c k IH | A X c k IH | A b _ k IHk];
    intros s Hp Hpool; cbn [exec snd]; try assumption.
  - pose proof (pool_do_call w c s) as Hpl.
    destruct (do_call w c s) as [r s']. cbn [snd] in *.
    apply IH; [apply Hp |]. unfold pool_obeys in *. now rewrite Hpl.
  - pose proof (pool_do_prim w c s) as Hpl.
    destruct (do_prim w c s) as [x s']. cbn [snd] in *.
    apply IH; [apply Hp |]. unfold pool_obeys in *. now rewrite Hpl.
  - destruct Hp as [Hb Hk].
    destruct (advance_obeys ok_call ok_prim w (fun _ => True)
                (fun _ _ _ _ _ => I) (fun _ _ _ => I) owner b s Hb I Hpool)
      as (Hb' & _ & Hpool').
    destruct (advance w owner b s) as [b' s']. cbn [fst snd] in *.
    apply IHk; [exact Hk |].
    exact (proj2 (park_obeys ok_call ok_prim (fun _ => True)
                    (fun _ _ _ => I) owner b' s' Hb' I Hpool')).
Qed.

Lemma spawns_await (ok_call : forall X : Type, call X -> Prop)
    (ok_prim : forall X : Type, prim X -> Prop) {X : Type} (c : call X) :
  spawns ok_call ok_prim (await c).
Proof. cbn. intros [x | m]; exact I. Qed.

Lemma spawns_perform (ok_call : forall X : Type, call X -> Prop)
    (ok_prim : forall X : Type, prim X -> Prop) {X : Type} (p : prim X) :
  spawns ok_call ok_prim (perform p).
Proof. cbn. intro x. exact I. Qed.

Lemma spawns_detach (ok_call : forall X : Type, call X -> Prop)
    (ok_prim : forall X : Type, prim X -> Prop) (b : async unit) :
  obeys ok_call ok_prim b -> spawns ok_call ok_prim (detach b).
Proof. intro H. cbn. now split. Qed.

Lemma stage_newStatus (route : RouteDecision) : stage_status (newStatus route).
Proof. destruct route; cbn; tauto. Qed.

Lemma stage_status_valid (status : string) :
  stage_status status -> valid_status status.
Proof. unfold stage_status, valid_status. cbn. tauto. Qed.

Lemma stage_status_not_pending (status : string) :
  stage_status status -> status <> "pending".
Proof.
  unfold stage_status. cbn. intros H ->.
  repeat (destruct H as [H | H]; [discriminate H |]). exact H.
Qed.

(** What the server's programs do: a detached task sets no status but the
    status of a stage and sends no response; a handler sets no other status
    either and detaches nothing but such tasks. *)
Ltac obey :=
  repeat first
    [ exact I
    | match goal with
      | |- obeys _ _ (try_catch _ _) => apply obeys_try_catch
      | |- obeys _ _ (bind _ _) => apply obeys_bind
      | |- obeys _ _ (await _) => apply obeys_await
      | |- obeys _ _ (perform _) => apply obeys_perform
      | |- obeys _ _ (of_result _) => apply obeys_of_result
      | |- obeys _ _ (detach _) => unfold detach; cbn [obeys]; split
      | |- spawns _ _ (try_catch _ _) => apply spawns_try_catch
      | |- spawns _ _ (bind _ _) => apply spawns_bind
      | |- spawns _ _ (await _) => apply spawns_await
      | |- spawns _ _ (perform _) => apply spawns_perform
      | |- spawns _ _ (of_result ?r) => destruct r
      | |- spawns _ _ (detach _) => apply spawns_detach
      | |- obeys _ _ (match ?x with _ => _ end) => destruct x
      | |- spawns _ _ (match ?x with _ => _ end) => destruct x
      | |- obeys _ _ (if ?x then _ else _) => destruct x
      | |- spawns _ _ (if ?x then _ else _) => destruct x
      | |- stage_status (newStatus _) => apply stage_newStatus
      | |- stage_status _ => solve [cbn; tauto]
      | |- forall _, _ => intro
      end
    | progress cbn [sets_stage_status no_response any_call any_prim] ].

Section Programs.

Context {JSON_EnrichmentOutput : JSON EnrichmentOutput}
        {JSON_EvaluationOutput : JSON EvaluationOutput}
        {JSON_MarketValidation : JSON MarketValidation}
        {JSON_TechnicalFeasibility : JSON TechnicalFeasibility}
        {JSON_ResourceEstimate : JSON ResourceEstimate}.

Lemma enrich_task_obeys (id : string) (idea : ideas.row) :
  obeys sets_stage_status no_response (enrich_task id idea).
Proof. unfold enrich_task, enrichIdea, saveEnrichment. obey. Qed.

Lemma evaluate_task_obeys (id : string) (idea : ideas.row)
    (enrichment : EnrichmentOutput) :
  obeys sets_stage_status no_response (evaluate_task id idea enrichment).
Proof. unfold evaluate_task, evaluateIdea, saveEvaluation. obey. Qed.

Lemma analyze_task_obeys (id : string) (idea : ideas.row) :
  obeys sets_stage_status no_response (analyze_task id idea).
Proof.
  unfold analyze_task, enrichIdea, evaluateIdea, saveEnrichment,
    saveEvaluation.
  obey.
Qed.

Lemma handler_spawns (r : request) :
  spawns sets_stage_status no_response (handler r).
Proof.
  destruct r; cbn [handler];
    unfold POST_ideas, GET_idea, POST_enrich, POST_evaluate, POST_analyze,
      getEnrichment, getEvaluation, res_json, res_status_json;
    obey;
    first [ apply enrich_task_obeys | apply evaluate_task_obeys
          | apply analyze_task_obeys ].
Qed.

Lemma handler_obeys (r : request) :
  obeys sets_stage_status any_prim (handler r).
Proof.
  destruct r; cbn [handler];
    unfold POST_ideas, GET_idea, POST_enrich, POST_evaluate, POST_analyze,
      getEnrichment, getEvaluation, res_json, res_status_json;
    obey;
    (eapply obeys_weaken;
     [| | first [ apply enrich_task_obeys | apply evaluate_task_obeys
                | apply analyze_task_obeys ] ]);
    intros; exact I || assumption.
Qed.

End Programs.

(** ** What holds in every state the server reaches *)

Lemma responses_app (t t' : list event) :
  responses (t ++ t') = (responses t ++ responses t')%list.
Proof.
  induction t as [| e t IH]; [reflexivity |].
  destruct e; cbn; rewrite ?IH; reflexivity.
Qed.

Lemma do_call_responses {X : Type} (w : world) (c : call X) (s : server) :
  responses (trace (snd (do_call w c s))) = responses (trace s).
Proof.
  destruct c; cbn [do_call snd]; try reflexivity.
  - destruct (run_statement (CURRENT_TIMESTAMP_at w (draws s)) stmt (db s));
      cbn [snd log trace draw set_db]; rewrite responses_app; cbn;
      apply app_nil_r.
  - cbn [log trace]. rewrite responses_app. cbn. apply app_nil_r.
  - cbn [log trace]. rewrite responses_app. cbn. apply app_nil_r.
Qed.

Lemma do_prim_responses {X : Type} (w : world) (p : prim X) (s : server) :
  no_response X p ->
  responses (trace (snd (do_prim w p s))) = responses (trace s).
Proof.
  destruct p; cbn [do_prim snd no_response]; intro H; try reflexivity;
    try (cbn [log trace]; rewrite responses_app; cbn; apply app_nil_r).
  destruct H.
Qed.

Lemma find_app_some {A : Type} (f : A -> bool) (l l' : list A) (x : A) :
  find f l = Some x -> find f (l ++ l')%list = Some x.
Proof.
  induction l as [| y l IH]; cbn; [discriminate |].
  destruct (f y); [trivial | exact IH].
Qed.

Lemma find_app_none {A : Type} (f : A -> bool) (l l' : list A) :
  find f l = None -> find f (l ++ l')%list = find f l'.
Proof.
  induction l as [| y l IH]; cbn; [reflexivity |].
  destruct (f y); [discriminate | exact IH].
Qed.

Lemma id_set_status (status now id : string) (r : ideas.row) :
  ideas.id (set_status status now id r) = ideas.id r.
Proof. unfold set_status. now destruct (String.eqb (ideas.id r) id). Qed.

(** [UPDATE ... WHERE id = ?] leaves the rows of the other ideas. *)
Lemma find_set_status_other (status now id id' : string)
    (t : list ideas.row) :
  id' <> id ->
  find (fun r => String.eqb (ideas.id r) id)
       (map (set_status status now id') t)
  = find (fun r => String.eqb (ideas.id r) id) t.
Proof.
  intro Hne. induction t as [| x t IH]; cbn [map find]; [reflexivity |].
  rewrite id_set_status.
  destruct (String.eqb_spec (ideas.id x) id) as [Ex | Ex]; [| exact IH].
  f_equal. unfold set_status.
  destruct (String.eqb_spec (ideas.id x) id'); [congruence | reflexivity].
Qed.

Lemma same_identity_set_status (status now id : string) (r r' : ideas.row) :
  same_identity r r' -> same_identity r (set_status status now id r').
Proof.
  unfold set_status. destruct (String.eqb (ideas.id r') id); [| trivial].
  unfold same_identity. cbn. trivial.
Qed.

(** No statement of the server removes an idea or rewrites the columns it
    was created with. *)
Lemma run_statement_keeps_identity (r : ideas.row) (id t : string)
    (stmt : statement) (d d' : Database) :
  (exists r', SELECT_idea id d = Some r' /\ same_identity r r') ->
  run_statement t stmt d = Ok d' ->
  exists r', SELECT_idea id d' = Some r' /\ same_identity r r'.
Proof.
  intros (r' & Hsel & Hsame) Hrun.
  destruct stmt as [id' source raw context hint | status now id' | e | e];
    cbn [run_statement] in Hrun.
  - destruct (idea_exists id' d); [discriminate |]. injection Hrun as <-.
    exists r'. split; [| exact Hsame].
    unfold SELECT_idea, insert_idea in *. cbn [tbl_ideas].
    now apply find_app_some.
  - injection Hrun as <-.
    assert (Hid : ideas.id r' = id) by exact (SELECT_idea_id id d r' Hsel).
    unfold SELECT_idea, update_status in *. cbn [tbl_ideas].
    destruct (String.eqb_spec id' id) as [-> | Hne].
    + rewrite find_set_status, Hsel. cbn [option_map].
      eexists. split; [reflexivity |]. now apply same_identity_set_status.
    + exists r'. split; [| exact Hsame].
      now rewrite find_set_status_other.
  - destruct (idea_exists (idea_enrichment.idea_id e) d); [| discriminate].
    injection Hrun as <-. now exists r'.
  - destruct (idea_exists (idea_evaluation.idea_id e) d); [| discriminate].
    injection Hrun as <-. now exists r'.
Qed.

(** [INSERT OR REPLACE] under another key leaves the record of [id]. *)
Lemma find_replace_evaluation_other (id : string) (r : idea_evaluation.row)
    (t : list idea_evaluation.row) :
  idea_evaluation.idea_id r <> id ->
  find (fun r' => String.eqb (idea_evaluation.idea_id r') id)
       (replace_evaluation r t)
  = find (fun r' => String.eqb (idea_evaluation.idea_id r') id) t.
Proof.
  intro Hne. unfold replace_evaluation.
  induction t as [| x t IH]; cbn.
  - apply String.eqb_neq in Hne. now rewrite Hne.
  - destruct (String.eqb (idea_evaluation.idea_id x)
                         (idea_evaluation.idea_id r)) eqn:E; cbn.
    + apply String.eqb_eq in E.
      assert (Hx : String.eqb (idea_evaluation.idea_id x) id = false).
      { apply String.eqb_neq. congruence. }
      rewrite Hx. exact IH.
    + destruct (String.eqb (idea_evaluation.idea_id x) id);
        [reflexivity | exact IH].
Qed.

(** No statement of the server removes an evaluation record. *)
Lemma run_statement_keeps_evaluation (id t : string) (stmt : statement)
    (d d' : Database) :
  SELECT_evaluation id d <> None ->
  run_statement t stmt d = Ok d' ->
  SELECT_evaluation id d' <> None.
Proof.
  intros H Hrun.
  destruct stmt as [id' source raw context hint | status now id' | r | r];
    cbn [run_statement] in Hrun.
  - destruct (idea_exists id' d); [discriminate |]. now injection Hrun as <-.
  - now injection Hrun as <-.
  - destruct (idea_exists (idea_enrichment.idea_id r) d); [| discriminate].
    now injection Hrun as <-.
  - destruct (idea_exists (idea_evaluation.idea_id r) d); [| discriminate].
    injection Hrun as <-. unfold SELECT_evaluation, put_evaluation in *.
    cbn [tbl_idea_evaluation].
    destruct (String.eqb_spec (idea_evaluation.idea_id r) id) as [<- | Hne].
    + now rewrite find_replace_evaluation.
    + now rewrite find_replace_evaluation_other.
Qed.

Lemma Forall_set_status (P : ideas.row -> Prop) (status now id : string)
    (t : list ideas.row) :
  (forall r, P r -> P (set_status status now id r)) ->
  Forall P t -> Forall P (map (set_status status now id) t).
Proof.
  intros HP Ht. induction Ht as [| r t Hr _ IH]; cbn; constructor; auto.
Qed.

(** A statement that sets the status of a stage keeps the statuses among the
    six. *)
Lemma do_call_statuses {X : Type} (w : world) (c : call X) (s : server) :
  sets_stage_status X c -> statuses_valid (db s) ->
  statuses_valid (db (snd (do_call w c s))).
Proof.
  intros Hc H. destruct c; cbn [do_call snd]; try exact H.
  destruct (run_statement (CURRENT_TIMESTAMP_at w (draws s)) stmt (db s))
    as [d |] eqn:Hrun; cbn [snd log db draw set_db]; [| exact H].
  destruct stmt as [id' source raw context hint | status now id' | r | r];
    cbn [run_statement] in Hrun.
  - destruct (idea_exists id' (db s)); [discriminate |]. injection Hrun as <-.
    unfold statuses_valid, insert_idea in *. cbn [tbl_ideas].
    apply Forall_app. split; [exact H |].
    constructor; [cbn; tauto | constructor].
  - injection Hrun as <-.
    unfold statuses_valid, update_status in *. cbn [tbl_ideas].
    apply Forall_set_status; [| exact H].
    intros r Hr. unfold set_status.
    destruct (String.eqb (ideas.id r) id'); [| exact Hr].
    cbn [ideas.status]. now apply stage_status_valid.
  - destruct (idea_exists (idea_enrichment.idea_id r) (db s));
      [| discriminate].
    now injection Hrun as <-.
  - destruct (idea_exists (idea_evaluation.idea_id r) (db s));
      [| discriminate].
    now injection Hrun as <-.
Qed.

(** A statement that sets the status of a stage keeps an idea that left
    pending out of it. *)
Lemma do_call_left_pending {X : Type} (id : string) (w : world) (c : call X)
    (s : server) :
  sets_stage_status X c ->
  (exists st, status_of id (db s) = Some st /\ st <> "pending") ->
  exists st, status_of id (db (snd (do_call w c s))) = Some st
             /\ st <> "pending".
Proof.
  intros Hc H. destruct c; cbn [do_call snd]; try exact H.
  destruct (run_statement (CURRENT_TIMESTAMP_at w (draws s)) stmt (db s))
    as [d |] eqn:Hrun; cbn [snd log db draw set_db]; [| exact H].
  destruct H as (st & Hst & Hne).
  destruct stmt as [id' source raw context hint | status now id' | r | r];
    cbn [run_statement] in Hrun.
  - destruct (idea_exists id' (db s)); [discriminate |]. injection Hrun as <-.
    exists st. split; [| exact Hne].
    unfold status_of, SELECT_idea, insert_idea in *. cbn [tbl_ideas].
    destruct (find (fun r => String.eqb (ideas.id r) id) (tbl_ideas (db s)))
      as [r |] eqn:Hfind; [| discriminate].
    now rewrite (find_app_some _ _ _ _ Hfind).
  - injection Hrun as <-.
    destruct (String.eqb_spec id' id) as [-> | Hid].
    + exists status. split; [| now apply stage_status_not_pending].
      apply status_of_update_status.
      unfold status_of in Hst.
      destruct (SELECT_idea id (db s)) as [r |] eqn:Hsel; [| discriminate].
      exact (SELECT_idea_exists _ _ _ Hsel).
    + exists st. split; [| exact Hne].
      unfold status_of, SELECT_idea, update_status in *. cbn [tbl_ideas].
      now rewrite find_set_status_other.
  - destruct (idea_exists (idea_enrichment.idea_id r) (db s));
      [| discriminate].
    injection Hrun as <-. now exists st.
  - destruct (idea_exists (idea_evaluation.idea_id r) (db s));
      [| discriminate].
    injection Hrun as <-. now exists st.
Qed.

Lemma filter_key_notin {A : Type} (key : A -> string) (id : string)
    (l : list A) :
  ~ In id (map key l) -> filter (fun r => String.eqb (key r) id) l = [].
Proof.
  induction l as [| x l IH]; cbn; [reflexivity |]. intro H.
  destruct (String.eqb_spec (key x) id) as [E | E]; [tauto |].
  apply IH. tauto.
Qed.

(** A key column without duplicates holds at most one row for a key. *)
Lemma NoDup_filter_key {A : Type} (key : A -> string) (id : string)
    (l : list A) :
  NoDup (map key l) ->
  List.length (filter (fun r => String.eqb (key r) id) l) <= 1.
Proof.
  induction l as [| x l IH]; cbn; [lia |]. intro H.
  apply NoDup_cons_iff in H as [Hx Hl].
  destruct (String.eqb_spec (key x) id) as [E | E]; [| now apply IH].
  subst id. rewrite (filter_key_notin key (key x) l Hx). cbn. lia.
Qed.

Section Invariants.

Context {JSON_EnrichmentOutput : JSON EnrichmentOutput}
        {JSON_EvaluationOutput : JSON EvaluationOutput}
        {JSON_MarketValidation : JSON MarketValidation}
        {JSON_TechnicalFeasibility : JSON TechnicalFeasibility}
        {JSON_ResourceEstimate : JSON ResourceEstimate}.

Lemma reachable_trans (s0 s1 s2 : server) :
  reachable s0 s1 -> reachable s1 s2 -> reachable s0 s2.
Proof.
  intros H1 H2.
  induction H2; [exact H1 | now apply reach_request | now apply reach_resume].
Qed.

Lemma reachable_run_steps (steps : list step) (s0 : server) :
  reachable s0 (run_steps steps s0).
Proof.
  revert s0. induction steps as [| st steps IH]; intro s0; cbn.
  - constructor.
  - apply reachable_trans with (do_step st s0); [| apply IH].
    destruct st; cbn [do_step]; constructor; constructor.
Qed.

(** The tasks in flight are tasks of the server in every state it reaches:
    they set no status but the status of a stage and send no response. *)
Lemma reachable_tasks (s0 s : server) :
  pool_obeys sets_stage_status no_response s0 -> reachable s0 s ->
  pool_obeys sets_stage_status no_response s.
Proof.
  intros H0 Hreach. induction Hreach as [| w r s _ IH | w i s _ IH].
  - exact H0.
  - unfold handle. apply exec_spawns; [apply handler_spawns | exact IH].
  - exact (proj2 (resume_obeys sets_stage_status no_response w
                    (fun _ => True) (fun _ _ _ _ _ => I)
                    (fun _ _ _ _ _ => I) (fun _ _ _ => I) i s I IH)).
Qed.

Lemma pool_obeys_any_prim (s : server) :
  pool_obeys sets_stage_status no_response s ->
  pool_obeys sets_stage_status any_prim s.
Proof.
  unfold pool_obeys. apply Forall_impl. intros t Ht.
  apply (obeys_weaken sets_stage_status sets_stage_status no_response
           any_prim); [trivial | intros; exact I | exact Ht].
Qed.

Lemma pool_obeys_nil (ok_call : forall X : Type, call X -> Prop)
    (ok_prim : forall X : Type, prim X -> Prop) (s : server) :
  pool s = [] -> pool_obeys ok_call ok_prim s.
Proof. unfold pool_obeys. intros ->. constructor. Qed.

Section StageInvariant.

(** A property of the server kept by the calls that set no status but the
    status of a stage, by every primitive, and not looking at the pool. *)
Variable Inv : server -> Prop.
Hypothesis Inv_call :
  forall (w : world) (X : Type) (c : call X) (s : server),
    sets_stage_status X c -> Inv s -> Inv (snd (do_call w c s)).
Hypothesis Inv_prim :
  forall (w : world) (X : Type) (p : prim X) (s : server),
    Inv s -> Inv (snd (do_prim w p s)).
Hypothesis Inv_pool :
  forall (l : list task) (s : server), Inv s -> Inv (set_pool l s).

Lemma reachable_stage_invariant (s0 s : server) :
  Inv s0 -> pool_obeys sets_stage_status no_response s0 ->
  reachable s0 s -> Inv s.
Proof.
  intros H0 Hpool Hreach.
  induction Hreach as [| w r s Hreach IH | w i s Hreach IH].
  - exact H0.
  - unfold handle.
    refine (proj1 (exec_obeys sets_stage_status any_prim w Inv (Inv_call w)
                     (fun X p s _ => Inv_prim w X p s) Inv_pool
                     (params_id r) (handler r) s (handler_obeys r) IH _)).
    apply pool_obeys_any_prim. exact (reachable_tasks s0 s Hpool Hreach).
  - refine (proj1 (resume_obeys sets_stage_status any_prim w Inv (Inv_call w)
                     (fun X p s _ => Inv_prim w X p s) Inv_pool i s IH _)).
    apply pool_obeys_any_prim. exact (reachable_tasks s0 s Hpool Hreach).
Qed.

End StageInvariant.

(** X4. From a server start (nothing in flight) with every status among
    pending, enriched, evaluated-ready, deferred, research and archived,
    the statuses stay among the six in every state the server reaches,
    whatever the requests, the answers of the generators and the
    interleaving of the tasks. *)
Theorem statuses_stay_valid (s0 s : server) :
  pool s0 = [] -> statuses_valid (db s0) -> reachable s0 s ->
  statuses_valid (db s).
Proof.
  intros Hpool H0 Hreach.
  apply (reachable_stage_invariant (fun s => statuses_valid (db s)))
    with (s0 := s0); try assumption.
  - intros w X c s1. apply do_call_statuses.
  - intros w X p s1 H. now rewrite do_prim_db.
  - intros l s1 H. exact H.
  - now apply pool_obeys_nil.
Qed.

(** X5. An idea that has left pending never returns to it: in every state
    reached after a stage (or anything else) gave it another status, its
    status is still not pending, so that the Analyze button of its card
    stays disabled. *)
Theorem idea_never_returns_to_pending (id st : string) (s0 s1 s2 : server) :
  pool s0 = [] -> reachable s0 s1 ->
  status_of id (db s1) = Some st -> st <> "pending" ->
  reachable s1 s2 ->
  exists st', status_of id (db s2) = Some st'
              /\ st' <> "pending"
              /\ forall isAnalyzing : bool,
                   IdeaCard.analyze_disabled isAnalyzing st' = true.
Proof.
  intros Hpool H01 Hst Hne H12.
  assert (H : exists st', status_of id (db s2) = Some st' /\ st' <> "pending").
  { apply (reachable_stage_invariant
             (fun s => exists st', status_of id (db s) = Some st'
                                   /\ st' <> "pending"))
      with (s0 := s1); try assumption.
    - intros w X c s. apply do_call_left_pending.
    - intros w X p s H. now rewrite do_prim_db.
    - intros l s H. exact H.
    - now exists st.
    - apply (reachable_tasks s0 s1); [now apply pool_obeys_nil | exact H01]. }
  destruct H as (st' & Hst' & Hne'). exists st'. repeat split; try assumption.
  intro isAnalyzing. unfold IdeaCard.analyze_disabled.
  apply String.eqb_neq in Hne'. rewrite Hne'. apply orb_true_r.
Qed.

(** X6. An idea is never deleted and the columns it was created with (id,
    source, raw_text, created_at, context, project_hint) never change: in
    every state the server reaches, the idea is in store with these columns
    as they were; only status and updated_at may differ. *)
Theorem ideas_keep_identity (id : string) (r : ideas.row) (s0 s : server) :
  SELECT_idea id (db s0) = Some r -> reachable s0 s ->
  exists r', SELECT_idea id (db s) = Some r' /\ same_identity r r'.
Proof.
  intros H0 Hreach. induction Hreach as [| w req s _ IH | w i s _ IH].
  - exists r. split; [exact H0 |]. now repeat split.
  - unfold handle.
    now apply (exec_keeps _ (run_statement_keeps_identity r id)).
  - now apply (resume_keeps _ (run_statement_keeps_identity r id)).
Qed.

(** X7. Stage records are never removed: an idea that has an enrichment
    record, or an evaluation record, has one in every state the server
    reaches afterwards (a later run replaces the record, a failed run
    leaves it). *)
Theorem stage_records_never_removed (id : string) (s0 s : server) :
  reachable s0 s ->
  (SELECT_enrichment id (db s0) <> None -> SELECT_enrichment id (db s) <> None)
  /\ (SELECT_evaluation id (db s0) <> None
      -> SELECT_evaluation id (db s) <> None).
Proof.
  intro Hreach. split; intro H0.
  - induction Hreach as [| w req s _ IH | w i s _ IH].
    + exact H0.
    + unfold handle.
      now apply (exec_keeps _ (run_statement_keeps_enrichment id)).
    + now apply (resume_keeps _ (run_statement_keeps_enrichment id)).
  - induction Hreach as [| w req s _ IH | w i s _ IH].
    + exact H0.
    + unfold handle.
      now apply (exec_keeps _ (run_statement_keeps_evaluation id)).
    + now apply (resume_keeps _ (run_statement_keeps_evaluation id)).
Qed.

Lemma find_some_key {A : Type} (key : A -> string) (id : string)
    (l : list A) (r : A) :
  find (fun r => String.eqb (key r) id) l = Some r -> In r l /\ key r = id.
Proof.
  intro H. apply find_some in H as [Hin Hk]. split; [exact Hin |].
  now apply String.eqb_eq.
Qed.

(** X8. The schema constraints hold in every state reached from a state
    where they hold: an identifier names at most one idea, an idea has at
    most one enrichment record and at most one evaluation record, and every
    stage record belongs to an idea in store. *)
Theorem stage_records_belong_to_ideas (s0 s : server) :
  constraints_hold (db s0) -> reachable s0 s ->
  forall id : string,
    ideas_with_id id (db s) <= 1
    /\ enrichment_records id (db s) <= 1
    /\ List.length
         (filter (fun r => String.eqb (idea_evaluation.idea_id r) id)
                 (tbl_idea_evaluation (db s))) <= 1
    /\ (SELECT_enrichment id (db s) <> None -> SELECT_idea id (db s) <> None)
    /\ (SELECT_evaluation id (db s) <> None -> SELECT_idea id (db s) <> None).
Proof.
  intros H0 Hreach id.
  assert (H : constraints_hold (db s)).
  { induction Hreach as [| w req s _ IH | w i s _ IH].
    - exact H0.
    - unfold handle. now apply (exec_keeps _ run_statement_constraints).
    - now apply (resume_keeps _ run_statement_constraints). }
  destruct H as (Hi & Hen & Hev & Hfk & Hfk').
  split; [| split; [| split; [| split]]].
  - now apply NoDup_filter_key.
  - now apply NoDup_filter_key.
  - now apply NoDup_filter_key.
  - intro Hrow. unfold SELECT_enrichment in Hrow.
    destruct (find _ (tbl_idea_enrichment (db s))) as [r |] eqn:Hfind;
      [| congruence].
    apply find_some_key in Hfind as [Hin <-].
    destruct (proj1 (idea_exists_SELECT _ _) (Hfk r Hin)) as [row Hsel].
    rewrite Hsel. discriminate.
  - intro Hrow. unfold SELECT_evaluation in Hrow.
    destruct (find _ (tbl_idea_evaluation (db s))) as [r |] eqn:Hfind;
      [| congruence].
    apply find_some_key in Hfind as [Hin <-].
    destruct (proj1 (idea_exists_SELECT _ _) (Hfk' r Hin)) as [row Hsel].
    rewrite Hsel. discriminate.
Qed.

End Invariants.

(** ** Responses *)

Ltac unfold_loop :=
  cbn [do_call run_statement enrichment_row idea_enrichment.idea_id
       evaluation_row idea_evaluation.idea_id
       exec advance try_catch bind perform await detach of_result do_prim
       park fst snd log pool set_pool draw db draws trace set_db].

(** The responses in the trace of a run, read off the nested [log]s. *)
Ltac read_responses :=
  eexists;
  cbn [db log draw set_db set_pool pool draws trace fst snd];
  rewrite ?responses_app; cbn [responses app];
  rewrite ?app_nil_r; reflexivity.

Section Responses.

Context {JSON_EnrichmentOutput : JSON EnrichmentOutput}
        {JSON_EvaluationOutput : JSON EvaluationOutput}
        {JSON_MarketValidation : JSON MarketValidation}
        {JSON_TechnicalFeasibility : JSON TechnicalFeasibility}
        {JSON_ResourceEstimate : JSON ResourceEstimate}.

Variable w : world.

(** [getEvaluation] only reads. *)
Lemma exec_getEvaluation_state (owner id : string) (s : server) :
  snd (exec w owner (getEvaluation id) s) = s.
Proof.
  unfold getEvaluation. run.
  destruct (SELECT_evaluation id (db s)) as [row |]; [| reflexivity].
  rewrite exec_bind, exec_of_result.
  destruct (JSON_parse (or_else (idea_evaluation.case_study_matches row) "[]"));
    reflexivity.
Qed.

(** A handler sends one response, on every path. *)
Lemma handle_responds (r : request) (s : server) :
  exists resp : response,
    responses (trace (handle w r s)) = (responses (trace s) ++ [resp])%list.
Proof.
  unfold handle. destruct r as [b | id | id | id | id];
    cbn [handler params_id].
  - unfold POST_ideas. rewrite exec_try_catch.
    destruct (falsy (rawText b)); [run; read_responses |].
    rewrite exec_bind, exec_perform. cbn [do_prim fst snd].
    rewrite exec_bind, exec_db_run.
    destruct (run_statement _ _ (db (draw s))); run; read_responses.
  - unfold GET_idea. run.
    destruct (SELECT_idea id (db s)) as [idea |]; run; [| read_responses].
    pose proof (exec_getEnrichment_state w id id s) as Hen.
    destruct (exec w id (getEnrichment id) s) as [[enrichment | m] s1];
      cbn [snd] in Hen; subst s1; cbv beta iota; run; [| read_responses].
    pose proof (exec_getEvaluation_state id id s) as Hev.
    destruct (exec w id (getEvaluation id) s) as [[evaluation | m] s1];
      cbn [snd] in Hev; subst s1; cbv beta iota; run; read_responses.
  - unfold POST_enrich. run.
    destruct (SELECT_idea id (db s)) as [idea |]; run; [| read_responses].
    unfold enrich_task, enrichIdea. unfold_loop. read_responses.
  - unfold POST_evaluate. run.
    destruct (SELECT_idea id (db s)) as [idea |]; run; [| read_responses].
    pose proof (exec_getEnrichment_state w id id s) as Hen.
    destruct (exec w id (getEnrichment id) s) as [[[enrichment |] | m] s1];
      cbn [snd] in Hen; subst s1; cbv beta iota; run;
      [| read_responses | read_responses].
    unfold evaluate_task, evaluateIdea. unfold_loop. read_responses.
  - unfold POST_analyze. run.
    destruct (SELECT_idea id (db s)) as [idea |]; run; [| read_responses].
    unfold analyze_task, enrichIdea. unfold_loop. read_responses.
Qed.

End Responses.

Section Silence.

Context {JSON_EnrichmentOutput : JSON EnrichmentOutput}
        {JSON_EvaluationOutput : JSON EvaluationOutput}
        {JSON_MarketValidation : JSON MarketValidation}
        {JSON_TechnicalFeasibility : JSON TechnicalFeasibility}
        {JSON_ResourceEstimate : JSON ResourceEstimate}.

(** A resumed task of the server sends no response. *)
Lemma resume_silent (w : world) (i : nat) (s : server) :
  pool_obeys sets_stage_status no_response s ->
  responses (trace (resume w i s)) = responses (trace s).
Proof.
  intro Hpool.
  refine (proj1 (resume_obeys sets_stage_status no_response w
                   (fun s' => responses (trace s') = responses (trace s))
                   _ _ _ i s eq_refl Hpool)).
  - intros X c s1 _ H. now rewrite do_call_responses.
  - intros X p s1 Hp H. now rewrite do_prim_responses.
  - intros l s1 H. exact H.
Qed.

(** X9. Every request is answered once, by its handler: after any sequence
    of requests and of resumptions of tasks, in any worlds and from a
    server with nothing in flight, the number of responses sent is the
    number of requests received.  No detached task sends a response, and
    no handler sends two or none. *)
Theorem one_response_per_request (steps : list step) (s0 : server) :
  pool s0 = [] ->
  List.length (responses (trace (run_steps steps s0)))
  = List.length (responses (trace s0))
    + List.length (filter is_request steps).
Proof.
  intro Hnil.
  assert (Hpool : pool_obeys sets_stage_status no_response s0)
    by now apply pool_obeys_nil.
  clear Hnil. revert s0 Hpool.
  induction steps as [| st steps IH]; intros s0 Hpool; cbn [run_steps fold_left filter].
  - cbn. lia.
  - change (fold_left (fun s st => do_step st s) steps (do_step st s0))
      with (run_steps steps (do_step st s0)).
    assert (Hpool' : pool_obeys sets_stage_status no_response (do_step st s0)).
    { apply (reachable_tasks s0); [exact Hpool |].
      destruct st; cbn [do_step]; constructor; constructor. }
    rewrite (IH _ Hpool'). destruct st as [w r | w i]; cbn [do_step is_request].
    + destruct (handle_responds w r s0) as [resp Hresp]. rewrite Hresp.
      rewrite length_app. cbn [List.length]. lia.
    + rewrite resume_silent by exact Hpool. lia.
Qed.

End Silence.

(** ** Requests from the acknowledgment to the end of the task *)

Lemma EnrichmentOutput_eta (e : EnrichmentOutput) :
  {| category := category e;
     complexityScore := complexityScore e;
     marketValidation := marketValidation e;
     technicalFeasibility := technicalFeasibility e;
     resourceEstimate := resourceEstimate e |} = e.
Proof. now destruct e. Qed.

Section EndToEnd.

Context {JSON_EnrichmentOutput : JSON EnrichmentOutput}
        {JSON_EvaluationOutput : JSON EvaluationOutput}
        {JSON_MarketValidation : JSON MarketValidation}
        {JSON_TechnicalFeasibility : JSON TechnicalFeasibility}
        {JSON_ResourceEstimate : JSON ResourceEstimate}.

Variable w : world.

(** A body under a [try] whose handler returns does not throw. *)
Lemma exec_try_catch_returns (owner : string) (p : async unit)
    (h : string -> async unit) (s : server) :
  (forall m s', fst (exec w owner (h m) s') = Ok tt) ->
  fst (exec w owner (try_catch p h) s) = Ok tt.
Proof.
  intro Hh. rewrite exec_try_catch.
  destruct (exec w owner p s) as [[[] | m] s']; [reflexivity | apply Hh].
Qed.

(** X10. No handler and no detached task ever throws: whatever the store,
    the generators and the JSON texts do, the error is caught inside the
    body, which returns; a detached task leaves no rejected promise
    behind. *)
Theorem bodies_never_throw (owner : string) (s : server) :
  (forall r : request, fst (exec w owner (handler r) s) = Ok tt)
  /\ (forall id idea, fst (exec w owner (enrich_task id idea) s) = Ok tt)
  /\ (forall id idea enrichment,
         fst (exec w owner (evaluate_task id idea enrichment) s) = Ok tt)
  /\ (forall id idea, fst (exec w owner (analyze_task id idea) s) = Ok tt).
Proof.
  split; [| split; [| split]].
  - intros [b | id | id | id | id]; cbn [handler];
      apply exec_try_catch_returns; reflexivity.
  - intros id idea. apply exec_try_catch_returns. reflexivity.
  - intros id idea enrichment. apply exec_try_catch_returns. reflexivity.
  - intros id idea. apply exec_try_catch_returns. reflexivity.
Qed.

(** X11. On an identifier that names no idea, each of the four routes
    under /api/ideas/:id answers 404 "Idea not found" and does nothing
    else: no task is started, nothing is logged, the store is not
    written. *)
Theorem unknown_idea_not_found (id : string) (s : server) :
  SELECT_idea id (db s) = None ->
  let not_found :=
    log (ev_response {| res_status := 404;
                        res_body := body_error "Idea not found" |}) s in
  handle w (req_GET_idea id) s = not_found
  /\ handle w (req_POST_enrich id) s = not_found
  /\ handle w (req_POST_evaluate id) s = not_found
  /\ handle w (req_POST_analyze id) s = not_found.
Proof.
  intros Hnone not_found. subst not_found. unfold handle.
  cbn [handler params_id].
  unfold GET_idea, POST_enrich, POST_evaluate, POST_analyze.
  repeat split; run; rewrite Hnone; run; reflexivity.
Qed.

(** The enrichment task when the executor answers. *)
Lemma enrich_task_ok (owner id : string) (idea : ideas.row)
    (enrichment : EnrichmentOutput) (s : server) :
  idea_exists id (db s) = true ->
  enrichIdea_outcome w (ideas.raw_text idea) (ideas.context idea)
  = Ok enrichment ->
  let row := enrichment_row id enrichment (now_at w (draws s)) in
  let p := ENRICHMENT_PROMPT (ideas.raw_text idea) (ideas.context idea) in
  snd (exec w owner (enrich_task id idea) s)
  = log (ev_console_log ("✅ Enrichment completed for idea " ++ id))
      (log (ev_db_run (UPDATE_ideas_SET_status "enriched"
                         (now_at w (S (S (draws s)))) id) true)
         (draw
            (set_db
               (update_status "enriched" (now_at w (S (S (draws s)))) id
                  (put_enrichment row (db s)))
               (draw
                  (log (ev_db_run
                          (INSERT_OR_REPLACE_INTO_idea_enrichment row) true)
                     (draw
                        (set_db (put_enrichment row (db s))
                           (draw
                              (log (ev_generateContent p
                                      (generateContent_result w p)) s))))))))).
Proof.
  intros Hidea Hen row p. subst row p. unfold enrich_task.
  run. run_with Hen. run_with Hidea. reflexivity.
Qed.

(** The task an accepted request parked, run to its end, is the body of the
    task run after the acknowledgment. *)
Lemma complete_POST_enrich (id : string) (idea : ideas.row) (s : server) :
  SELECT_idea id (db s) = Some idea ->
  let ack := {| res_status := 200;
                res_body := body_status "enriching"
                              "Processing enrichment..." |} in
  handle w (req_POST_enrich id) s
  = set_pool (pool s ++ [{| task_idea := id;
                            task_body := enrich_task id idea |}])%list
      (log (ev_response ack) s)
  /\ complete w (List.length (pool s)) (handle w (req_POST_enrich id) s)
     = snd (exec w id (enrich_task id idea) (log (ev_response ack) s)).
Proof.
  intros Hidea ack. subst ack.
  assert (E : handle w (req_POST_enrich id) s
              = set_pool (pool s ++ [{| task_idea := id;
                                        task_body := enrich_task id idea |}])%list
                  (log (ev_response
                          {| res_status := 200;
                             res_body := body_status "enriching"
                                           "Processing enrichment..." |}) s)).
  { unfold handle. cbn [handler params_id]. unfold POST_enrich.
    run. run_with Hidea. reflexivity. }
  split; [exact E |]. rewrite E. unfold complete. cbn [pool set_pool].
  rewrite nth_error_app_length, remove_nth_app_length. reflexivity.
Qed.

Lemma complete_POST_analyze (id : string) (idea : ideas.row) (s : server) :
  SELECT_idea id (db s) = Some idea ->
  let ack := {| res_status := 200;
                res_body := body_status "analyzing"
                  "Running full pipeline: enrichment → evaluation" |} in
  db (handle w (req_POST_analyze id) s) = db s
  /\ events_since s (handle w (req_POST_analyze id) s)
     = [ev_response ack; ev_console_log ("🔄 Enriching idea " ++ id ++ "...")]
  /\ complete w (List.length (pool s)) (handle w (req_POST_analyze id) s)
     = snd (exec w id (analyze_task id idea) (log (ev_response ack) s)).
Proof.
  intros Hidea ack. subst ack.
  unfold handle. cbn [handler params_id]. unfold POST_analyze.
  run. run_with Hidea.
  unfold analyze_task, enrichIdea. unfold_loop.
  split; [reflexivity | split].
  - apply events_since_app.
    cbn [db log draw set_db set_pool pool draws trace fst snd].
    rewrite <- ?app_assoc. reflexivity.
  - unfold complete. cbn [pool set_pool].
    rewrite nth_error_app_length, remove_nth_app_length. reflexivity.
Qed.

Lemma complete_POST_evaluate (id : string) (idea : ideas.row)
    (enrichment : EnrichmentOutput) (s : server) :
  SELECT_idea id (db s) = Some idea ->
  fst (exec w id (getEnrichment id) s) = Ok (Some enrichment) ->
  let ack := {| res_status := 200;
                res_body := body_status "evaluating"
                              "Processing strategic evaluation..." |} in
  handle w (req_POST_evaluate id) s
  = set_pool (pool s ++ [{| task_idea := id;
                            task_body := evaluate_task id idea enrichment |}])%list
      (log (ev_response ack) s)
  /\ complete w (List.length (pool s)) (handle w (req_POST_evaluate id) s)
     = snd (exec w id (evaluate_task id idea enrichment)
              (log (ev_response ack) s)).
Proof.
  intros Hidea Hget ack. subst ack.
  assert (E : handle w (req_POST_evaluate id) s
              = set_pool
                  (pool s ++ [{| task_idea := id;
                                 task_body :=
                                   evaluate_task id idea enrichment |}])%list
                  (log (ev_response
                          {| res_status := 200;
                             res_body := body_status "evaluating"
                               "Processing strategic evaluation..." |}) s)).
  { unfold handle. cbn [handler params_id]. unfold POST_evaluate.
    run. run_with Hidea.
    pose proof (exec_getEnrichment_state w id id s) as Hstate.
    destruct (exec w id (getEnrichment id) s) as [r s0].
    cbn [fst snd] in Hget, Hstate. subst r s0. cbv beta iota. run.
    reflexivity. }
  split; [exact E |]. rewrite E. unfold complete. cbn [pool set_pool].
  rewrite nth_error_app_length, remove_nth_app_length. reflexivity.
Qed.

Lemma SELECT_idea_update_status (status now id : string) (idea : ideas.row)
    (d : Database) :
  SELECT_idea id d = Some idea ->
  SELECT_idea id (update_status status now id d)
  = Some (set_status status now id idea).
Proof.
  intro H. unfold SELECT_idea, update_status in *. cbn [tbl_ideas].
  now rewrite find_set_status, H.
Qed.

Lemma SELECT_enrichment_put (id now : string) (e : EnrichmentOutput)
    (d : Database) :
  SELECT_enrichment id (put_enrichment (enrichment_row id e now) d)
  = Some (enrichment_row id e now).
Proof.
  unfold SELECT_enrichment, put_enrichment. cbn [tbl_idea_enrichment].
  apply (find_replace_enrichment (enrichment_row id e now)).
Qed.

Lemma SELECT_evaluation_put (id now : string) (e : EvaluationOutput)
    (d : Database) :
  SELECT_evaluation id (put_evaluation (evaluation_row id e now) d)
  = Some (evaluation_row id e now).
Proof.
  unfold SELECT_evaluation, put_evaluation. cbn [tbl_idea_evaluation].
  apply (find_replace_evaluation (evaluation_row id e now)).
Qed.

(** X12. An accepted [POST /api/ideas/:id/enrich], from the request to the
    end of its task, when the executor answers: the handler acknowledges
    with 200 "enriching" before anything is written; the task then stores
    the enrichment record of the idea and sets the status to enriched and
    updated_at to the time of the update, whatever the status was before
    (an evaluated or archived idea becomes enriched again); the other
    columns of the idea are as they were and no task stays in flight. *)
Theorem enrich_request_completes (id : string) (idea : ideas.row)
    (enrichment : EnrichmentOutput) (s : server) :
  SELECT_idea id (db s) = Some idea ->
  enrichIdea_outcome w (ideas.raw_text idea) (ideas.context idea)
  = Ok enrichment ->
  let s1 := handle w (req_POST_enrich id) s in
  let s2 := complete w (List.length (pool s)) s1 in
  let row := enrichment_row id enrichment (now_at w (draws s)) in
  let now := now_at w (S (S (draws s))) in
  events_since s s1
  = [ev_response {| res_status := 200;
                    res_body := body_status "enriching"
                                  "Processing enrichment..." |}]
  /\ db s1 = db s
  /\ db s2 = update_status "enriched" now id (put_enrichment row (db s))
  /\ SELECT_enrichment id (db s2) = Some row
  /\ SELECT_idea id (db s2)
     = Some {| ideas.id := ideas.id idea;
               ideas.source := ideas.source idea;
               ideas.raw_text := ideas.raw_text idea;
               ideas.created_at := ideas.created_at idea;
               ideas.context := ideas.context idea;
               ideas.project_hint := ideas.project_hint idea;
               ideas.status := "enriched";
               ideas.updated_at := now |}
  /\ pool s2 = pool s.
Proof.
  intros Hidea Hen s1 s2 row now. subst s1 s2 row now.
  destruct (complete_POST_enrich id idea s Hidea) as [E1 E2].
  pose proof (enrich_task_ok id id idea enrichment
                (log (ev_response
                        {| res_status := 200;
                           res_body := body_status "enriching"
                                         "Processing enrichment..." |}) s)
                (SELECT_idea_exists _ _ _ Hidea) Hen) as Hrun.
  cbv zeta in Hrun. rewrite E2, Hrun, E1.
  cbn [db log draw set_db set_pool pool draws trace].
  split; [| split; [| split; [| split; [| split]]]]; try reflexivity.
  - apply events_since_app. reflexivity.
  - apply SELECT_enrichment_put.
  - rewrite (SELECT_idea_update_status _ _ _ idea) by exact Hidea.
    unfold set_status.
    now rewrite (SELECT_idea_id _ _ _ Hidea), String.eqb_refl.
Qed.

(** The evaluation task when the executor answers, event by event. *)
Lemma evaluate_task_run (owner id : string) (idea : ideas.row)
    (enrichment : EnrichmentOutput) (evaluation : EvaluationOutput)
    (s : server) :
  idea_exists id (db s) = true ->
  evaluateIdea_outcome w (ideas.raw_text idea) enrichment = Ok evaluation ->
  let route := routeIdea (evaluationScore evaluation)
                         (recommendation evaluation) in
  let row := evaluation_row id evaluation (now_at w (draws s)) in
  let now := now_at w (S (S (draws s))) in
  let p := EVALUATION_PROMPT (ideas.raw_text idea) enrichment in
  let s' := snd (exec w owner (evaluate_task id idea enrichment) s) in
  events_since s s'
  = [ev_messages_create p (messages_create_result w p);
     ev_db_run (INSERT_OR_REPLACE_INTO_idea_evaluation row) true;
     ev_db_run (UPDATE_ideas_SET_status (newStatus route) now id) true;
     ev_console_log
       ("✅ Evaluation completed for idea " ++ id ++ ". Route: "
        ++ RouteDecision_to_string route ++ ", Status: "
        ++ newStatus route)]
  /\ db s' = update_status (newStatus route) now id
               (put_evaluation row (db s))
  /\ pool s' = pool s.
Proof.
  intros Hidea Hev route row now p s'. subst route row now p s'.
  unfold evaluate_task. run. run_with Hev. run_with Hidea.
  split; [| now split].
  apply events_since_app.
  cbn [db log draw set_db pool draws trace fst snd].
  rewrite <- ?app_assoc. reflexivity.
Qed.

(** X13. An accepted [POST /api/ideas/:id/evaluate], from the request to
    the end of its task, when the executor answers: the handler
    acknowledges with 200 "evaluating" before anything is written; the
    task asks the generator with the prompt built from the idea's text and
    the enrichment READ FROM THE STORE, stores the evaluation record, and
    sets the status of the idea to the status of the route of that
    evaluation; the enrichment records are untouched and no task stays in
    flight. *)
Theorem evaluate_request_completes (id : string) (idea : ideas.row)
    (enrichment : EnrichmentOutput) (evaluation : EvaluationOutput)
    (s : server) :
  SELECT_idea id (db s) = Some idea ->
  fst (exec w id (getEnrichment id) s) = Ok (Some enrichment) ->
  evaluateIdea_outcome w (ideas.raw_text idea) enrichment = Ok evaluation ->
  let s1 := handle w (req_POST_evaluate id) s in
  let s2 := complete w (List.length (pool s)) s1 in
  let route := routeIdea (evaluationScore evaluation)
                         (recommendation evaluation) in
  let row := evaluation_row id evaluation (now_at w (draws s)) in
  let now := now_at w (S (S (draws s))) in
  let p := EVALUATION_PROMPT (ideas.raw_text idea) enrichment in
  events_since s s1
  = [ev_response {| res_status := 200;
                    res_body := body_status "evaluating"
                                  "Processing strategic evaluation..." |}]
  /\ db s1 = db s
  /\ events_since s1 s2
     = [ev_messages_create p (messages_create_result w p);
        ev_db_run (INSERT_OR_REPLACE_INTO_idea_evaluation row) true;
        ev_db_run (UPDATE_ideas_SET_status (newStatus route) now id) true;
        ev_console_log
          ("✅ Evaluation completed for idea " ++ id ++ ". Route: "
           ++ RouteDecision_to_string route ++ ", Status: "
           ++ newStatus route)]
  /\ SELECT_evaluation id (db s2) = Some row
  /\ status_of id (db s2) = Some (newStatus route)
  /\ tbl_idea_enrichment (db s2) = tbl_idea_enrichment (db s)
  /\ pool s2 = pool s.
Proof.
  intros Hidea Hget Hev s1 s2 route row now p.
  subst s1 s2 route row now p.
  destruct (complete_POST_evaluate id idea enrichment s Hidea Hget)
    as [E1 E2].
  assert (Hex := SELECT_idea_exists _ _ _ Hidea).
  destruct (evaluate_task_run id id idea enrichment evaluation
              (log (ev_response
                      {| res_status := 200;
                         res_body := body_status "evaluating"
                           "Processing strategic evaluation..." |}) s)
              Hex Hev) as (Hevents & Hdb & Hpool).
  rewrite E2. rewrite E1 at 1 2 3.
  split; [| split; [| split; [| split; [| split; [| split]]]]].
  - apply events_since_app. reflexivity.
  - reflexivity.
  - exact Hevents.
  - rewrite Hdb. cbn [db log draws]. unfold SELECT_evaluation, update_status.
    cbn [tbl_idea_evaluation]. apply SELECT_evaluation_put.
  - rewrite Hdb. apply status_of_update_status.
    now rewrite idea_exists_put_evaluation.
  - rewrite Hdb. reflexivity.
  - exact Hpool.
Qed.

(** [getEnrichment] on the row [saveEnrichment] wrote, when the JSON texts
    of the three nested objects carry them. *)
Lemma exec_getEnrichment_row (owner id now : string) (e : EnrichmentOutput)
    (s : server) :
  SELECT_enrichment id (db s) = Some (enrichment_row id e now) ->
  enrichment_round_trips e ->
  exec w owner (getEnrichment id) s = (Ok (Some e), s).
Proof.
  intros Hrow (Hmv & Htf & Hre). unfold round_trips in *.
  unfold getEnrichment.
  rewrite exec_bind, exec_await. cbn [do_call]. rewrite Hrow.
  cbn [enrichment_row idea_enrichment.market_validation
       idea_enrichment.technical_feasibility
       idea_enrichment.resource_estimate idea_enrichment.category
       idea_enrichment.complexity_score].
  rewrite exec_bind, exec_of_result, Hmv.
  rewrite exec_bind, exec_of_result, Htf.
  rewrite exec_bind, exec_of_result, Hre.
  cbn [exec]. now rewrite EnrichmentOutput_eta.
Qed.

(** X14. What was saved is what is read: after [saveEnrichment] of an
    enrichment whose three nested objects survive their JSON text,
    [getEnrichment] returns that enrichment, field by field, and leaves the
    server as the save left it. *)
Theorem enrichment_roundtrip (owner id : string) (e : EnrichmentOutput)
    (s : server) :
  idea_exists id (db s) = true ->
  enrichment_round_trips e ->
  exec w owner (saveEnrichment id e ;; getEnrichment id) s
  = (Ok (Some e), snd (exec w owner (saveEnrichment id e) s)).
Proof.
  intros Hidea Hjson.
  rewrite exec_bind, exec_saveEnrichment. cbv zeta. rewrite Hidea.
  cbn [snd].
  apply exec_getEnrichment_row with (now := now_at w (draws s));
    [| exact Hjson].
  cbn [db log draw set_db]. apply SELECT_enrichment_put.
Qed.

End EndToEnd.

Section ReadBack.

Context {JSON_EnrichmentOutput : JSON EnrichmentOutput}
        {JSON_EvaluationOutput : JSON EvaluationOutput}
        {JSON_MarketValidation : JSON MarketValidation}
        {JSON_TechnicalFeasibility : JSON TechnicalFeasibility}
        {JSON_ResourceEstimate : JSON ResourceEstimate}.

(** X15. After a full pipeline in which both executors answered,
    [GET /api/ideas/:id] (in any world) answers 200 with the idea under the
    status of the route, the enrichment the executor produced (its nested
    objects surviving their JSON text) and the evaluation the executor
    produced with its rationale replaced by its jtbdAnalysis. *)
Theorem analyze_then_get (w w' : world) (id : string) (idea : ideas.row)
    (enrichment : EnrichmentOutput) (evaluation : EvaluationOutput)
    (s : server) :
  SELECT_idea id (db s) = Some idea ->
  enrichIdea_outcome w (ideas.raw_text idea) (ideas.context idea)
  = Ok enrichment ->
  evaluateIdea_outcome w (ideas.raw_text idea) enrichment = Ok evaluation ->
  enrichment_round_trips enrichment ->
  let s1 := handle w (req_POST_analyze id) s in
  let s2 := complete w (List.length (pool s)) s1 in
  let s3 := handle w' (req_GET_idea id) s2 in
  let route := routeIdea (evaluationScore evaluation)
                         (recommendation evaluation) in
  db s1 = db s
  /\ pool s2 = pool s
  /\ db s3 = db s2
  /\ events_since s2 s3
     = [ev_response
          {| res_status := 200;
             res_body :=
               body_idea
                 {| ideas.id := ideas.id idea;
                    ideas.source := ideas.source idea;
                    ideas.raw_text := ideas.raw_text idea;
                    ideas.created_at := ideas.created_at idea;
                    ideas.context := ideas.context idea;
                    ideas.project_hint := ideas.project_hint idea;
                    ideas.status := newStatus route;
                    ideas.updated_at :=
                      now_at w (S (S (S (S (draws s))))) |}
                 (Some enrichment)
                 (Some (with_rationale (jtbdAnalysis evaluation)
                                       evaluation)) |}].
Proof.
  intros Hidea Hen Hev Hjson s1 s2 s3 route. subst s1 s2 s3 route.
  destruct (complete_POST_analyze w id idea s Hidea) as (Hdb1 & _ & E).
  assert (Hex := SELECT_idea_exists _ _ _ Hidea).
  destruct (analyze_task_ok w id id idea enrichment evaluation
              (log (ev_response
                      {| res_status := 200;
                         res_body := body_status "analyzing"
                           "Running full pipeline: enrichment → evaluation"
                      |}) s)
              Hex Hen Hev) as (Hdb & Hpool).
  rewrite E. cbn [db log draws pool] in Hdb, Hpool.
  split; [exact Hdb1 | split; [exact Hpool |]].
  set (s2 := snd (exec w id (analyze_task id idea) _)) in *.
  assert (Hsel : SELECT_idea id (db s2)
                 = Some (set_status
                           (newStatus (routeIdea (evaluationScore evaluation)
                                         (recommendation evaluation)))
                           (now_at w (S (S (S (S (draws s)))))) id idea)).
  { rewrite Hdb. apply SELECT_idea_update_status. exact Hidea. }
  assert (Hrow : SELECT_enrichment id (db s2)
                 = Some (enrichment_row id enrichment (now_at w (draws s)))).
  { rewrite Hdb. unfold SELECT_enrichment, update_status, put_evaluation.
    cbn [tbl_idea_enrichment]. apply SELECT_enrichment_put. }
  assert (Hrow' : SELECT_evaluation id (db s2)
                  = Some (evaluation_row id evaluation
                            (now_at w (S (S (draws s)))))).
  { rewrite Hdb. unfold SELECT_evaluation, update_status.
    cbn [tbl_idea_evaluation]. apply SELECT_evaluation_put. }
  assert (E3 : handle w' (req_GET_idea id) s2
               = log (ev_response
                        {| res_status := 200;
                           res_body :=
                             body_idea
                               (set_status
                                  (newStatus
                                     (routeIdea (evaluationScore evaluation)
                                        (recommendation evaluation)))
                                  (now_at w (S (S (S (S (draws s)))))) id idea)
                               (Some enrichment)
                               (Some (with_rationale (jtbdAnalysis evaluation)
                                        evaluation)) |}) s2).
  { unfold handle. cbn [handler params_id]. unfold GET_idea.
    run. run_with Hsel.
    rewrite (exec_getEnrichment_row w' id id _ enrichment s2 Hrow Hjson).
    cbv beta iota. rewrite exec_bind.
    rewrite (exec_getEvaluation_row w' id id _ evaluation s2 Hrow').
    cbv beta iota. run. reflexivity. }
  rewrite E3. split; [reflexivity |].
  apply events_since_app. cbn [trace log]. unfold set_status.
  now rewrite (SELECT_idea_id _ _ _ Hidea), String.eqb_refl.
Qed.

End ReadBack.

(** ** Reading the store *)

Section Reading.

Context {JSON_EnrichmentOutput : JSON EnrichmentOutput}
        {JSON_EvaluationOutput : JSON EvaluationOutput}
        {JSON_MarketValidation : JSON MarketValidation}
        {JSON_TechnicalFeasibility : JSON TechnicalFeasibility}
        {JSON_ResourceEstimate : JSON ResourceEstimate}.

Variable w : world.

(** [getEnrichment] throws on a stored row only. *)
Lemma getEnrichment_throws_on_row (owner id m : string) (s : server) :
  fst (exec w owner (getEnrichment id) s) = Err m ->
  exists row, SELECT_enrichment id (db s) = Some row.
Proof.
  unfold getEnrichment. rewrite exec_bind, exec_await. cbn [do_call].
  destruct (SELECT_enrichment id (db s)) as [row |]; [now exists row |].
  discriminate.
Qed.

(** X16. An enrichment record whose JSON text cannot be parsed makes the
    idea unreadable: [GET /api/ideas/:id] and
    [POST /api/ideas/:id/evaluate] answer 500 with the error of the parser
    and do nothing else (no acknowledgment, no task, no write); such an
    error comes from a stored record only. *)
Theorem unreadable_enrichment_answers_500 (id m : string) (idea : ideas.row)
    (s : server) :
  SELECT_idea id (db s) = Some idea ->
  fst (exec w id (getEnrichment id) s) = Err m ->
  let failed :=
    log (ev_response {| res_status := 500; res_body := body_error m |}) s in
  handle w (req_GET_idea id) s = failed
  /\ handle w (req_POST_evaluate id) s = failed
  /\ exists row, SELECT_enrichment id (db s) = Some row.
Proof.
  intros Hidea Hget failed. subst failed.
  pose proof (exec_getEnrichment_state w id id s) as Hstate.
  split; [| split].
  - unfold handle. cbn [handler params_id]. unfold GET_idea.
    run. run_with Hidea.
    destruct (exec w id (getEnrichment id) s) as [r s0].
    cbn [fst snd] in Hget, Hstate. subst r s0. cbv beta iota. run.
    reflexivity.
  - unfold handle. cbn [handler params_id]. unfold POST_evaluate.
    run. run_with Hidea.
    destruct (exec w id (getEnrichment id) s) as [r s0].
    cbn [fst snd] in Hget, Hstate. subst r s0. cbv beta iota. run.
    reflexivity.
  - exact (getEnrichment_throws_on_row id id m s Hget).
Qed.

(** X17. An evaluation record whose case_study_matches column is empty is
    read as an evaluation without case studies ([|| '[]']), the other
    fields taken from the row and the rationale from jtbd_analysis;
    [getEvaluation] leaves the server as it was. *)
Theorem getEvaluation_without_case_studies (owner id : string)
    (row : idea_evaluation.row) (s : server) :
  SELECT_evaluation id (db s) = Some row ->
  idea_evaluation.case_study_matches row = "" ->
  exec w owner (getEvaluation id) s
  = (Ok (Some {| jtbdAnalysis := idea_evaluation.jtbd_analysis row;
                 disruptionScore := idea_evaluation.disruption_score row;
                 capabilitiesFit := idea_evaluation.capabilities_fit row;
                 recommendation :=
                   idea_evaluation.strategic_recommendation row;
                 caseStudyMatches := [];
                 evaluationScore := idea_evaluation.evaluation_score row;
                 rationale := idea_evaluation.jtbd_analysis row |}), s).
Proof.
  intros Hrow Hempty. unfold getEvaluation.
  rewrite exec_bind, exec_await. cbn [do_call]. rewrite Hrow.
  rewrite exec_bind, exec_of_result, Hempty. reflexivity.
Qed.

Lemma find_first {A : Type} (f : A -> bool) (pre post : list A) (x : A) :
  Forall (fun y => f y = false) pre -> f x = true ->
  find f (pre ++ x :: post)%list = Some x.
Proof.
  intros Hpre Hx. induction Hpre as [| y pre Hy _ IH]; cbn.
  - now rewrite Hx.
  - now rewrite Hy.
Qed.

Lemma find_none_all {A : Type} (f : A -> bool) (l : list A) :
  Forall (fun y => f y = false) l -> find f l = None.
Proof.
  intro H. induction H as [| y l Hy _ IH]; cbn; [reflexivity |].
  now rewrite Hy.
Qed.

(** X18. The evaluation executor reads the first block of type text of the
    answer, whatever comes before and after it, and parses its text as the
    evaluation; an answer without such a block, a failure of the generator
    and a text that is not JSON are thrown as "Failed to evaluate idea: "
    followed by the cause.  The executor touches neither the store nor the
    tasks in flight. *)
Theorem evaluateIdea_reads_first_text_block (owner idea : string)
    (enrichedData : EnrichmentOutput) (s : server) :
  let p := EVALUATION_PROMPT idea enrichedData in
  let run := exec w owner (evaluateIdea idea enrichedData) s in
  (forall (pre post : list content_block) (block : content_block),
      messages_create_result w p = Ok (pre ++ block :: post)%list ->
      Forall (fun b => block_type b <> "text") pre ->
      block_type block = "text" ->
      fst run = match JSON_parse (block_text block) with
                | Ok evaluationData => Ok evaluationData
                | Err m => Err ("Failed to evaluate idea: " ++ m)
                end)
  /\ (forall content : list content_block,
         messages_create_result w p = Ok content ->
         Forall (fun b => block_type b <> "text") content ->
         fst run = Err "Failed to evaluate idea: No text response from Claude")
  /\ (forall m : string,
         messages_create_result w p = Err m ->
         fst run = Err ("Failed to evaluate idea: " ++ m))
  /\ db (snd run) = db s /\ pool (snd run) = pool s
  /\ draws (snd run) = draws s.
Proof.
  cbv zeta. rewrite exec_evaluateIdea. cbv zeta. unfold evaluateIdea_outcome.
  split; [| split; [| split]].
  - intros pre post block Hres Hpre Htext. rewrite Hres.
    rewrite (find_first _ pre post block).
    + now destruct (JSON_parse (block_text block)).
    + revert Hpre. apply Forall_impl. intros b Hb.
      now apply String.eqb_neq.
    + now apply String.eqb_eq.
  - intros content Hres Hnone. rewrite Hres.
    rewrite find_none_all; [reflexivity |].
    revert Hnone. apply Forall_impl. intros b Hb. now apply String.eqb_neq.
  - intros m Hres. now rewrite Hres.
  - destruct (match messages_create_result w (EVALUATION_PROMPT idea enrichedData)
              with
              | Ok content =>
                  match find (fun block => String.eqb (block_type block) "text")
                             content with
                  | Some textContent => JSON_parse (block_text textContent)
                  | None => Err "No text response from Claude"
                  end
              | Err m => Err m
              end); now repeat split.
Qed.

(** A fresh identifier has no stage record, by the foreign keys. *)
Lemma fresh_idea_has_no_record (id : string) (d : Database) :
  constraints_hold d -> idea_exists id d = false ->
  SELECT_enrichment id d = None /\ SELECT_evaluation id d = None.
Proof.
  intros (_ & _ & _ & Hfk & Hfk') Hfresh.
  unfold SELECT_enrichment, SELECT_evaluation. split.
  - destruct (find _ (tbl_idea_enrichment d)) as [r |] eqn:Hfind;
      [| reflexivity].
    apply find_some_key in Hfind as [Hin <-].
    rewrite (Hfk r Hin) in Hfresh. discriminate.
  - destruct (find _ (tbl_idea_evaluation d)) as [r |] eqn:Hfind;
      [| reflexivity].
    apply find_some_key in Hfind as [Hin <-].
    rewrite (Hfk' r Hin) in Hfresh. discriminate.
Qed.

Lemma exec_getEvaluation_none (owner id : string) (s : server) :
  SELECT_evaluation id (db s) = None ->
  exec w owner (getEvaluation id) s = (Ok None, s).
Proof.
  intro H. unfold getEvaluation. run. rewrite H. reflexivity.
Qed.

End Reading.

Section Creation.

Context {JSON_EnrichmentOutput : JSON EnrichmentOutput}
        {JSON_EvaluationOutput : JSON EvaluationOutput}
        {JSON_MarketValidation : JSON MarketValidation}
        {JSON_TechnicalFeasibility : JSON TechnicalFeasibility}
        {JSON_ResourceEstimate : JSON ResourceEstimate}.

(** [POST /api/ideas] with a text, the identifier drawn being fresh. *)
Lemma POST_ideas_inserts (w : world) (req_body : CreateIdeaBody)
    (text : string) (s : server) :
  rawText req_body = Some text -> text <> "" ->
  idea_exists (uuid_at w (draws s)) (db s) = false ->
  db (handle w (req_POST_ideas req_body) s)
  = insert_idea
      {| ideas.id := uuid_at w (draws s);
         ideas.source := "manual";
         ideas.raw_text := text;
         ideas.created_at := CURRENT_TIMESTAMP_at w (S (draws s));
         ideas.context := or_null (body_context req_body);
         ideas.project_hint := or_null (projectHint req_body);
         ideas.status := "pending";
         ideas.updated_at := CURRENT_TIMESTAMP_at w (S (draws s)) |} (db s)
  /\ pool (handle w (req_POST_ideas req_body) s) = pool s.
Proof.
  intros Htext Hne Hfresh.
  assert (Hfalsy : falsy (rawText req_body) = false).
  { rewrite Htext. cbn. now apply String.eqb_neq. }
  unfold handle. cbn [handler params_id]. unfold POST_ideas.
  run. rewrite Hfalsy.
  rewrite exec_bind, exec_perform. cbn [do_prim fst snd].
  rewrite exec_bind, exec_db_run, Htext.
  cbn [run_statement draw draws db]. rewrite Hfresh. run. now split.
Qed.

(** X19. An idea just created is served: after an accepted
    [POST /api/ideas], [GET /api/ideas/:id] on the identifier returned
    answers 200 with the idea as stored (the text sent, source manual,
    status pending, context and project hint as sent or null) and with
    neither an enrichment nor an evaluation, the schema constraints
    holding in the store. *)
Theorem created_idea_is_served (w w' : world) (req_body : CreateIdeaBody)
    (text : string) (s : server) :
  constraints_hold (db s) ->
  rawText req_body = Some text -> text <> "" ->
  idea_exists (uuid_at w (draws s)) (db s) = false ->
  let ideaId := uuid_at w (draws s) in
  let s1 := handle w (req_POST_ideas req_body) s in
  let s2 := handle w' (req_GET_idea ideaId) s1 in
  s2 = log (ev_response
              {| res_status := 200;
                 res_body :=
                   body_idea
                     {| ideas.id := ideaId;
                        ideas.source := "manual";
                        ideas.raw_text := text;
                        ideas.created_at :=
                          CURRENT_TIMESTAMP_at w (S (draws s));
                        ideas.context := or_null (body_context req_body);
                        ideas.project_hint :=
                          or_null (projectHint req_body);
                        ideas.status := "pending";
                        ideas.updated_at :=
                          CURRENT_TIMESTAMP_at w (S (draws s)) |}
                     None None |}) s1.
Proof.
  intros Hcon Htext Hne Hfresh ideaId s1 s2. subst ideaId s1 s2.
  destruct (POST_ideas_inserts w req_body text s Htext Hne Hfresh)
    as [Hdb _].
  set (s1 := handle w (req_POST_ideas req_body) s) in *.
  destruct (fresh_idea_has_no_record _ _ Hcon Hfresh) as [Hen Hev].
  assert (Hsel : SELECT_idea (uuid_at w (draws s)) (db s1)
                 = Some {| ideas.id := uuid_at w (draws s);
                           ideas.source := "manual";
                           ideas.raw_text := text;
                           ideas.created_at :=
                             CURRENT_TIMESTAMP_at w (S (draws s));
                           ideas.context := or_null (body_context req_body);
                           ideas.project_hint :=
                             or_null (projectHint req_body);
                           ideas.status := "pending";
                           ideas.updated_at :=
                             CURRENT_TIMESTAMP_at w (S (draws s)) |}).
  { rewrite Hdb. unfold SELECT_idea, insert_idea. cbn [tbl_ideas].
    apply find_app_last; [exact Hfresh | apply String.eqb_refl]. }
  assert (Hen1 : SELECT_enrichment (uuid_at w (draws s)) (db s1) = None)
    by (rewrite Hdb; exact Hen).
  assert (Hev1 : SELECT_evaluation (uuid_at w (draws s)) (db s1) = None)
    by (rewrite Hdb; exact Hev).
  unfold handle at 1. cbn [handler params_id]. unfold GET_idea.
  run. run_with Hsel.
  rewrite exec_getEnrichment_none by exact Hen1. cbv beta iota.
  rewrite exec_bind, exec_getEvaluation_none by exact Hev1.
  cbv beta iota. run. reflexivity.
Qed.

End Creation.

(** ** Tasks end *)

Ltac count_awaits :=
  repeat first
    [ exact I
    | progress cbn [ends_within bind try_catch await perform of_result]
    | match goal with
      | |- forall _, _ => intro
      | |- context [of_result ?r] => destruct r
      | |- context [match ?r with _ => _ end] => destruct r
      end ].

(** The synchronous part of a body that detaches nothing parks nothing. *)
Lemma advance_ends_within {A : Type} (w : world) (owner : string) (n : nat)
    (p : async A) (s : server) :
  ends_within n p ->
  ends_within n (fst (advance w owner p s))
  /\ pool (snd (advance w owner p s)) = pool s.
Proof.
  revert s.
  induction p as [A a | A m | A X c k IH | A X c k IH | A b _ k _];
    intros s H; cbn [advance fst snd]; try (now split).
  - pose proof (pool_do_prim w c s) as Hp.
    destruct (do_prim w c s) as [x s']. cbn [snd] in Hp.
    destruct (IH x s' (H x)) as [H1 H2]. split; [exact H1 |].
    now rewrite H2.
Qed.

(** Settling the promise of the task parked last ends the task or leaves
    it suspended with one promise less to await. *)
Lemma resume_suspended (w : world) (n : nat) (l : list task) (t : task)
    (s : server) :
  pool s = (l ++ [t])%list ->
  suspended_within n (task_body t) ->
  pool (resume w (List.length l) s) = l
  \/ (exists n' t', n = S n'
                    /\ pool (resume w (List.length l) s) = (l ++ [t'])%list
                    /\ suspended_within n' (task_body t')).
Proof.
  intros Hpool Ht. unfold resume.
  rewrite Hpool, nth_error_app_length, remove_nth_app_length.
  destruct (task_body t) as [a | m | X c k | X p k | b k];
    try (now destruct Ht).
  cbn [suspended_within] in Ht.
  pose proof (pool_do_call w c (set_pool l s)) as Hc.
  destruct (do_call w c (set_pool l s)) as [r s1]. cbn [snd] in Hc.
  destruct (advance_ends_within w (task_idea t) n (k r) s1 (Ht r))
    as [Hb Hp].
  destruct (advance w (task_idea t) (k r) s1) as [b s2].
  cbn [fst snd] in Hb, Hp.
  assert (Hl : pool s2 = l) by (rewrite Hp, Hc; reflexivity).
  destruct b as [a | m | X' c' k' | X' p' k' | b' k']; cbn [park];
    try (now left).
  right. destruct n as [| n']; [destruct Hb |].
  exists n'. eexists. split; [reflexivity |].
  cbn [pool set_pool]. rewrite Hl. split; [reflexivity | exact Hb].
Qed.

Section TasksEnd.

Context {JSON_EnrichmentOutput : JSON EnrichmentOutput}
        {JSON_EvaluationOutput : JSON EvaluationOutput}
        {JSON_MarketValidation : JSON MarketValidation}
        {JSON_TechnicalFeasibility : JSON TechnicalFeasibility}
        {JSON_ResourceEstimate : JSON ResourceEstimate}.

(** With no task at position [length l], settlements there do nothing to
    the pool. *)
Lemma settlements_idle (l : list task) (ws : list world) (s : server) :
  pool s = l -> pool (run_steps (settlements (List.length l) ws) s) = l.
Proof.
  revert s. induction ws as [| w ws IH]; intros s Hpool; [exact Hpool |].
  cbn [settlements map run_steps fold_left do_step]. apply IH.
  unfold resume. rewrite Hpool.
  assert (Hnone : nth_error l (List.length l) = None)
    by (apply nth_error_None; lia).
  now rewrite Hnone.
Qed.

(** A task suspended with at most [n] more promises to await is over once
    [S n] promises were settled for it. *)
Lemma settlements_end (n : nat) (l : list task) (ws : list world) :
  forall (t : task) (s : server),
    pool s = (l ++ [t])%list ->
    suspended_within n (task_body t) ->
    List.length ws = S n ->
    pool (run_steps (settlements (List.length l) ws) s) = l.
Proof.
  revert ws. induction n as [| n IH]; intros ws t s Hpool Ht Hlen;
    (destruct ws as [| w ws]; [discriminate Hlen |]);
    cbn [settlements map run_steps fold_left do_step];
    destruct (resume_suspended w _ l t s Hpool Ht)
      as [Hend | (n' & t' & Hn & Hpool' & Ht')].
  - now apply settlements_idle.
  - discriminate Hn.
  - now apply settlements_idle.
  - injection Hn as <-. apply (IH ws t'); try assumption.
    cbn [List.length] in Hlen. lia.
Qed.

Lemma enrich_task_suspended (id : string) (idea : ideas.row) :
  suspended_within 2 (enrich_task id idea).
Proof.
  unfold enrich_task, enrichIdea, saveEnrichment. cbn [suspended_within
    try_catch bind await]. count_awaits.
Qed.

Lemma evaluate_task_suspended (id : string) (idea : ideas.row)
    (enrichment : EnrichmentOutput) :
  suspended_within 2 (evaluate_task id idea enrichment).
Proof.
  unfold evaluate_task, evaluateIdea, saveEvaluation. cbn [suspended_within
    try_catch bind await]. count_awaits.
Qed.

(** X20. No task stays in flight for ever: the task an accepted request
    started is over, and out of the pool, once the promises it awaits have
    been settled three times for [/enrich] and [/evaluate] (the generator,
    the record, the status) and five times for [/analyze], whatever the
    promises settle to. *)
Theorem accepted_tasks_end (w : world) (id : string) (idea : ideas.row)
    (ws : list world) (s : server) :
  SELECT_idea id (db s) = Some idea ->
  let settle := run_steps (settlements (List.length (pool s)) ws) in
  (List.length ws = 3 ->
   pool (settle (handle w (req_POST_enrich id) s)) = pool s)
  /\ (List.length ws = 5 ->
      pool (settle (handle w (req_POST_analyze id) s)) = pool s)
  /\ (forall enrichment : EnrichmentOutput,
         fst (exec w id (getEnrichment id) s) = Ok (Some enrichment) ->
         List.length ws = 3 ->
         pool (settle (handle w (req_POST_evaluate id) s)) = pool s).
Proof.
  intros Hidea settle. subst settle. split; [| split].
  - intro Hlen.
    rewrite (proj1 (complete_POST_enrich w id idea s Hidea)).
    eapply settlements_end with (n := 2);
      [reflexivity | apply enrich_task_suspended | exact Hlen].
  - intro Hlen. unfold handle. cbn [handler params_id]. unfold POST_analyze.
    run. run_with Hidea.
    unfold analyze_task, enrichIdea, evaluateIdea, saveEnrichment,
      saveEvaluation.
    unfold_loop.
    eapply settlements_end with (n := 4); [reflexivity | | exact Hlen].
    cbn [task_body suspended_within]. count_awaits.
  - intros enrichment Hget Hlen.
    rewrite (proj1 (complete_POST_evaluate w id idea enrichment s Hidea
                      Hget)).
    eapply settlements_end with (n := 2);
      [reflexivity | apply evaluate_task_suspended | exact Hlen].
Qed.

End TasksEnd.

(** ** The two requests of the pipeline, one after the other *)

Section Composition.

Context {JSON_EnrichmentOutput : JSON EnrichmentOutput}
        {JSON_EvaluationOutput : JSON EvaluationOutput}
        {JSON_MarketValidation : JSON MarketValidation}
        {JSON_TechnicalFeasibility : JSON TechnicalFeasibility}
        {JSON_ResourceEstimate : JSON ResourceEstimate}.

Lemma raw_text_set_status (status now id : string) (r : ideas.row) :
  ideas.raw_text (set_status status now id r) = ideas.raw_text r.
Proof. unfold set_status. now destruct (String.eqb (ideas.id r) id). Qed.

(** X21. [/enrich] then [/evaluate], each run to the end of its task with
    its executor answering: the second request is accepted, its executor
    is asked about the enrichment the first one produced (the nested
    objects surviving their JSON text), and the idea ends under the status
    of the route with both records in store and nothing in flight; in
    between its status is enriched. *)
Theorem enrich_then_evaluate (w w' : world) (id : string) (idea : ideas.row)
    (enrichment : EnrichmentOutput) (evaluation : EvaluationOutput)
    (s : server) :
  SELECT_idea id (db s) = Some idea ->
  enrichIdea_outcome w (ideas.raw_text idea) (ideas.context idea)
  = Ok enrichment ->
  enrichment_round_trips enrichment ->
  evaluateIdea_outcome w' (ideas.raw_text idea) enrichment = Ok evaluation ->
  let s2 := complete w (List.length (pool s))
              (handle w (req_POST_enrich id) s) in
  let s3 := handle w' (req_POST_evaluate id) s2 in
  let s4 := complete w' (List.length (pool s)) s3 in
  let route := routeIdea (evaluationScore evaluation)
                         (recommendation evaluation) in
  let p := EVALUATION_PROMPT (ideas.raw_text idea) enrichment in
  status_of id (db s2) = Some "enriched"
  /\ responses (events_since s2 s3)
     = [{| res_status := 200;
           res_body := body_status "evaluating"
                         "Processing strategic evaluation..." |}]
  /\ In (ev_messages_create p (messages_create_result w' p))
        (events_since s3 s4)
  /\ status_of id (db s4) = Some (newStatus route)
  /\ SELECT_enrichment id (db s4)
     = Some (enrichment_row id enrichment (now_at w (draws s)))
  /\ SELECT_evaluation id (db s4)
     = Some (evaluation_row id evaluation (now_at w' (draws s2)))
  /\ pool s4 = pool s.
Proof.
  intros Hidea Hen Hjson Hev s2 s3 s4 route p.
  subst s3 s4 route p.
  assert (Hex := SELECT_idea_exists _ _ _ Hidea).
  (* the first request *)
  destruct (complete_POST_enrich w id idea s Hidea) as [_ E2].
  pose proof (enrich_task_ok w id id idea enrichment
                (log (ev_response
                        {| res_status := 200;
                           res_body := body_status "enriching"
                                         "Processing enrichment..." |}) s)
                Hex Hen) as Hrun.
  cbv zeta in Hrun. rewrite <- E2 in Hrun. fold s2 in Hrun.
  assert (Hdb2 : db s2
                 = update_status "enriched" (now_at w (S (S (draws s)))) id
                     (put_enrichment
                        (enrichment_row id enrichment (now_at w (draws s)))
                        (db s)))
    by (rewrite Hrun; reflexivity).
  assert (Hpool2 : pool s2 = pool s) by (rewrite Hrun; reflexivity).
  clearbody s2. clear Hrun E2.
  set (idea' := set_status "enriched" (now_at w (S (S (draws s)))) id idea).
  assert (Hidea2 : SELECT_idea id (db s2) = Some idea')
    by (rewrite Hdb2; now apply SELECT_idea_update_status).
  assert (Hrow2 : SELECT_enrichment id (db s2)
                  = Some (enrichment_row id enrichment (now_at w (draws s)))).
  { rewrite Hdb2. unfold SELECT_enrichment, update_status.
    cbn [tbl_idea_enrichment]. apply SELECT_enrichment_put. }
  assert (Hget : fst (exec w' id (getEnrichment id) s2)
                 = Ok (Some enrichment))
    by now rewrite (exec_getEnrichment_row w' id id _ enrichment s2 Hrow2).
  (* the second request *)
  destruct (complete_POST_evaluate w' id idea' enrichment s2 Hidea2 Hget)
    as [E3 E4].
  rewrite <- Hpool2. rewrite E4.
  assert (Hev' : evaluateIdea_outcome w' (ideas.raw_text idea') enrichment
                 = Ok evaluation)
    by (unfold idea'; now rewrite raw_text_set_status).
  destruct (evaluate_task_run w' id id idea' enrichment evaluation
              (log (ev_response
                      {| res_status := 200;
                         res_body := body_status "evaluating"
                           "Processing strategic evaluation..." |}) s2)
              (SELECT_idea_exists _ _ _ Hidea2) Hev')
    as (Hevents & Hdb4 & Hpool4).
  cbn [db log draws pool] in Hdb4, Hpool4.
  split; [| split; [| split; [| split; [| split; [| split]]]]].
  - rewrite Hdb2. apply status_of_update_status.
    now rewrite idea_exists_put_enrichment.
  - rewrite E3. erewrite events_since_app; [| reflexivity]. reflexivity.
  - rewrite E3.
    assert (Hsince : forall l st,
               events_since (set_pool l st) = events_since st)
      by reflexivity.
    rewrite Hsince, Hevents. unfold idea'. rewrite raw_text_set_status.
    now left.
  - rewrite Hdb4. apply status_of_update_status.
    rewrite idea_exists_put_evaluation.
    exact (SELECT_idea_exists _ _ _ Hidea2).
  - rewrite Hdb4. unfold SELECT_enrichment, update_status, put_evaluation.
    cbn [tbl_idea_enrichment]. exact Hrow2.
  - rewrite Hdb4. unfold SELECT_evaluation, update_status.
    cbn [tbl_idea_evaluation]. apply SELECT_evaluation_put.
  - now rewrite Hpool4.
Qed.

End Composition.

(** ** The further properties on sample data *)

Lemma getScoreColor_follows_route_witness :
  IdeaCard.getScoreColor 85%Q = "text-green-600"
  /\ routeIdea 85%Q "build-now" = GENERATE_BLUEPRINT
  /\ routeIdea 85%Q "partner" = DEFER_WITH_BLUEPRINT.
Proof.
  pose proof (getScoreColor_follows_route 85%Q "build-now") as H.
  cbv zeta in H. destruct H as (_ & _ & _ & Hgreen & _).
  pose proof (getScoreColor_follows_route 85%Q "partner") as H'.
  cbv zeta in H'. destruct H' as (_ & _ & _ & Hgreen' & _).
  split; [reflexivity |]. split.
  - exact (proj1 (Hgreen eq_refl) eq_refl).
  - apply (proj2 (Hgreen' eq_refl)). discriminate.
Defined.

Lemma statuses_stay_valid_witness :
  pool Sample.s_pending = []
  /\ statuses_valid (db Sample.s_pending)
  /\ statuses_valid
       (db (resume Sample.w_ok 0
              (Sample.handle Sample.w_ok (req_POST_analyze "idea-1")
                 Sample.s_pending))).
Proof.
  assert (H0 : statuses_valid (db Sample.s_pending)).
  { constructor; [cbn; tauto | constructor]. }
  split; [reflexivity |]. split; [exact H0 |].
  apply (@statuses_stay_valid Sample.json_enrichment Sample.json_evaluation
           Sample.json_mv Sample.json_tf Sample.json_re Sample.s_pending);
    [reflexivity | exact H0 |].
  apply reach_resume. apply reach_request. apply reach_start.
Defined.

Lemma idea_never_returns_to_pending_witness :
  let s2 := resume Sample.w_ok 0
              (resume Sample.w_ok 0
                 (resume Sample.w_ok 0
                    (Sample.handle Sample.w_ok (req_POST_enrich "idea-1")
                       Cases.s_archived))) in
  status_of "idea-1" (db Cases.s_archived) = Some "archived"
  /\ status_of "idea-1" (db s2) = Some "enriched"
  /\ exists st', status_of "idea-1" (db s2) = Some st'
                 /\ st' <> "pending"
                 /\ forall isAnalyzing : bool,
                      IdeaCard.analyze_disabled isAnalyzing st' = true.
Proof.
  cbv zeta. split; [reflexivity |]. split; [reflexivity |].
  apply (@idea_never_returns_to_pending Sample.json_enrichment
           Sample.json_evaluation Sample.json_mv Sample.json_tf
           Sample.json_re "idea-1" "archived" Cases.s_archived
           Cases.s_archived);
    [reflexivity | apply reach_start | reflexivity | discriminate |].
  apply reach_resume. apply reach_resume. apply reach_resume.
  apply reach_request. apply reach_start.
Defined.

Lemma ideas_keep_identity_witness :
  let s := resume Sample.w_ok 0
             (resume Sample.w_ok 0
                (Sample.handle Sample.w_ok (req_POST_analyze "idea-1")
                   Sample.s_pending)) in
  SELECT_idea "idea-1" (db Sample.s_pending) = Some Sample.idea
  /\ exists r', SELECT_idea "idea-1" (db s) = Some r'
                /\ same_identity Sample.idea r'.
Proof.
  cbv zeta. split; [reflexivity |].
  apply (@ideas_keep_identity Sample.json_enrichment Sample.json_evaluation
           Sample.json_mv Sample.json_tf Sample.json_re "idea-1" Sample.idea
           Sample.s_pending); [reflexivity |].
  apply reach_resume. apply reach_resume. apply reach_request.
  apply reach_start.
Defined.

Lemma stage_records_never_removed_witness :
  let s := resume Sample.w_enrich_fails 0
             (Sample.handle Sample.w_enrich_fails (req_POST_enrich "idea-1")
                Cases.s_enriched) in
  SELECT_enrichment "idea-1" (db Cases.s_enriched) <> None
  /\ SELECT_enrichment "idea-1" (db s) <> None.
Proof.
  cbv zeta.
  assert (H0 : SELECT_enrichment "idea-1" (db Cases.s_enriched) <> None)
    by (cbn; discriminate).
  split; [exact H0 |].
  refine (proj1 (@stage_records_never_removed Sample.json_enrichment
                   Sample.json_evaluation Sample.json_mv Sample.json_tf
                   Sample.json_re "idea-1" Cases.s_enriched _ _) H0).
  apply reach_resume. apply reach_request. apply reach_start.
Defined.

Lemma stage_records_belong_to_ideas_witness :
  let s := resume Sample.w_ok 0
             (resume Sample.w_ok 0
                (Sample.handle Sample.w_ok (req_POST_enrich "idea-1")
                   Sample.s_pending)) in
  constraints_hold (db Sample.s_pending)
  /\ enrichment_records "idea-1" (db s) <= 1
  /\ (SELECT_enrichment "idea-1" (db s) <> None
      -> SELECT_idea "idea-1" (db s) <> None).
Proof.
  cbv zeta.
  assert (H0 : constraints_hold (db Sample.s_pending)).
  { unfold constraints_hold. cbn.
    repeat split; try (intros r []); repeat constructor.
    intros []. }
  split; [exact H0 |].
  assert (Hreach : @reachable Sample.json_enrichment Sample.json_evaluation
                     Sample.json_mv Sample.json_tf Sample.json_re
                     Sample.s_pending
                     (resume Sample.w_ok 0
                        (resume Sample.w_ok 0
                           (Sample.handle Sample.w_ok
                              (req_POST_enrich "idea-1") Sample.s_pending)))).
  { apply reach_resume. apply reach_resume. apply reach_request.
    apply reach_start. }
  destruct (@stage_records_belong_to_ideas Sample.json_enrichment
              Sample.json_evaluation Sample.json_mv Sample.json_tf
              Sample.json_re Sample.s_pending _ H0 Hreach "idea-1")
    as (_ & Hone & _ & Hfk & _).
  split; [exact Hone | exact Hfk].
Defined.

Lemma one_response_per_request_witness :
  pool Sample.s_pending = []
  /\ List.length
       (responses
          (trace
             (@run_steps Sample.json_enrichment Sample.json_evaluation
                Sample.json_mv Sample.json_tf Sample.json_re
                [step_request Sample.w_ok (req_POST_analyze "idea-1");
                 step_resume Sample.w_ok 0;
                 step_request Sample.w_ok (req_GET_idea "idea-1");
                 step_resume Sample.w_ok 0;
                 step_resume Sample.w_ok 0]
                Sample.s_pending))) = 2.
Proof.
  split; [reflexivity |].
  exact (@one_response_per_request Sample.json_enrichment
           Sample.json_evaluation Sample.json_mv Sample.json_tf
           Sample.json_re
           [step_request Sample.w_ok (req_POST_analyze "idea-1");
            step_resume Sample.w_ok 0;
            step_request Sample.w_ok (req_GET_idea "idea-1");
            step_resume Sample.w_ok 0;
            step_resume Sample.w_ok 0]
           Sample.s_pending eq_refl).
Defined.

Lemma unknown_idea_not_found_witness :
  SELECT_idea "idea-9" (db Sample.s_pending) = None
  /\ Sample.handle Sample.w_ok (req_POST_analyze "idea-9") Sample.s_pending
     = log (ev_response {| res_status := 404;
                           res_body := body_error "Idea not found" |})
         Sample.s_pending.
Proof.
  split; [reflexivity |].
  pose proof (@unknown_idea_not_found Sample.json_enrichment
                Sample.json_evaluation Sample.json_mv Sample.json_tf
                Sample.json_re Sample.w_ok "idea-9" Sample.s_pending
                eq_refl) as H.
  cbv zeta in H. exact (proj2 (proj2 (proj2 H))).
Defined.

Lemma enrich_request_completes_witness :
  let s2 := complete Sample.w_ok 0
              (Sample.handle Sample.w_ok (req_POST_enrich "idea-1")
                 Cases.s_archived) in
  SELECT_idea "idea-1" (db Cases.s_archived) = Some Cases.archived_idea
  /\ @enrichIdea_outcome Sample.json_enrichment Sample.w_ok "Build a tool"
       (Some "for the platform team")
     = Ok Sample.enrichment
  /\ SELECT_idea "idea-1" (db s2)
     = Some {| ideas.id := "idea-1";
               ideas.source := "manual";
               ideas.raw_text := "Build a tool";
               ideas.created_at := "2025-01-01 10:00:00";
               ideas.context := Some "for the platform team";
               ideas.project_hint := None;
               ideas.status := "enriched";
               ideas.updated_at := "2025-01-01T10:00:02.000Z" |}
  /\ pool s2 = [].
Proof.
  cbv zeta.
  pose proof (@enrich_request_completes Sample.json_enrichment
                Sample.json_evaluation Sample.json_mv Sample.json_tf
                Sample.json_re Sample.w_ok "idea-1" Cases.archived_idea
                Sample.enrichment Cases.s_archived eq_refl eq_refl) as H.
  cbv zeta in H. destruct H as (_ & _ & _ & _ & Hidea & Hpool).
  split; [reflexivity |]. split; [reflexivity |].
  split; [exact Hidea | exact Hpool].
Defined.

Lemma evaluate_request_completes_witness :
  let s2 := complete Sample.w_ok 0
              (Sample.handle Sample.w_ok (req_POST_evaluate "idea-1")
                 Cases.s_enriched) in
  SELECT_idea "idea-1" (db Cases.s_enriched) = Some Cases.enriched_idea
  /\ fst (exec Sample.w_ok "idea-1" (Sample.getEnrichment "idea-1")
            Cases.s_enriched)
     = Ok (Some Cases.enrichment)
  /\ @evaluateIdea_outcome Sample.json_evaluation Sample.w_ok "Build a tool"
       Cases.enrichment
     = Ok Sample.evaluation
  /\ status_of "idea-1" (db s2) = Some "evaluated-ready"
  /\ tbl_idea_enrichment (db s2) = tbl_idea_enrichment (db Cases.s_enriched).
Proof.
  cbv zeta.
  pose proof (@evaluate_request_completes Sample.json_enrichment
                Sample.json_evaluation Sample.json_mv Sample.json_tf
                Sample.json_re Sample.w_ok "idea-1" Cases.enriched_idea
                Cases.enrichment Sample.evaluation Cases.s_enriched
                eq_refl eq_refl eq_refl) as H.
  cbv zeta in H. destruct H as (_ & _ & _ & _ & Hstatus & Hen & _).
  split; [reflexivity |]. split; [reflexivity |]. split; [reflexivity |].
  split; [exact Hstatus | exact Hen].
Defined.

Lemma enrichment_roundtrip_witness :
  idea_exists "idea-1" (db Sample.s_pending) = true
  /\ @enrichment_round_trips Sample.json_mv Sample.json_tf Sample.json_re
       Cases.enrichment
  /\ fst (exec Sample.w_ok "idea-1"
            (Sample.saveEnrichment "idea-1" Cases.enrichment ;;
             Sample.getEnrichment "idea-1")
            Sample.s_pending)
     = Ok (Some Cases.enrichment).
Proof.
  assert (Hjson : @enrichment_round_trips Sample.json_mv Sample.json_tf
                    Sample.json_re Cases.enrichment)
    by (repeat split; reflexivity).
  split; [reflexivity |]. split; [exact Hjson |].
  unfold Sample.saveEnrichment, Sample.getEnrichment.
  now rewrite (@enrichment_roundtrip Sample.json_mv Sample.json_tf
                 Sample.json_re Sample.w_ok "idea-1" "idea-1"
                 Cases.enrichment Sample.s_pending eq_refl Hjson).
Defined.

Lemma analyze_then_get_witness :
  let handle := @handle Cases.json_enrichment Sample.json_evaluation
                  Sample.json_mv Sample.json_tf Sample.json_re in
  let s2 := complete Sample.w_ok 0
              (handle Sample.w_ok (req_POST_analyze "idea-1")
                 Sample.s_pending) in
  let s3 := handle Sample.w_ok (req_GET_idea "idea-1") s2 in
  @enrichIdea_outcome Cases.json_enrichment Sample.w_ok "Build a tool" None
  = Ok Cases.enrichment
  /\ events_since s2 s3
     = [ev_response
          {| res_status := 200;
             res_body :=
               body_idea
                 {| ideas.id := "idea-1";
                    ideas.source := "manual";
                    ideas.raw_text := "Build a tool";
                    ideas.created_at := "2025-01-01 10:00:00";
                    ideas.context := None;
                    ideas.project_hint := None;
                    ideas.status := "evaluated-ready";
                    ideas.updated_at := "2025-01-01T10:00:09.000Z" |}
                 (Some Cases.enrichment)
                 (Some (with_rationale "Teams need to triage ideas"
                          Sample.evaluation)) |}].
Proof.
  cbv zeta.
  assert (Hjson : @enrichment_round_trips Sample.json_mv Sample.json_tf
                    Sample.json_re Cases.enrichment)
    by (repeat split; reflexivity).
  pose proof (@analyze_then_get Cases.json_enrichment Sample.json_evaluation
                Sample.json_mv Sample.json_tf Sample.json_re Sample.w_ok
                Sample.w_ok "idea-1" Sample.idea Cases.enrichment
                Sample.evaluation Sample.s_pending eq_refl eq_refl eq_refl
                Hjson) as H.
  cbv zeta in H. destruct H as (_ & _ & _ & Hget).
  split; [reflexivity | exact Hget].
Defined.

Lemma unreadable_enrichment_answers_500_witness :
  SELECT_idea "idea-1" (db Cases.s_corrupt) = Some Sample.idea
  /\ fst (exec Sample.w_ok "idea-1" (Sample.getEnrichment "idea-1")
            Cases.s_corrupt)
     = Err "SyntaxError: Unexpected token in JSON"
  /\ Sample.handle Sample.w_ok (req_POST_evaluate "idea-1") Cases.s_corrupt
     = log (ev_response
              {| res_status := 500;
                 res_body :=
                   body_error "SyntaxError: Unexpected token in JSON" |})
         Cases.s_corrupt.
Proof.
  pose proof (@unreadable_enrichment_answers_500 Sample.json_enrichment
                Sample.json_evaluation Sample.json_mv Sample.json_tf
                Sample.json_re Sample.w_ok "idea-1"
                "SyntaxError: Unexpected token in JSON" Sample.idea
                Cases.s_corrupt eq_refl eq_refl) as H.
  cbv zeta in H. destruct H as (_ & Hev & _).
  split; [reflexivity |]. split; [reflexivity | exact Hev].
Defined.

Lemma getEvaluation_without_case_studies_witness :
  SELECT_evaluation "idea-1" (db Cases.s_bare) = Some Cases.bare_row
  /\ idea_evaluation.case_study_matches Cases.bare_row = ""
  /\ fst (exec Sample.w_ok "idea-1" (getEvaluation "idea-1") Cases.s_bare)
     = Ok (Some {| jtbdAnalysis := "Teams need to triage ideas";
                   disruptionScore := (7 # 10)%Q;
                   capabilitiesFit := "strong";
                   recommendation := "build-now";
                   caseStudyMatches := [];
                   evaluationScore := 90%Q;
                   rationale := "Teams need to triage ideas" |}).
Proof.
  split; [reflexivity |]. split; [reflexivity |].
  now rewrite (getEvaluation_without_case_studies Sample.w_ok "idea-1"
                 "idea-1" Cases.bare_row Cases.s_bare eq_refl eq_refl).
Defined.

Lemma evaluateIdea_reads_first_text_block_witness :
  messages_create_result Cases.w_two_blocks
    (EVALUATION_PROMPT "Build a tool" Sample.enrichment)
  = Ok ([{| block_type := "tool_use"; block_text := "" |}]
        ++ Sample.text_block "evaluation_low.json"
        :: [Sample.text_block "evaluation.json"])%list
  /\ fst (exec Cases.w_two_blocks "idea-1"
            (@evaluateIdea Sample.json_evaluation "Build a tool"
               Sample.enrichment)
            Sample.s_pending)
     = Ok Sample.evaluation_low.
Proof.
  pose proof (@evaluateIdea_reads_first_text_block Sample.json_evaluation
                Cases.w_two_blocks "idea-1" "Build a tool" Sample.enrichment
                Sample.s_pending) as H.
  cbv zeta in H. destruct H as (Hfirst & _).
  split; [reflexivity |].
  refine (Hfirst [{| block_type := "tool_use"; block_text := "" |}]
            [Sample.text_block "evaluation.json"]
            (Sample.text_block "evaluation_low.json") eq_refl _ eq_refl).
  constructor; [discriminate | constructor].
Defined.

Lemma created_idea_is_served_witness :
  let req_body := {| rawText := Some "Build a tool";
                     body_context := Some "";
                     projectHint := Some "factory" |} in
  constraints_hold (db Sample.s_empty)
  /\ idea_exists "idea-2" (db Sample.s_empty) = false
  /\ responses
       (trace
          (Sample.handle Sample.w_ok (req_GET_idea "idea-2")
             (Sample.handle Sample.w_ok (req_POST_ideas req_body)
                Sample.s_empty)))
     = [{| res_status := 201;
           res_body := body_created "idea-2" "pending"
                         "Idea created. Run enrichment to analyze." |};
        {| res_status := 200;
           res_body :=
             body_idea
               {| ideas.id := "idea-2";
                  ideas.source := "manual";
                  ideas.raw_text := "Build a tool";
                  ideas.created_at := "2025-01-01 10:00:00";
                  ideas.context := None;
                  ideas.project_hint := Some "factory";
                  ideas.status := "pending";
                  ideas.updated_at := "2025-01-01 10:00:00" |}
               None None |}].
Proof.
  cbv zeta.
  assert (H0 : constraints_hold (db Sample.s_empty)).
  { unfold constraints_hold. cbn.
    repeat split; try (intros r []); constructor. }
  split; [exact H0 |]. split; [reflexivity |].
  assert (Hne : "Build a tool" <> "") by discriminate.
  exact (f_equal (fun s => responses (trace s))
           (@created_idea_is_served Sample.json_enrichment
              Sample.json_evaluation Sample.json_mv Sample.json_tf
              Sample.json_re Sample.w_ok Sample.w_ok
              {| rawText := Some "Build a tool";
                 body_context := Some "";
                 projectHint := Some "factory" |}
              "Build a tool" Sample.s_empty H0 eq_refl Hne eq_refl)).
Defined.

Lemma accepted_tasks_end_witness :
  SELECT_idea "idea-1" (db Sample.s_pending) = Some Sample.idea
  /\ pool (Sample.handle Sample.w_ok (req_POST_analyze "idea-1")
             Sample.s_pending) <> []
  /\ pool (@run_steps Sample.json_enrichment Sample.json_evaluation
             Sample.json_mv Sample.json_tf Sample.json_re
             (settlements 0
                [Sample.w_ok; Sample.w_ok; Sample.w_low_score; Sample.w_ok;
                 Sample.w_ok])
             (Sample.handle Sample.w_ok (req_POST_analyze "idea-1")
                Sample.s_pending))
     = [].
Proof.
  pose proof (@accepted_tasks_end Sample.json_enrichment
                Sample.json_evaluation Sample.json_mv Sample.json_tf
                Sample.json_re Sample.w_ok "idea-1" Sample.idea
                [Sample.w_ok; Sample.w_ok; Sample.w_low_score; Sample.w_ok;
                 Sample.w_ok]
                Sample.s_pending eq_refl) as H.
  cbv zeta in H. destruct H as (_ & Han & _).
  split; [reflexivity |]. split; [discriminate |].
  exact (Han eq_refl).
Defined.

Lemma enrich_then_evaluate_witness :
  let handle := @handle Cases.json_enrichment Sample.json_evaluation
                  Sample.json_mv Sample.json_tf Sample.json_re in
  let s2 := complete Sample.w_ok 0
              (handle Sample.w_ok (req_POST_enrich "idea-1")
                 Sample.s_pending) in
  let s4 := complete Sample.w_low_score 0
              (handle Sample.w_low_score (req_POST_evaluate "idea-1") s2) in
  @enrichIdea_outcome Cases.json_enrichment Sample.w_ok "Build a tool" None
  = Ok Cases.enrichment
  /\ @evaluateIdea_outcome Sample.json_evaluation Sample.w_low_score
       "Build a tool" Cases.enrichment
     = Ok Sample.evaluation_low
  /\ status_of "idea-1" (db s2) = Some "enriched"
  /\ status_of "idea-1" (db s4) = Some "archived"
  /\ pool s4 = [].
Proof.
  cbv zeta.
  assert (Hjson : @enrichment_round_trips Sample.json_mv Sample.json_tf
                    Sample.json_re Cases.enrichment)
    by (repeat split; reflexivity).
  pose proof (@enrich_then_evaluate Cases.json_enrichment
                Sample.json_evaluation Sample.json_mv Sample.json_tf
                Sample.json_re Sample.w_ok Sample.w_low_score "idea-1"
                Sample.idea Cases.enrichment Sample.evaluation_low
                Sample.s_pending eq_refl eq_refl Hjson eq_refl) as H.
  cbv zeta in H.
  destruct H as (Hst2 & _ & _ & Hst4 & _ & _ & Hpool).
  split; [reflexivity |]. split; [reflexivity |].
  split; [exact Hst2 |]. split; [exact Hst4 | exact Hpool].
Defined.
